(** * Phishing Army "new records" tracker: a shallow embedding

    Source: [update_and_extract_new.py].  The script probes a remote
    blocklist with a HEAD request, compares the [Last-Modified] header with
    a stored epoch, downloads the list when the two differ, diffs it
    against a cached copy and rewrites three files.

    Conventions of the embedding:
    - a Python [str] is a [string]; every character is the code point
      0..255 that its [ascii] encodes, so the text handled here is the
      Latin-1 repertoire.  On that repertoire [str.isspace],
      [str.splitlines], [str.split], [str.lower], [str.isdigit] and [int]
      are modelled character for character after CPython 3.11;
    - a Python [int] is a [Z];
    - a Python [set] of strings is a [gset string];
    - a call that may raise returns a [result]; the stateful functions
      run in a small state-and-exception monad over the three files and a
      log of the calls performed;
    - a file holds bytes; what matters of them here is the text that
      the encoding of the locale decodes them to, or that it decodes
      them to none;
    - [print] output is not modelled. *)

From Stdlib Require Import ZArith Lia Bool Ascii String List DecimalString.
From Stdlib Require DecimalFacts DecimalPos.
From stdpp Require Import base decidable option list sorting gmap strings.

Import ListNotations.
Local Open Scope string_scope.
Local Open Scope Z_scope.

(** ** Python string primitives *)

Module PyStr.

Definition code (c : ascii) : Z := Z.of_N (N_of_ascii c).

(** [str.isspace] for one character (Latin-1 range): TAB..CR, FS..US,
    SPACE, NEL and NBSP. *)
Definition isspace (c : ascii) : bool :=
  let n := code c in
  ((9 <=? n) && (n <=? 13)) || ((28 <=? n) && (n <=? 32))
  || (n =? 133) || (n =? 160).

(** The line boundaries of [str.splitlines] (Latin-1 range): LF, VT, FF,
    CR, FS, GS, RS and NEL. *)
Definition islinebreak (c : ascii) : bool :=
  let n := code c in
  ((10 <=? n) && (n <=? 13)) || ((28 <=? n) && (n <=? 30)) || (n =? 133).

Definition is_cr (c : ascii) : bool := code c =? 13.
Definition is_lf (c : ascii) : bool := code c =? 10.

(** [bool(s)]: a string is truthy when it is not empty. *)
Definition truthy (s : string) : bool :=
  match s with EmptyString => false | String _ _ => true end.

(** [s.lstrip()], [s.rstrip()], [s.strip()] *)
Fixpoint lstrip (s : string) : string :=
  match s with
  | EmptyString => EmptyString
  | String c r => if isspace c then lstrip r else s
  end.

Fixpoint rstrip (s : string) : string :=
  match s with
  | EmptyString => EmptyString
  | String c r =>
      match rstrip r with
      | EmptyString => if isspace c then EmptyString else String c EmptyString
      | r' => String c r'
      end
  end.

Definition strip (s : string) : string := rstrip (lstrip s).

(** [s.startswith(p)] *)
Fixpoint startswith (s p : string) : bool :=
  match p, s with
  | EmptyString, _ => true
  | String _ _, EmptyString => false
  | String a p', String b s' => if ascii_dec a b then startswith s' p' else false
  end.

(** Prepend a character to the first element of a list of pieces; used by
    the splitting functions, whose first piece is the one being read. *)
Definition cons_head (c : ascii) (l : list string) : list string :=
  match l with
  | [] => [String c EmptyString]
  | t :: ts => String c t :: ts
  end.

(** [s.splitlines()]: cut at every line boundary, CR LF counting as one;
    the boundaries are dropped and a final boundary opens no empty line. *)
Fixpoint splitlines (s : string) : list string :=
  match s with
  | EmptyString => []
  | String c r =>
      if is_cr c then
        match r with
        | String c' r' => if is_lf c' then EmptyString :: splitlines r'
                          else EmptyString :: splitlines r
        | EmptyString => [EmptyString]
        end
      else if islinebreak c then EmptyString :: splitlines r
      else cons_head c (splitlines r)
  end.

(** [s.endswith(p)] for a one-character [p], and [s[-1]], [s[:-1]]. *)
Fixpoint last_char (s : string) : option ascii :=
  match s with
  | EmptyString => None
  | String c EmptyString => Some c
  | String _ r => last_char r
  end.

Fixpoint drop_last (s : string) : string :=
  match s with
  | EmptyString => EmptyString
  | String _ EmptyString => EmptyString
  | String c r => String c (drop_last r)
  end.

Definition endswith_char (s : string) (c : ascii) : bool :=
  match last_char s with
  | Some c' => if ascii_dec c' c then true else false
  | None => false
  end.

Definition first_char (s : string) : option ascii :=
  match s with EmptyString => None | String c _ => Some c end.

(** [s.find(c)] and [s.rfind(c)] for a one-character [c]: the index of the
    first (last) occurrence, -1 when there is none. *)
Fixpoint find (s : string) (c : ascii) : Z :=
  match s with
  | EmptyString => -1
  | String c' r =>
      if ascii_dec c' c then 0
      else let i := find r c in if i =? -1 then -1 else i + 1
  end.

Fixpoint rfind (s : string) (c : ascii) : Z :=
  match s with
  | EmptyString => -1
  | String c' r =>
      let i := rfind r c in
      if i =? -1 then (if ascii_dec c' c then 0 else -1) else i + 1
  end.

(** [s[:n]] and [s[n:]] for [0 <= n]. *)
Fixpoint take (n : nat) (s : string) : string :=
  match n, s with
  | O, _ => EmptyString
  | S _, EmptyString => EmptyString
  | S n', String c r => String c (take n' r)
  end.

Fixpoint drop (n : nat) (s : string) : string :=
  match n, s with
  | O, _ => s
  | S _, EmptyString => EmptyString
  | S n', String _ r => drop n' r
  end.

(** [c in s] for a one-character [c]. *)
Definition contains (s : string) (c : ascii) : bool := negb (find s c =? -1).

(** [s.split()]: the maximal runs of characters that are not white space. *)
Fixpoint split (s : string) : list string :=
  match s with
  | EmptyString => []
  | String c r =>
      if isspace c then split r
      else match r with
           | EmptyString => [String c EmptyString]
           | String c' _ =>
               if isspace c' then String c EmptyString :: split r
               else cons_head c (split r)
           end
  end.

(** [s.split(sep)] for a one-character [sep]: empty pieces are kept and the
    result always has at least one piece. *)
Fixpoint split_on (sep : ascii) (s : string) : list string :=
  match s with
  | EmptyString => [EmptyString]
  | String c r =>
      if ascii_dec c sep then EmptyString :: split_on sep r
      else cons_head c (split_on sep r)
  end.

(** [str.lower] and [str.upper], character by character.  In Latin-1 the
    letters are A-Z, a-z and the accented blocks C0-DE / E0-FE without the
    signs D7 and F7.  Three characters have an upper case outside Latin-1
    or of two letters (B5, DF, FF); [upper] leaves them as they are, which
    changes no comparison made below: the result is compared with ASCII
    words, converted by [int] and tested for a leading minus only. *)
Definition lower_char (c : ascii) : ascii :=
  let n := code c in
  if ((65 <=? n) && (n <=? 90))
     || ((192 <=? n) && (n <=? 222) && negb (n =? 215))
  then ascii_of_N (Z.to_N (n + 32)) else c.

Definition upper_char (c : ascii) : ascii :=
  let n := code c in
  if ((97 <=? n) && (n <=? 122))
     || ((224 <=? n) && (n <=? 254) && negb (n =? 247))
  then ascii_of_N (Z.to_N (n - 32)) else c.

Fixpoint map_chars (f : ascii -> ascii) (s : string) : string :=
  match s with
  | EmptyString => EmptyString
  | String c r => String (f c) (map_chars f r)
  end.

Definition lower : string -> string := map_chars lower_char.
Definition upper : string -> string := map_chars upper_char.

(** [c.isdigit()] (Latin-1 range): 0-9 and the superscripts B2, B3, B9. *)
Definition isdigit (c : ascii) : bool :=
  let n := code c in
  ((48 <=? n) && (n <=? 57)) || (n =? 178) || (n =? 179) || (n =? 185).

(** [x in l] and [l.index(x)] for a list of strings. *)
Definition mem (x : string) (l : list string) : bool :=
  existsb (String.eqb x) l.

Fixpoint index_of (x : string) (l : list string) : Z :=
  match l with
  | [] => 0
  | y :: l' => if String.eqb x y then 0 else 1 + index_of x l'
  end.

End PyStr.

(** ** Python integers and their decimal text *)

Module PyInt.

(** White space that [int] skips at both ends of its argument: the C
    [isspace] set, and NEL and NBSP, which the conversion of a non-ASCII
    argument turns into blanks.  FS..US are white space for [str.strip]
    but not for [int]. *)
Definition isspace_int (c : ascii) : bool :=
  let n := PyStr.code c in
  ((9 <=? n) && (n <=? 13)) || (n =? 32) || (n =? 133) || (n =? 160).

Fixpoint lskip (s : string) : string :=
  match s with
  | EmptyString => EmptyString
  | String c r => if isspace_int c then lskip r else s
  end.

Fixpoint rskip (s : string) : string :=
  match s with
  | EmptyString => EmptyString
  | String c r =>
      match rskip r with
      | EmptyString => if isspace_int c then EmptyString else String c EmptyString
      | r' => String c r'
      end
  end.

Definition is_dec (c : ascii) : bool :=
  let n := PyStr.code c in (48 <=? n) && (n <=? 57).

Definition dec_val (c : ascii) : Z := PyStr.code c - 48.

(** The digits of a literal: decimal digits, single underscores allowed
    between two digits only.  [prev_us] tells that the previous character
    was an underscore; [acc] is the value read so far and [n] the number
    of digits read.  A leading underscore and a literal without digits
    are rejected by the caller. *)
Fixpoint digits (s : string) (prev_us : bool) (acc : Z) (n : Z) : option (Z * Z) :=
  match s with
  | EmptyString => if prev_us then None else Some (acc, n)
  | String c r =>
      if is_dec c then digits r false (10 * acc + dec_val c) (n + 1)
      else if ascii_dec c "_" then
             (if prev_us then None else digits r true acc n)
      else None
  end.

(** [sys.int_max_str_digits], the default limit on the digits of a
    literal; a longer one raises [ValueError]. *)
Definition max_str_digits : Z := 4300.

(** [int(s)]; [None] stands for [ValueError]. *)
Definition int (s : string) : option Z :=
  let s := rskip (lskip s) in
  let '(sign, body) :=
    match s with
    | String "+" r => (1, r)
    | String "-" r => (-1, r)
    | _ => (1, s)
    end in
  match body with
  | String "_" _ => None
  | _ =>
      match digits body false 0 0 with
      | Some (v, n) =>
          if (n =? 0) || (max_str_digits <? n) then None else Some (sign * v)
      | None => None
      end
  end.

(** [str(n)] *)
Definition str (n : Z) : string :=
  DecimalString.NilZero.string_of_int (Z.to_int n).

(** [str(n).zfill(w)] for [0 <= n], as [%02d] and the like print it. *)
Fixpoint zeros (k : nat) (s : string) : string :=
  match k with
  | O => s
  | S k' => String "0" (zeros k' s)
  end.

Definition zfill (w : nat) (s : string) : string :=
  zeros (w - String.length s) s.

Definition pad (w : nat) (n : Z) : string := zfill w (str n).

End PyInt.

(** ** Exceptions and results *)

(** The exception classes that can leave the functions modelled here.
    [RequestException] stands for everything [requests.head],
    [requests.get] and [raise_for_status] raise.  [UnicodeDecodeError]
    is a subclass of [ValueError]: a handler for [ValueError] catches
    both. *)
Inductive exn : Type :=
  | RequestException
  | ValueError
  | UnicodeDecodeError
  | OverflowError
  | OSError.

Inductive result (A : Type) : Type :=
  | Return (a : A)
  | Raise (e : exn).
Arguments Return {A} a.
Arguments Raise {A} e.

(** ** The [datetime] module *)

Module PyDate.

Definition is_leap (y : Z) : bool :=
  (y mod 4 =? 0) && (negb (y mod 100 =? 0) || (y mod 400 =? 0)).

Definition _DAYS_IN_MONTH : list Z :=
  [-1; 31; 28; 31; 30; 31; 30; 31; 31; 30; 31; 30; 31].

Definition _DAYS_BEFORE_MONTH : list Z :=
  [-1; 0; 31; 59; 90; 120; 151; 181; 212; 243; 273; 304; 334].

Definition days_before_year (year : Z) : Z :=
  let y := year - 1 in y * 365 + y / 4 - y / 100 + y / 400.

Definition days_in_month (year month : Z) : Z :=
  if (month =? 2) && is_leap year then 29
  else nth (Z.to_nat month) _DAYS_IN_MONTH 0.

Definition days_before_month (year month : Z) : Z :=
  nth (Z.to_nat month) _DAYS_BEFORE_MONTH 0
  + (if (2 <? month) && is_leap year then 1 else 0).

(** Day number of a date, 1 for 0001-01-01. *)
Definition ymd2ord (year month day : Z) : Z :=
  days_before_year year + days_before_month year month + day.

(** The date of a day number, by cycles of 400, 100, 4 and 1 years. *)
Definition ord2ymd (n : Z) : Z * Z * Z :=
  let n := n - 1 in
  let n400 := n / 146097 in
  let n := n mod 146097 in
  let year := n400 * 400 + 1 in
  let n100 := n / 36524 in
  let n := n mod 36524 in
  let n4 := n / 1461 in
  let n := n mod 1461 in
  let n1 := n / 365 in
  let n := n mod 365 in
  let year := year + n100 * 100 + n4 * 4 + n1 in
  if (n1 =? 4) || (n100 =? 4) then (year - 1, 12, 31)
  else
    let leapyear := (n1 =? 3) && (negb (n4 =? 24) || (n100 =? 3)) in
    let month := (n + 50) / 32 in
    let preceding :=
      nth (Z.to_nat month) _DAYS_BEFORE_MONTH 0
      + (if (2 <? month) && leapyear then 1 else 0) in
    if n <? preceding then
      let month := month - 1 in
      let preceding :=
        preceding
        - (nth (Z.to_nat month) _DAYS_IN_MONTH 0
           + (if (month =? 2) && leapyear then 1 else 0)) in
      (year, month, n - preceding + 1)
    else (year, month, n - preceding + 1).

(** An instant as [datetime] holds it (the microseconds, always zero
    here, are left out); [tzinfo] is the offset from UTC in seconds of an
    aware value and [None] for a naive one. *)
Record datetime : Type := mk_datetime {
  year : Z; month : Z; day : Z;
  hour : Z; minute : Z; second : Z;
  tzinfo : option Z
}.

Definition MINYEAR : Z := 1.
Definition MAXYEAR : Z := 9999.

Definition fits_c_int (n : Z) : bool := (- 2147483648 <=? n) && (n <=? 2147483647).

(** [datetime(year, month, day, hour, minute, second, tzinfo=tz)]: the
    arguments are first converted to C integers, then checked against
    the calendar. *)
Definition datetime_new (y m d hh mi ss : Z) (tz : option Z) : result datetime :=
  if negb (fits_c_int y && fits_c_int m && fits_c_int d
           && fits_c_int hh && fits_c_int mi && fits_c_int ss)
  then Raise OverflowError
  else if negb ((MINYEAR <=? y) && (y <=? MAXYEAR)) then Raise ValueError
  else if negb ((1 <=? m) && (m <=? 12)) then Raise ValueError
  else if negb ((1 <=? d) && (d <=? days_in_month y m)) then Raise ValueError
  else if negb ((0 <=? hh) && (hh <=? 23)) then Raise ValueError
  else if negb ((0 <=? mi) && (mi <=? 59)) then Raise ValueError
  else if negb ((0 <=? ss) && (ss <=? 59)) then Raise ValueError
  else Return (mk_datetime y m d hh mi ss tz).

(** [timezone(timedelta(seconds=s))]: a [timedelta] holds at most
    999999999 days in either direction, and an offset must lie strictly
    between -24 and 24 hours. *)
Definition timezone_of_seconds (s : Z) : result Z :=
  let days := s / 86400 in
  if negb ((- 999999999 <=? days) && (days <=? 999999999)) then Raise OverflowError
  else if negb ((- 86400 <? s) && (s <? 86400)) then Raise ValueError
  else Return s.

(** Seconds from 1970-01-01 00:00:00 to the wall-clock reading of [dt],
    no offset applied; 719163 is the day number of 1970-01-01. *)
Definition wall_seconds (dt : datetime) : Z :=
  (ymd2ord (year dt) (month dt) (day dt) - 719163) * 86400
  + hour dt * 3600 + minute dt * 60 + second dt.

Definition _daynames_abbr : list string :=
  ["Mon"; "Tue"; "Wed"; "Thu"; "Fri"; "Sat"; "Sun"].

Definition _monthnames_abbr : list string :=
  [EmptyString; "Jan"; "Feb"; "Mar"; "Apr"; "May"; "Jun";
   "Jul"; "Aug"; "Sep"; "Oct"; "Nov"; "Dec"].

(** [dt.weekday()], Monday being 0. *)
Definition weekday (dt : datetime) : Z :=
  (ymd2ord (year dt) (month dt) (day dt) + 6) mod 7.

Section Platform.

(** What the platform decides.  [year_zero_padded] tells whether
    [strftime] prints [%Y] on four digits at least (CPython 3.13 and the
    non-GNU C libraries) or without leading zeros (glibc before that).
    [mktime_local] gives the POSIX time of a naive wall-clock reading in
    the time zone of the machine, and is what [timestamp()] of a naive
    [datetime] computes. *)
Variable year_zero_padded : bool.
Variable mktime_local : Z -> Z.

(** [int(dt.timestamp())] *)
Definition timestamp (dt : datetime) : Z :=
  match tzinfo dt with
  | Some off => wall_seconds dt - off
  | None => mktime_local (wall_seconds dt)
  end.

(** [datetime.fromtimestamp(epoch, UTC)] for an integer [epoch]: the
    argument must fit the 64-bit [time_t] ([OverflowError]), [gmtime]
    must be able to hold its year in a C [int] ([OSError]), and the year
    must be one [datetime] accepts ([ValueError]). *)
Definition fromtimestamp_utc (epoch : Z) : result datetime :=
  if negb ((- 9223372036854775808 <=? epoch) && (epoch <=? 9223372036854775807))
  then Raise OverflowError
  else if negb ((- 67768040609740800 <=? epoch) && (epoch <=? 67768036191676799))
  then Raise OSError
  else
    let '(y, m, d) := ord2ymd (epoch / 86400 + 719163) in
    let s := epoch mod 86400 in
    if negb ((MINYEAR <=? y) && (y <=? MAXYEAR)) then Raise ValueError
    else Return (mk_datetime y m d (s / 3600) (s / 60 mod 60) (s mod 60) (Some 0)).

Definition strftime_Y (y : Z) : string :=
  if year_zero_padded then PyInt.pad 4 y else PyInt.str y.

(** [dt.strftime('%a, %d %b %Y %H:%M:%S GMT')] in the C locale. *)
Definition strftime_http (dt : datetime) : string :=
  nth (Z.to_nat (weekday dt)) _daynames_abbr EmptyString ++ ", "
  ++ PyInt.pad 2 (day dt) ++ " "
  ++ nth (Z.to_nat (month dt)) _monthnames_abbr EmptyString ++ " "
  ++ strftime_Y (year dt) ++ " "
  ++ PyInt.pad 2 (hour dt) ++ ":" ++ PyInt.pad 2 (minute dt) ++ ":"
  ++ PyInt.pad 2 (second dt) ++ " GMT".

End Platform.

End PyDate.

(** ** [email.utils.parsedate_to_datetime] *)

Module PyEmail.

Import PyStr.

Definition _monthnames : list string :=
  ["jan"; "feb"; "mar"; "apr"; "may"; "jun"; "jul";
   "aug"; "sep"; "oct"; "nov"; "dec";
   "january"; "february"; "march"; "april"; "may"; "june"; "july";
   "august"; "september"; "october"; "november"; "december"].

Definition _daynames : list string :=
  ["mon"; "tue"; "wed"; "thu"; "fri"; "sat"; "sun"].

Definition _timezones : list (string * Z) :=
  [("UT", 0); ("UTC", 0); ("GMT", 0); ("Z", 0);
   ("AST", -400); ("ADT", -300);
   ("EST", -500); ("EDT", -400);
   ("CST", -600); ("CDT", -500);
   ("MST", -700); ("MDT", -600);
   ("PST", -800); ("PDT", -700)].

Fixpoint lookup_zone (tz : string) (l : list (string * Z)) : option Z :=
  match l with
  | [] => None
  | (k, v) :: l' => if String.eqb tz k then Some v else lookup_zone tz l'
  end.

(** The fields [_parsedate_tz] returns that its callers read: year,
    month, day, hour, minute, second and the offset in seconds. *)
Record date_tuple : Type := mk_date_tuple {
  t_year : Z; t_month : Z; t_day : Z;
  t_hour : Z; t_minute : Z; t_second : Z;
  t_offset : option Z
}.

(** A leading day name is dropped; otherwise the first word loses what
    precedes its last comma. *)
Definition skip_dayname (data : list string) : list string :=
  match data with
  | [] => []
  | d0 :: rest =>
      if endswith_char d0 "," || mem (lower d0) _daynames then rest
      else
        let i := rfind d0 "," in
        if 0 <=? i then drop (Z.to_nat (i + 1)) d0 :: rest else data
  end.

(** The RFC 850 form, whose date is one word [dd-mm-yy]. *)
Definition split_rfc850 (data : list string) : list string :=
  match data with
  | [d0; d1; d2] =>
      let stuff := split_on "-" d0 in
      if (List.length stuff =? 3)%nat then stuff ++ [d1; d2] else data
  | _ => data
  end.

(** With four words the zone may be glued to the time; it is cut off at
    the first sign, and an empty zone is supplied when there is none. *)
Definition split_zone (data : list string) : list string :=
  match data with
  | [d0; d1; d2; s] =>
      let i := find s "+" in
      let i := if i =? -1 then find s "-" else i in
      if 0 <? i then [d0; d1; d2; take (Z.to_nat i) s; drop (Z.to_nat i) s]
      else data ++ [EmptyString]
  | _ => data
  end.

(** The hour, minute and second words of the time. *)
Definition split_time (tm : string) : option (string * string * string) :=
  match split_on ":" tm with
  | [thh; tmm] => Some (thh, tmm, "0")
  | [thh; tmm; tss] => Some (thh, tmm, tss)
  | [t0] =>
      if contains t0 "." then
        match split_on "." t0 with
        | [thh; tmm] => Some (thh, tmm, "0")
        | [thh; tmm; tss] => Some (thh, tmm, tss)
        | _ => None
        end
      else None
  | _ => None
  end.

(** Two-digit years: 69..99 are 1969..1999 and 0..68 are 2000..2068. *)
Definition fix_year (yy : Z) : Z :=
  if yy <? 100 then (if 68 <? yy then yy + 1900 else yy + 2000) else yy.

(** The zone word: a name of the table, else a signed [hhmm] number; a
    zero written with a minus sign means that the zone is unknown. *)
Definition zone_offset (tz : string) : option Z :=
  let tz := upper tz in
  let tzoffset :=
    match lookup_zone tz _timezones with
    | Some v => Some v
    | None =>
        match PyInt.int tz with
        | Some 0 => if startswith tz "-" then None else Some 0
        | o => o
        end
    end in
  match tzoffset with
  | Some o =>
      if o =? 0 then Some 0
      else if o <? 0 then Some (- ((- o / 100) * 3600 + (- o mod 100) * 60))
      else Some ((o / 100) * 3600 + (o mod 100) * 60)
  | None => None
  end.

(** The part of [_parsedate_tz] that follows
    [[dd, mm, yy, tm, tz] = data].  The subscripts [dd[-1]], [yy[-1]],
    [yy[0]] and [tm[-1]] are applied to words that are not empty there,
    so none of them raises. *)
Definition parse_fields (dd mm yy tm tz : string) : option date_tuple :=
  if negb (truthy dd && truthy mm && truthy yy) then None else
  let mm := lower mm in
  let swap := negb (mem mm _monthnames) in
  let dd' := if swap then mm else dd in
  let mm := if swap then lower dd else mm in
  let dd := dd' in
  if negb (mem mm _monthnames) then None else
  let mm := index_of mm _monthnames + 1 in
  let mm := if 12 <? mm then mm - 12 else mm in
  let dd := if endswith_char dd "," then drop_last dd else dd in
  let i := find yy ":" in
  let yy' := if 0 <? i then tm else yy in
  let tm := if 0 <? i then yy else tm in
  let yy := yy' in
  let yy_comma := endswith_char yy "," in
  let yy := if yy_comma then drop_last yy else yy in
  if yy_comma && negb (truthy yy) then None else
  let swap := negb (match first_char yy with Some c => isdigit c | None => false end) in
  let yy' := if swap then tz else yy in
  let tz := if swap then yy else tz in
  let yy := yy' in
  let tm := if endswith_char tm "," then drop_last tm else tm in
  match split_time tm with
  | None => None
  | Some (thh, tmm, tss) =>
      match PyInt.int yy, PyInt.int dd, PyInt.int thh, PyInt.int tmm, PyInt.int tss with
      | Some yy, Some dd, Some thh, Some tmm, Some tss =>
          Some (mk_date_tuple (fix_year yy) mm dd thh tmm tss (zone_offset tz))
      | _, _, _, _, _ => None
      end
  end.

Definition _parsedate_tz (data : string) : option date_tuple :=
  if negb (truthy data) then None else
  let data := split data in
  match data with
  | [] => None
  | _ =>
      let data := skip_dayname data in
      let data := split_rfc850 data in
      let data := split_zone data in
      match data with
      | dd :: mm :: yy :: tm :: tz :: _ => parse_fields dd mm yy tm tz
      | _ => None
      end
  end.

(** [parsedate_to_datetime(data)]: the time zone is built first, being
    an argument of the call that builds the [datetime]. *)
Definition parsedate_to_datetime (data : string) : result PyDate.datetime :=
  match _parsedate_tz data with
  | None => Raise ValueError
  | Some t =>
      match t_offset t with
      | None =>
          PyDate.datetime_new (t_year t) (t_month t) (t_day t)
            (t_hour t) (t_minute t) (t_second t) None
      | Some tz =>
          match PyDate.timezone_of_seconds tz with
          | Raise e => Raise e
          | Return off =>
              PyDate.datetime_new (t_year t) (t_month t) (t_day t)
                (t_hour t) (t_minute t) (t_second t) (Some off)
          end
      end
  end.

End PyEmail.

(** ** The files, the network and the log of calls *)

Definition BLOCKLIST_URL : string :=
  "https://phishing.army/download/phishing_army_blocklist_extended.txt".

(** What a file holds: bytes that the encoding of the locale decodes
    to a text, which is what a text-mode write of that text leaves, or
    bytes that it does not decode. *)
Inductive file_data : Type :=
  | Text (text : string)
  | Undecodable.

(** The three files of the working directory, named after the constants
    that hold their paths; [None] is a file that does not exist. *)
Record files : Type := mk_files {
  LAST_MODIFIED_FILE : option file_data;
  CACHE_FILE : option file_data;
  OUTPUT_FILE : option file_data
}.

(** What the outside answers during one run: the outcome of the HEAD
    request with the [Last-Modified] header of its response if any, the
    outcome of the GET request with the body, and the text that
    [datetime.now(UTC).strftime(...)] gives when the report is written. *)
Record world : Type := mk_world {
  head_response : result (option string);
  get_response : result string;
  now_text : string
}.

(** The functions of the script, as entries of the log of calls. *)
Inductive call : Type :=
  | Call_load_last_modified
  | Call_check_last_modified
  | Call_download_blocklist
  | Call_load_cached_content
  | Call_save_new_records
  | Call_save_cached_content
  | Call_save_last_modified
  | Call_commit_changes.

Record state : Type := mk_state {
  fs : files;
  calls : list call
}.

(** State and exceptions: a computation maps a state to its outcome and
    the state it leaves, also when it raises. *)
Definition M (A : Type) : Type := state -> result A * state.

Definition ret {A} (a : A) : M A := fun s => (Return a, s).
Definition raise {A} (e : exn) : M A := fun s => (Raise e, s).
Definition lift {A} (r : result A) : M A := fun s => (r, s).

Definition bind {A B} (m : M A) (k : A -> M B) : M B :=
  fun s =>
    match m s with
    | (Return a, s') => k a s'
    | (Raise e, s') => (Raise e, s')
    end.

Declare Scope run_scope.
Delimit Scope run_scope with run.
Notation "x <- m ;; k" := (bind m (fun x => k))
  (at level 100, m at next level, right associativity) : run_scope.
Notation "m ;; k" := (bind m (fun _ => k))
  (at level 100, right associativity) : run_scope.
Local Open Scope run_scope.

Definition enter (c : call) : M unit :=
  fun s => (Return tt, mk_state (fs s) (calls s ++ [c])).

Definition get_files : M files := fun s => (Return (fs s), s).

Definition put_files (f : files) : M unit :=
  fun s => (Return tt, mk_state f (calls s)).

Definition LF : ascii := ascii_of_nat 10.
Definition nl : string := String LF EmptyString.

(** Newlines on reading in text mode: CR LF and a lone CR come back as
    LF. *)
Fixpoint universal_newlines (s : string) : string :=
  match s with
  | EmptyString => EmptyString
  | String c r =>
      if PyStr.is_cr c then
        match r with
        | String c' r' =>
            if PyStr.is_lf c' then String LF (universal_newlines r')
            else String LF (universal_newlines r)
        | EmptyString => nl
        end
      else String c (universal_newlines r)
  end.

(** [f.read()] on a file opened with [open(path, 'r')]: the bytes are
    decoded, which raises [UnicodeDecodeError] when they do not decode,
    and the newlines are translated. *)
Definition read_text (data : file_data) : result string :=
  match data with
  | Text text => Return (universal_newlines text)
  | Undecodable => Raise UnicodeDecodeError
  end.

(** [sorted(records)]: strings compare by code points. *)
Definition str_le (a b : string) : Prop := String.leb a b = true.

#[global] Instance str_le_dec (a b : string) : Decision (str_le a b).
Proof. unfold str_le. apply _. Defined.

Definition sorted (records : gset string) : list string :=
  merge_sort str_le (elements records).

(** What the platform decides (see [PyDate]): the padding of [%Y] and
    the local time zone. *)
Class platform : Type := mk_platform {
  year_zero_padded : bool;
  mktime_local : Z -> Z
}.

Section Program.

Context {P : platform}.

(** *** Dates (source lines 20-39) *)

Definition parse_http_date (http_date_str : string) : result (option Z) :=
  if negb (PyStr.truthy http_date_str) then Return None
  else
    match PyEmail.parsedate_to_datetime http_date_str with
    | Return dt => Return (Some (PyDate.timestamp mktime_local dt))
    | Raise ValueError | Raise UnicodeDecodeError => Return None
    | Raise e => Raise e
    end.

Definition epoch_to_http_date (epoch : Z) : result string :=
  match PyDate.fromtimestamp_utc epoch with
  | Return dt => Return (PyDate.strftime_http year_zero_padded dt)
  | Raise e => Raise e
  end.

(** *** The stored timestamp (source lines 41-61) *)

Definition load_last_modified : M (option Z) :=
  enter Call_load_last_modified ;;
  f <- get_files ;;
  match LAST_MODIFIED_FILE f with
  | Some data =>
      text <- lift (read_text data) ;;
      let epoch_str := PyStr.strip text in
      match PyInt.int epoch_str with
      | Some epoch =>
          match epoch_to_http_date epoch with
          | Return _ => ret (Some epoch)
          | Raise ValueError | Raise UnicodeDecodeError => ret None
          | Raise e => raise e
          end
      | None => ret None
      end
  | None => ret None
  end.

Definition save_last_modified (epoch : Z) : M unit :=
  enter Call_save_last_modified ;;
  f <- get_files ;;
  put_files (mk_files (Some (Text (PyInt.str epoch))) (CACHE_FILE f) (OUTPUT_FILE f)) ;;
  _ <- lift (epoch_to_http_date epoch) ;;
  ret tt.

(** *** The probe and the download (source lines 63-97) *)

Definition check_last_modified (w : world) : M (option Z) :=
  enter Call_check_last_modified ;;
  headers <- lift (head_response w) ;;
  match headers with
  | None => ret None
  | Some last_modified_str =>
      if negb (PyStr.truthy last_modified_str) then ret None
      else
        last_modified_epoch <- lift (parse_http_date last_modified_str) ;;
        match last_modified_epoch with
        | None => ret None
        | Some e => if e =? 0 then ret None else ret (Some e)
        end
  end.

Definition download_blocklist (w : world) : M string :=
  enter Call_download_blocklist ;;
  lift (get_response w).

(** *** Record extraction (source lines 99-109) *)

(** The body of the [for] loop: one line is trimmed and, when it is
    neither empty nor a comment, added to the set. *)
Definition add_line (records : gset string) (line : string) : gset string :=
  let line := PyStr.strip line in
  if PyStr.truthy line && negb (PyStr.startswith line "#")
  then records ∪ {[ line ]}
  else records.

Definition parse_records (content : string) : gset string :=
  if negb (PyStr.truthy content) then ∅
  else foldl add_line ∅ (PyStr.splitlines content).

(** *** The cache (source lines 111-122) *)

Definition load_cached_content : M (option string) :=
  enter Call_load_cached_content ;;
  f <- get_files ;;
  match CACHE_FILE f with
  | Some data =>
      text <- lift (read_text data) ;;
      ret (Some text)
  | None => ret None
  end.

Definition save_cached_content (content : string) : M unit :=
  enter Call_save_cached_content ;;
  f <- get_files ;;
  put_files (mk_files (LAST_MODIFIED_FILE f) (Some (Text content)) (OUTPUT_FILE f)).

(** *** The report (source lines 124-143) *)

(** [bool(last_modified_epoch)] for an argument that is an integer or
    [None]. *)
Definition truthy_epoch (e : option Z) : bool :=
  match e with
  | Some n => negb (n =? 0)
  | None => false
  end.

(** [f"{last_modified_epoch}"] *)
Definition format_epoch (e : option Z) : string :=
  match e with
  | Some n => PyInt.str n
  | None => "None"
  end.

Definition report_header (timestamp last_modified_http : string)
    (last_modified_epoch : option Z) (count : Z) : string :=
  "# New records added to Phishing Army Extended Blocklist" ++ nl
  ++ "# Source: " ++ BLOCKLIST_URL ++ nl
  ++ "# Last updated: " ++ timestamp ++ nl
  ++ "# Blocklist Last-Modified: " ++ last_modified_http ++ nl
  ++ "# Blocklist Last-Modified (epoch): " ++ format_epoch last_modified_epoch ++ nl
  ++ "# Total new records: " ++ PyInt.str count ++ nl ++ nl.

Definition record_lines (l : list string) : string :=
  fold_right (fun record rest => record ++ nl ++ rest) EmptyString l.

Definition report_body (records : gset string) : string :=
  if decide (records = ∅) then "# No new records detected in the last check" ++ nl
  else record_lines (sorted records).

Definition save_new_records (w : world) (records : gset string)
    (last_modified_epoch : option Z) : M unit :=
  enter Call_save_new_records ;;
  let timestamp := now_text w in
  last_modified_http <-
    (if truthy_epoch last_modified_epoch
     then lift (epoch_to_http_date (default 0 last_modified_epoch))
     else ret "Unknown") ;;
  f <- get_files ;;
  put_files
    (mk_files (LAST_MODIFIED_FILE f) (CACHE_FILE f)
       (Some (Text (report_header timestamp last_modified_http
                      last_modified_epoch (Z.of_nat (size records))
                    ++ report_body records)))).

(** *** The commit (source lines 145-167)

    [commit_changes] reads the three files and works on the git
    repository only; every exception is caught inside it. *)
Definition commit_changes : M unit :=
  enter Call_commit_changes.

(** *** The run (source lines 169-236)

    The handler of [main] prints the exception and raises it again, so
    the outcome of [main] is the outcome of its body.  The first two
    branches on [current_last_modified_epoch] are the test
    [if not current_last_modified_epoch], which [None] and [0] pass. *)
Definition reraise {A} (m : M A) : M A :=
  fun s =>
    match m s with
    | (Raise e, s') => (Raise e, s')
    | r => r
    end.

Definition main (w : world) : M unit :=
  reraise (
    last_modified_epoch <- load_last_modified ;;
    current_last_modified_epoch <- check_last_modified w ;;
    match current_last_modified_epoch with
    | None => ret tt
    | Some current =>
        if current =? 0 then ret tt
        else if truthy_epoch last_modified_epoch
                && bool_decide (last_modified_epoch = Some current)
        then
          save_new_records w ∅ last_modified_epoch ;;
          commit_changes
        else
          current_content <- download_blocklist w ;;
          if negb (PyStr.truthy current_content) then ret tt
          else
            let current_records := parse_records current_content in
            previous_content <- load_cached_content ;;
            let new_records :=
              match previous_content with
              | Some previous =>
                  if PyStr.truthy previous
                  then current_records ∖ parse_records previous
                  else ∅
              | None => ∅
              end in
            save_new_records w new_records (Some current) ;;
            save_cached_content current_content ;;
            save_last_modified current ;;
            commit_changes
    end).

End Program.

(** A run starts with an empty log. *)
Definition start (f : files) : state := mk_state f [].

(** The state after a call that only enters the log. *)
Definition logged (c : call) (s : state) : state :=
  mk_state (fs s) (calls s ++ [c]).

Section Observations.

Context {P : platform}.

(** What [load_last_modified] and [load_cached_content] return for
    given files, what [check_last_modified] returns in a given world,
    and the text that [save_new_records] writes: they read nothing
    else. *)
Definition stored_epoch (f : files) : result (option Z) :=
  fst (load_last_modified (start f)).

Definition cached_content (f : files) : result (option string) :=
  fst (load_cached_content (start f)).

Definition probed_epoch (w : world) : result (option Z) :=
  fst (check_last_modified w (start (mk_files None None None))).

Definition report_text (w : world) (records : gset string)
    (last_modified_epoch : option Z) : result string :=
  match
    save_new_records w records last_modified_epoch
      (start (mk_files None None None))
  with
  | (Return _, s) =>
      match OUTPUT_FILE (fs s) with
      | Some (Text text) => Return text
      | _ => Return EmptyString
      end
  | (Raise e, _) => Raise e
  end.

End Observations.

(** The records that [main] reports after a download, [previous_content]
    being what [load_cached_content] returned. *)
Definition new_records_of (content : string) (previous_content : option string)
    : gset string :=
  match previous_content with
  | Some previous =>
      if PyStr.truthy previous
      then parse_records content ∖ parse_records previous
      else ∅
  | None => ∅
  end.

Definition log_probe : list call :=
  [Call_load_last_modified; Call_check_last_modified].
Definition log_unchanged : list call :=
  log_probe ++ [Call_save_new_records; Call_commit_changes].
Definition log_download : list call :=
  log_probe ++ [Call_download_blocklist].
Definition log_cache : list call :=
  log_download ++ [Call_load_cached_content].
Definition log_report : list call :=
  log_cache ++ [Call_save_new_records].
Definition log_updated : list call :=
  log_report ++ [Call_save_cached_content; Call_save_last_modified;
                 Call_commit_changes].

Definition no_records_line : string :=
  "# No new records detected in the last check" ++ nl.

(** The platform of the examples: glibc before CPython 3.13, local time
    UTC. *)
Definition glibc_utc : platform := mk_platform false (fun t => t).

(** ** The git side of [commit_changes] (source lines 145-167)

    [commit_changes] above is the call as [main] sees it.  [Git] has
    the body of the function: what it asks of GitPython, in which
    order, and what it does with the answers. *)

Module Git.

(** What GitPython answers during one call of [commit_changes]:
    [Repo('.')], [repo.is_dirty(path=file)], [repo.untracked_files],
    [repo.index.add(files)] and [repo.index.commit(message)], each of
    which may raise, and the text that
    [datetime.now(UTC).strftime(...)] gives for the message. *)
Record repo : Type := mk_repo {
  open_repo : result unit;
  is_dirty : string -> result bool;
  untracked_files : result (list string);
  index_add : list string -> result unit;
  index_commit : string -> result unit;
  commit_time : string
}.

(** The calls made to GitPython, in order. *)
Inductive op : Type :=
  | Op_Repo
  | Op_is_dirty (path : string)
  | Op_untracked_files
  | Op_index_add (paths : list string)
  | Op_index_commit (message : string).

Definition G (A : Type) : Type := list op -> result A * list op.

Definition ret {A} (a : A) : G A := fun l => (Return a, l).

Definition bind {A B} (m : G A) (k : A -> G B) : G B :=
  fun l =>
    match m l with
    | (Return a, l') => k a l'
    | (Raise e, l') => (Raise e, l')
    end.

(** One call to GitPython with its outcome. *)
Definition ask {A} (o : op) (r : result A) : G A := fun l => (r, (l ++ [o])%list).

(** The paths that the constants of the script hold. *)
Definition OUTPUT_PATH : string := "phishing_army_NEW_last_3_hours.txt".
Definition LAST_MODIFIED_PATH : string := "last_modified.txt".
Definition CACHE_PATH : string := "phishing_army_cache.txt".

Definition files_to_commit : list string :=
  [OUTPUT_PATH; LAST_MODIFIED_PATH; CACHE_PATH].

(** [os.path.exists(file)] for the three files. *)
Definition path_exists (f : files) (file : string) : bool :=
  if String.eqb file OUTPUT_PATH then bool_decide (is_Some (OUTPUT_FILE f))
  else if String.eqb file LAST_MODIFIED_PATH
       then bool_decide (is_Some (LAST_MODIFIED_FILE f))
  else if String.eqb file CACHE_PATH then bool_decide (is_Some (CACHE_FILE f))
  else false.

(** The [for] loop that sets [has_changes] and breaks at the first
    file that exists and is dirty or untracked; [and] and [or]
    evaluate their second operand only when needed. *)
Fixpoint has_changes (g : repo) (f : files) (l : list string) : G bool :=
  match l with
  | [] => ret false
  | file :: rest =>
      if path_exists f file then
        bind (ask (Op_is_dirty file) (is_dirty g file)) (fun dirty =>
          if dirty then ret true
          else
            bind (ask Op_untracked_files (untracked_files g)) (fun untracked =>
              if PyStr.mem file untracked then ret true
              else has_changes g f rest))
      else has_changes g f rest
  end.

Definition message (g : repo) : string :=
  "Update new phishing records - " ++ commit_time g.

(** The body of the [try]. *)
Definition try_commit (g : repo) (f : files) : G unit :=
  bind (ask Op_Repo (open_repo g)) (fun _ =>
    bind (has_changes g f files_to_commit) (fun changed =>
      if changed then
        bind (ask (Op_index_add files_to_commit) (index_add g files_to_commit))
          (fun _ => ask (Op_index_commit (message g)) (index_commit g (message g)))
      else ret tt)).

(** [commit_changes()]: the handler catches every exception, so the
    call returns; what is left is the list of the calls made. *)
Definition commit_changes (g : repo) (f : files) : result unit * list op :=
  match try_commit g f [] with
  | (Return _, l) => (Return tt, l)
  | (Raise _, l) => (Return tt, l)
  end.

(** A commit was made: [repo.index.commit] was called and returned. *)
Definition committed (g : repo) (f : files) : Prop :=
  Op_index_commit (message g) ∈ snd (commit_changes g f)
  ∧ index_commit g (message g) = Return tt.

(** A file of the list with changes to commit. *)
Definition changed (g : repo) (f : files) (file : string) : Prop :=
  path_exists f file = true
  ∧ (is_dirty g file = Return true
     ∨ is_dirty g file = Return false
       ∧ ∃ untracked, untracked_files g = Return untracked
                      ∧ PyStr.mem file untracked = true).

End Git.

(** ** Reference definitions, after the wording of the specification *)

(** The lines of a text, trimmed. *)
Definition trimmed_lines (text : string) : list string :=
  PyStr.strip <$> PyStr.splitlines text.

(** A record is a line that is neither empty nor a comment. *)
Definition is_record (line : string) : bool :=
  PyStr.truthy line && negb (PyStr.startswith line "#").

(** The trimmed, non-empty, non-comment lines that occur in [A] and do
    not occur in [B], in the order of [A]. *)
Definition lines_only_in (A B : string) : list string :=
  filter (fun l => is_record l = true ∧ l ∉ trimmed_lines B) (trimmed_lines A).

(** Every character of [s] satisfies [p]. *)
Fixpoint all_chars (p : ascii -> bool) (s : string) : bool :=
  match s with
  | EmptyString => true
  | String c r => p c && all_chars p r
  end.

(** A character that is no line boundary. *)
Definition no_break (c : ascii) : bool := negb (PyStr.islinebreak c).

(** A string that [strip] leaves alone: it neither starts nor ends with
    white space. *)
Definition trimmed (s : string) : bool :=
  match PyStr.first_char s, PyStr.last_char s with
  | Some a, Some b => negb (PyStr.isspace a) && negb (PyStr.isspace b)
  | _, _ => true
  end.

(** ** Definitions used by the proofs *)

(** [p] holds of the [n] integers from [r] on. *)
Fixpoint all_from (p : Z -> bool) (r : Z) (n : nat) : bool :=
  match n with
  | O => true
  | S k => p r && all_from p (r + 1) k
  end.

(** One day of the cycle of 400 years that starts on 0001-01-01: its
    date is a date of the calendar, has the day number it came from, and
    its year is below 400 up to day 145730 and from 100 on after day
    36159. *)
Definition cycle_day_ok (r : Z) : bool :=
  let '(y, m, d) := PyDate.ord2ymd (r + 1) in
  (1 <=? y) && (y <=? 400) && (1 <=? m) && (m <=? 12)
  && (1 <=? d) && (d <=? PyDate.days_in_month y m)
  && (PyDate.ymd2ord y m d =? r + 1)
  && ((145730 <? r) || (y <=? 399))
  && ((r <? 36159) || (100 <=? y)).

Definition no_space (c : ascii) : bool := negb (PyStr.isspace c).

Definition not_char (x c : ascii) : bool := if ascii_dec c x then false else true.

(** A word of decimal digits. *)
Definition digit_word (s : string) : bool :=
  PyStr.truthy s && all_chars PyInt.is_dec s.

(** A number printed by [print] is a word of digits that [int] reads
    back. *)
Definition printed_ok (print : Z -> string) (n : Z) : bool :=
  digit_word (print n)
  && match PyInt.int (print n) with Some k => k =? n | None => false end.

(** The epochs that [datetime] can hold in UTC, years 1 to 9999, and the
    first second of the year 100. *)
Definition MIN_EPOCH : Z := -62135596800.
Definition MAX_EPOCH : Z := 253402300799.
Definition YEAR_100_EPOCH : Z := -59011459200.

(** The world and the files of the examples. *)
Definition example_world : world :=
  mk_world (Return (Some "Wed, 01 Jan 2025 00:00:00 GMT"))
    (Return ("a" ++ nl ++ "b" ++ nl ++ "# comment" ++ nl))
    "2025-01-01 03:00:00 UTC".

Definition no_files : files := mk_files None None None.

(** A platform that pads the year, local time UTC. *)
Definition padded_utc : platform := mk_platform true (fun t => t).

(** The value of a decimal numeral read from the left, [acc] being the
    value of the digits read before it. *)
Fixpoint uint_val (d : Decimal.uint) (acc : Z) : Z :=
  match d with
  | Decimal.Nil => acc
  | Decimal.D0 l => uint_val l (10 * acc + 0)
  | Decimal.D1 l => uint_val l (10 * acc + 1)
  | Decimal.D2 l => uint_val l (10 * acc + 2)
  | Decimal.D3 l => uint_val l (10 * acc + 3)
  | Decimal.D4 l => uint_val l (10 * acc + 4)
  | Decimal.D5 l => uint_val l (10 * acc + 5)
  | Decimal.D6 l => uint_val l (10 * acc + 6)
  | Decimal.D7 l => uint_val l (10 * acc + 7)
  | Decimal.D8 l => uint_val l (10 * acc + 8)
  | Decimal.D9 l => uint_val l (10 * acc + 9)
  end.

(** A character that [int] does not skip, and one that is no CR. *)
Definition no_space_int (c : ascii) : bool := negb (PyInt.isspace_int c).
Definition no_cr (c : ascii) : bool := negb (PyStr.is_cr c).

(** The last year of the cycle of 400 years: the days after day 145730
    have the year 400. *)
Definition cycle_tail_ok (r : Z) : bool :=
  let '(y, _, _) := PyDate.ord2ymd (r + 1) in y =? 400.

(** The range of [time_t] and the epochs whose year [gmtime] can hold
    in a C [int]. *)
Definition TIME_T_MIN : Z := - 9223372036854775808.
Definition TIME_T_MAX : Z := 9223372036854775807.
Definition GMTIME_MIN : Z := - 67768040609740800.
Definition GMTIME_MAX : Z := 67768036191676799.

(** The lines of the header of a report, the empty line included. *)
Definition header_lines (timestamp last_modified_http : string)
    (last_modified_epoch : option Z) (count : Z) : list string :=
  [ "# New records added to Phishing Army Extended Blocklist";
    "# Source: " ++ BLOCKLIST_URL;
    "# Last updated: " ++ timestamp;
    "# Blocklist Last-Modified: " ++ last_modified_http;
    "# Blocklist Last-Modified (epoch): " ++ format_epoch last_modified_epoch;
    "# Total new records: " ++ PyInt.str count;
    EmptyString ].

(** What makes [parsedate_to_datetime] raise [OverflowError]: a field
    that does not fit a C [int], or a zone of too many days. *)
Definition overflows (t : PyEmail.date_tuple) : Prop :=
  PyDate.fits_c_int (PyEmail.t_year t) && PyDate.fits_c_int (PyEmail.t_month t)
  && PyDate.fits_c_int (PyEmail.t_day t) && PyDate.fits_c_int (PyEmail.t_hour t)
  && PyDate.fits_c_int (PyEmail.t_minute t)
  && PyDate.fits_c_int (PyEmail.t_second t)
  = false
  ∨ ∃ tz, PyEmail.t_offset t = Some tz
          ∧ ¬ (- 999999999 <= tz / 86400 <= 999999999).

(** A later answer of the server, a server that cannot be reached, a
    repository in which the report is untracked, and a machine one hour
    east of UTC. *)
Definition next_world : world :=
  mk_world (Return (Some "Thu, 02 Jan 2025 00:00:00 GMT"))
    (Return ("a" ++ nl ++ "c" ++ nl))
    "2025-01-02 03:00:00 UTC".

Definition offline_world : world :=
  mk_world (Raise RequestException) (Return "a") "2025-01-01 03:00:00 UTC".

Definition example_repo : Git.repo :=
  Git.mk_repo (Return tt) (fun _ => Return false)
    (Return [Git.OUTPUT_PATH]) (fun _ => Return tt) (fun _ => Return tt)
    "2025-01-01 03:00:00 UTC".

Definition glibc_cet : platform := mk_platform false (fun t => t - 3600).

(** Files of which one holds bytes that do not decode. *)
Definition garbled_timestamp : files := mk_files (Some Undecodable) None None.
Definition garbled_cache : files := mk_files None (Some Undecodable) None.

(** * Properties *)

(** ** Trimming and splitting into lines *)

Section Lines.

Import PyStr.

Lemma rstrip_empty_inv s : rstrip s = EmptyString -> all_chars isspace s = true.
Proof.
  induction s as [|c r IH]; simpl; [done|].
  destruct (rstrip r) eqn:E; [|done].
  destruct (isspace c); [|done]. intros _. by rewrite IH.
Qed.

Lemma last_char_rstrip s c :
  last_char (rstrip s) = Some c -> isspace c = false.
Proof.
  induction s as [|a r IH]; simpl; [done|].
  destruct (rstrip r) as [|b r'] eqn:E.
  - destruct (isspace a) eqn:Ea; simpl; [done|]. by intros [= <-].
  - simpl. simpl in IH. exact IH.
Qed.

Lemma first_char_rstrip s a :
  first_char s = Some a -> isspace a = false -> first_char (rstrip s) = Some a.
Proof.
  destruct s as [|b r]; simpl; [done|]. intros [= ->] Ha.
  destruct (rstrip r); [by rewrite Ha|done].
Qed.

Lemma first_char_lstrip s a :
  first_char (lstrip s) = Some a -> isspace a = false.
Proof.
  induction s as [|b r IH]; simpl; [done|].
  destruct (isspace b) eqn:Eb; [exact IH|]. simpl. by intros [= <-].
Qed.

Lemma trimmed_strip s : trimmed (strip s) = true.
Proof.
  unfold trimmed, strip.
  destruct (first_char (rstrip (lstrip s))) as [a|] eqn:Ea; [|done].
  destruct (last_char (rstrip (lstrip s))) as [b|] eqn:Eb; [|done].
  apply last_char_rstrip in Eb. rewrite Eb.
  destruct (lstrip s) as [|c r] eqn:El; [done|].
  pose proof (first_char_lstrip s c) as Hc. rewrite El in Hc.
  specialize (Hc eq_refl).
  rewrite (first_char_rstrip (String c r) c eq_refl Hc) in Ea.
  injection Ea as <-. by rewrite Hc.
Qed.

Lemma rstrip_id s b :
  last_char s = Some b -> isspace b = false -> rstrip s = s.
Proof.
  induction s as [|a r IH]; simpl; [done|].
  destruct r as [|a' r'].
  - intros [= ->] Hb. simpl. by rewrite Hb.
  - intros Hl Hb. rewrite (IH Hl Hb). done.
Qed.

Lemma strip_trimmed s : trimmed s = true -> strip s = s.
Proof.
  unfold trimmed, strip. destruct s as [|a r]; [done|].
  simpl first_char. destruct (last_char (String a r)) as [b|] eqn:Eb.
  - intros [Ha Hb]%andb_true_iff.
    apply negb_true_iff in Ha. apply negb_true_iff in Hb.
    simpl lstrip. rewrite Ha. by apply (rstrip_id _ b).
  - exfalso. revert Eb. clear. revert a.
    induction r as [|a' r IH]; intros a; simpl; [done|]. apply IH.
Qed.

Lemma strip_idemp s : strip (strip s) = strip s.
Proof. apply strip_trimmed, trimmed_strip. Qed.

Lemma all_chars_lstrip p s : all_chars p s = true -> all_chars p (lstrip s) = true.
Proof.
  induction s as [|c r IH]; simpl; [done|].
  intros [Hc Hr]%andb_true_iff.
  destruct (isspace c); [by apply IH|]. simpl. by rewrite Hc, Hr.
Qed.

Lemma all_chars_rstrip p s : all_chars p s = true -> all_chars p (rstrip s) = true.
Proof.
  induction s as [|c r IH]; simpl; [done|].
  intros [Hc Hr]%andb_true_iff. specialize (IH Hr).
  destruct (rstrip r) as [|c' r'].
  - destruct (isspace c); simpl; [done|]. by rewrite Hc.
  - simpl. simpl in IH. by rewrite Hc, IH.
Qed.

Lemma all_chars_strip p s : all_chars p s = true -> all_chars p (strip s) = true.
Proof. intros. by apply all_chars_rstrip, all_chars_lstrip. Qed.

Lemma is_cr_linebreak c : is_cr c = true -> islinebreak c = true.
Proof.
  unfold is_cr, islinebreak. intros ->%Z.eqb_eq. reflexivity.
Qed.

Lemma elem_of_cons_head c l (x : string) :
  x ∈ cons_head c l ->
  (x = String c EmptyString ∧ l = []) ∨ ∃ t ts, l = t :: ts ∧ (x = String c t ∨ x ∈ ts).
Proof.
  destruct l as [|t ts]; simpl.
  - intros ->%list_elem_of_singleton. by left.
  - intros [->|H]%elem_of_cons; right; exists t, ts; eauto.
Qed.

(** No line of a text contains a line boundary. *)
Lemma splitlines_no_break_aux n : forall s l,
  (String.length s <= n)%nat ->
  l ∈ splitlines s -> all_chars no_break l = true.
Proof.
  induction n as [|n IH]; intros s l Hn.
  { destruct s; simpl in *; [by intros ?%elem_of_nil|lia]. }
  destruct s as [|c r]; simpl in *.
  - by intros ?%elem_of_nil.
  - destruct (is_cr c) eqn:Ecr.
    + destruct r as [|c' r'].
      * by intros ->%list_elem_of_singleton.
      * destruct (is_lf c').
        -- intros [->|H]%elem_of_cons; [done|].
           apply (IH r'); [simpl in *; lia|done].
        -- intros [->|H]%elem_of_cons; [done|].
           apply (IH (String c' r')); [simpl in *; lia|done].
    + destruct (islinebreak c) eqn:Elb.
      * intros [->|H]%elem_of_cons; [done|].
        apply (IH r); [lia|done].
      * intros H. apply elem_of_cons_head in H as [[-> _]|(t & ts & E & [->|H])].
        -- simpl. unfold no_break. by rewrite Elb.
        -- simpl. unfold no_break at 1. rewrite Elb. simpl.
           apply (IH r); [lia|]. rewrite E. left.
        -- apply (IH r); [lia|]. rewrite E. by right.
Qed.

Lemma splitlines_no_break s l :
  l ∈ splitlines s -> all_chars no_break l = true.
Proof. by apply (splitlines_no_break_aux (String.length s)). Qed.

(** Lines written one per line are read back as they were. *)
Lemma splitlines_line r rest :
  all_chars no_break r = true ->
  splitlines (r ++ nl ++ rest) = r :: splitlines rest.
Proof.
  induction r as [|c r IH]; simpl.
  - done.
  - intros [Hc Hr]%andb_true_iff. unfold no_break in Hc.
    apply negb_true_iff in Hc.
    destruct (is_cr c) eqn:Ecr.
    { apply is_cr_linebreak in Ecr. congruence. }
    rewrite Hc. simpl in IH. rewrite (IH Hr). done.
Qed.

Lemma splitlines_record_lines rs :
  Forall (fun r => all_chars no_break r = true) rs ->
  splitlines (record_lines rs) = rs.
Proof.
  induction 1 as [|r rs Hr _ IH]; simpl; [done|].
  rewrite splitlines_line by done. by rewrite IH.
Qed.

End Lines.

(** ** The record set *)

Section Records.

Import PyStr.

Lemma elem_of_foldl_add_line ls acc r :
  r ∈ foldl add_line acc ls <->
  r ∈ acc ∨ ∃ l, l ∈ ls ∧ strip l = r ∧ is_record r = true.
Proof.
  revert acc. induction ls as [|l ls IH]; intros acc; simpl.
  - split; [by left|]. intros [H|(l & H%elem_of_nil & _)]; done.
  - rewrite IH. unfold add_line. fold (is_record (strip l)).
    destruct (is_record (strip l)) eqn:E.
    + rewrite elem_of_union, elem_of_singleton. split.
      * intros [[H| ->]|(l' & Hl' & H)]; [by left| |].
        -- right. exists l. split; [left|done].
        -- right. exists l'. split; [by right|done].
      * intros [H|(l' & [->|Hl']%elem_of_cons & H1 & H2)].
        -- by left; left.
        -- left; right. done.
        -- right. by exists l'.
    + split.
      * intros [H|(l' & Hl' & H)]; [by left|].
        right. exists l'. split; [by right|done].
      * intros [H|(l' & [->|Hl']%elem_of_cons & H1 & H2)].
        -- by left.
        -- subst r. congruence.
        -- right. by exists l'.
Qed.

(** Membership in the result of [parse_records]: the trimmed lines that
    are records. *)
Lemma elem_of_parse_records text r :
  r ∈ parse_records text <-> r ∈ trimmed_lines text ∧ is_record r = true.
Proof.
  unfold parse_records, trimmed_lines.
  assert (r ∈ foldl add_line ∅ (splitlines text)
          <-> r ∈ strip <$> splitlines text ∧ is_record r = true) as H.
  { rewrite elem_of_foldl_add_line, list_elem_of_fmap. split.
    - intros [H%elem_of_empty|(l & Hl & <- & Hr)]; [done|]. eauto.
    - intros [(l & -> & Hl) Hr]. right. eauto. }
  destruct text as [|c t]; [|exact H].
  simpl. split; [by intros ?%elem_of_empty|].
  by intros [?%elem_of_nil _].
Qed.

Lemma parse_records_lines text :
  parse_records text = list_to_set (filter (fun l => is_record l = true) (trimmed_lines text)).
Proof.
  apply set_eq. intros r.
  rewrite elem_of_parse_records, elem_of_list_to_set, list_elem_of_filter. tauto.
Qed.

Lemma parse_records_perm text text' :
  splitlines text' ≡ₚ splitlines text -> parse_records text' = parse_records text.
Proof.
  intros H. apply set_eq. intros r. rewrite !elem_of_parse_records.
  unfold trimmed_lines. by rewrite H.
Qed.

Lemma is_record_nonempty r : is_record r = true -> r ≠ EmptyString.
Proof. by destruct r. Qed.

Lemma parse_records_trimmed text r :
  r ∈ parse_records text -> strip r = r.
Proof.
  rewrite elem_of_parse_records. unfold trimmed_lines.
  intros [(l & -> & _)%list_elem_of_fmap _]. apply strip_idemp.
Qed.

Lemma parse_records_no_break text r :
  r ∈ parse_records text -> all_chars no_break r = true.
Proof.
  rewrite elem_of_parse_records. unfold trimmed_lines.
  intros [(l & -> & Hl)%list_elem_of_fmap _].
  by apply all_chars_strip, (splitlines_no_break text).
Qed.

(** ** Sorting *)

#[global] Instance str_le_total : Total str_le.
Proof. intros a b. unfold str_le. apply String.leb_total. Qed.

Lemma sorted_perm (records : gset string) : sorted records ≡ₚ elements records.
Proof. apply merge_sort_Permutation. Qed.

Lemma sorted_Sorted (records : gset string) : Sorted str_le (sorted records).
Proof. apply Sorted_merge_sort, _. Qed.

Lemma elem_of_sorted (records : gset string) r : r ∈ sorted records <-> r ∈ records.
Proof. by rewrite sorted_perm, elem_of_elements. Qed.

Lemma list_to_set_sorted (records : gset string) :
  list_to_set (sorted records) = records.
Proof.
  apply set_eq. intros r. by rewrite elem_of_list_to_set, elem_of_sorted.
Qed.

(** Reading back a list of records written one per line. *)
(** The text of the [for] loop that writes the records: each record
    followed by a newline, and nothing else. *)
Lemma string_app_nil_r (a : string) : a ++ EmptyString = a.
Proof.
  induction a as [|c a IH]; [done|].
  change (String c (a ++ EmptyString) = String c a). by rewrite IH.
Qed.

Lemma concat_cons (x : string) (l : list string) :
  String.concat EmptyString (x :: l) = x ++ String.concat EmptyString l.
Proof.
  destruct l as [|y l]; simpl; [by rewrite string_app_nil_r|done].
Qed.

Lemma record_lines_concat rs :
  record_lines rs
  = String.concat EmptyString (List.map (fun record => record ++ nl) rs).
Proof.
  induction rs as [|r rs IH]; [done|].
  change (r ++ nl ++ record_lines rs
          = String.concat EmptyString
              ((r ++ nl) :: List.map (fun record => record ++ nl) rs)).
  rewrite concat_cons, IH. clear IH.
  induction r as [|c r IHr]; [done|].
  change (String c (r ++ nl ++ String.concat EmptyString
                                 (List.map (fun record => record ++ nl) rs))
          = String c ((r ++ nl) ++ String.concat EmptyString
                                     (List.map (fun record => record ++ nl) rs))).
  by rewrite IHr.
Qed.

Lemma parse_records_record_lines rs :
  Forall (fun r => all_chars no_break r = true ∧ strip r = r ∧ is_record r = true) rs ->
  parse_records (record_lines rs) = list_to_set rs.
Proof.
  intros H. apply set_eq. intros r.
  rewrite elem_of_parse_records, elem_of_list_to_set. unfold trimmed_lines.
  rewrite splitlines_record_lines
    by (eapply Forall_impl; [exact H|]; by intros ? [? _]).
  rewrite Forall_forall in H. rewrite list_elem_of_fmap. split.
  - intros [(l & -> & Hl) _]. destruct (H l Hl) as (_ & -> & _). done.
  - intros Hr. destruct (H r Hr) as (_ & E & Hrec). split; [|done].
    exists r. by rewrite E.
Qed.

End Records.

(** C2. For all texts [A] and [B], the difference
    [parse_records A ∖ parse_records B] is the set of the trimmed,
    non-empty, non-comment lines that occur in [A] and do not occur in
    [B]; and the difference does not change when the lines of [A] and
    the lines of [B] are reordered. *)
Theorem diff_records_spec (A B : string) :
  parse_records A ∖ parse_records B = list_to_set (lines_only_in A B)
  ∧ ∀ A' B',
      PyStr.splitlines A' ≡ₚ PyStr.splitlines A ->
      PyStr.splitlines B' ≡ₚ PyStr.splitlines B ->
      parse_records A' ∖ parse_records B' = parse_records A ∖ parse_records B.
Proof.
  split.
  - apply set_eq. intros r.
    rewrite elem_of_difference, !elem_of_parse_records, elem_of_list_to_set.
    unfold lines_only_in. rewrite list_elem_of_filter. tauto.
  - intros A' B' HA HB.
    by rewrite (parse_records_perm A A'), (parse_records_perm B B').
Qed.

(** C3. [parse_records] is a function of the lines of its text alone:
    parsing the records it returned, written one per line as the report
    writes them, gives the same set again; a text whose lines are a
    permutation of the lines of another has the same records; and the
    set never contains the empty string nor a string that, trimmed,
    begins with [#]. *)
Theorem parse_records_stable (text : string) :
  parse_records (record_lines (sorted (parse_records text))) = parse_records text
  ∧ (∀ text', PyStr.splitlines text' ≡ₚ PyStr.splitlines text ->
              parse_records text' = parse_records text)
  ∧ (EmptyString ∉ parse_records text)
  ∧ ∀ r, r ∈ parse_records text -> PyStr.startswith (PyStr.strip r) "#" = false.
Proof.
  split; [|split; [|split]].
  - rewrite parse_records_record_lines; [apply list_to_set_sorted|].
    apply Forall_forall. intros r Hr%elem_of_sorted.
    split; [by apply (parse_records_no_break text)|].
    split; [by apply (parse_records_trimmed text)|].
    by apply elem_of_parse_records in Hr as [_ ?].
  - intros text'. apply parse_records_perm.
  - by intros [_ ?]%elem_of_parse_records.
  - intros r Hr. rewrite (parse_records_trimmed text r Hr).
    apply elem_of_parse_records in Hr as [_ Hr].
    unfold is_record in Hr. apply andb_true_iff in Hr as [_ Hr].
    by apply negb_true_iff in Hr.
Qed.

(** ** One run, call by call *)

Section Run.

Context {P : platform}.

Ltac run_unfold :=
  unfold bind, enter, get_files, put_files, ret, raise, lift, logged, start;
  simpl.

Lemma load_last_modified_run s :
  load_last_modified s = (stored_epoch (fs s), logged Call_load_last_modified s).
Proof.
  unfold stored_epoch, load_last_modified. run_unfold.
  destruct (LAST_MODIFIED_FILE (fs s)) as [[text|]|]; [|done..]. simpl.
  destruct (PyInt.int _); [|done].
  by destruct (epoch_to_http_date _) as [|[]].
Qed.

Lemma check_last_modified_run w s :
  check_last_modified w s = (probed_epoch w, logged Call_check_last_modified s).
Proof.
  unfold probed_epoch, check_last_modified. run_unfold.
  destruct (head_response w) as [[h|]|]; [|done..].
  destruct (PyStr.truthy h); simpl; [|done].
  destruct (parse_http_date h) as [[e|]|]; [|done..].
  by destruct (e =? 0).
Qed.

Lemma download_blocklist_run w s :
  download_blocklist w s = (get_response w, logged Call_download_blocklist s).
Proof. unfold download_blocklist. run_unfold. by destruct (get_response w). Qed.

Lemma load_cached_content_run s :
  load_cached_content s
  = (cached_content (fs s), logged Call_load_cached_content s).
Proof.
  unfold cached_content, load_cached_content. run_unfold.
  by destruct (CACHE_FILE (fs s)) as [[text|]|].
Qed.

Lemma cached_content_eq f :
  cached_content f =
  match CACHE_FILE f with
  | Some (Text text) => Return (Some (universal_newlines text))
  | Some Undecodable => Raise UnicodeDecodeError
  | None => Return None
  end.
Proof.
  unfold cached_content, load_cached_content. run_unfold.
  by destruct (CACHE_FILE f) as [[text|]|].
Qed.

Lemma report_text_eq w records ts :
  report_text w records ts =
  if truthy_epoch ts then
    match epoch_to_http_date (default 0 ts) with
    | Return http =>
        Return (report_header (now_text w) http ts (Z.of_nat (size records))
                ++ report_body records)
    | Raise e => Raise e
    end
  else
    Return (report_header (now_text w) "Unknown" ts (Z.of_nat (size records))
            ++ report_body records).
Proof.
  unfold report_text, save_new_records. run_unfold.
  destruct (truthy_epoch ts); [|done].
  by destruct (epoch_to_http_date _).
Qed.

Lemma save_new_records_run w records ts s :
  save_new_records w records ts s =
  match report_text w records ts with
  | Return text =>
      (Return tt,
       mk_state
         (mk_files (LAST_MODIFIED_FILE (fs s)) (CACHE_FILE (fs s)) (Some (Text text)))
         (calls s ++ [Call_save_new_records]))
  | Raise e => (Raise e, logged Call_save_new_records s)
  end.
Proof.
  rewrite report_text_eq. unfold save_new_records. run_unfold.
  destruct (truthy_epoch ts); [|done].
  by destruct (epoch_to_http_date _).
Qed.

Lemma save_cached_content_run content s :
  save_cached_content content s
  = (Return tt,
     mk_state
       (mk_files (LAST_MODIFIED_FILE (fs s)) (Some (Text content)) (OUTPUT_FILE (fs s)))
       (calls s ++ [Call_save_cached_content])).
Proof. done. Qed.

Lemma save_last_modified_run epoch s :
  save_last_modified epoch s
  = (match epoch_to_http_date epoch with
     | Return _ => Return tt
     | Raise e => Raise e
     end,
     mk_state
       (mk_files (Some (Text (PyInt.str epoch))) (CACHE_FILE (fs s)) (OUTPUT_FILE (fs s)))
       (calls s ++ [Call_save_last_modified])).
Proof.
  unfold save_last_modified. run_unfold. by destruct (epoch_to_http_date _).
Qed.

Lemma commit_changes_run s : commit_changes s = (Return tt, logged Call_commit_changes s).
Proof. done. Qed.

(** What the stored and the probed timestamp are made of. *)
Lemma stored_epoch_Some f e :
  stored_epoch f = Return (Some e) <->
  ∃ text http,
    LAST_MODIFIED_FILE f = Some (Text text)
    ∧ PyInt.int (PyStr.strip (universal_newlines text)) = Some e
    ∧ epoch_to_http_date e = Return http.
Proof.
  unfold stored_epoch, load_last_modified. run_unfold.
  destruct (LAST_MODIFIED_FILE f) as [[text|]|]; simpl.
  - destruct (PyInt.int _) as [e'|] eqn:Ei.
    + destruct (epoch_to_http_date e') as [http|x] eqn:Eh.
      * split.
        -- intros [= ->]. by exists text, http.
        -- intros (? & ? & [= <-] & He & _). rewrite Ei in He. by injection He as ->.
      * split.
        -- by destruct x.
        -- intros (? & ? & [= <-] & He & Hh). rewrite Ei in He.
           injection He as ->. congruence.
    + split; [done|]. intros (? & ? & [= <-] & He & _). congruence.
  - split; [done|]. by intros (? & ? & ? & _).
  - split; [done|]. by intros (? & ? & ? & _).
Qed.

Lemma stored_epoch_ext f f' :
  LAST_MODIFIED_FILE f = LAST_MODIFIED_FILE f' -> stored_epoch f = stored_epoch f'.
Proof.
  intros H. unfold stored_epoch, load_last_modified. run_unfold. rewrite H.
  destruct (LAST_MODIFIED_FILE f') as [[text|]|]; [|done..]. simpl.
  destruct (PyInt.int _); [|done].
  by destruct (epoch_to_http_date _) as [|[]].
Qed.

Lemma cached_content_ext f f' :
  CACHE_FILE f = CACHE_FILE f' -> cached_content f = cached_content f'.
Proof. intros H. by rewrite !cached_content_eq, H. Qed.

Lemma stored_epoch_invalid f text :
  LAST_MODIFIED_FILE f = Some (Text text) ->
  PyInt.int (PyStr.strip (universal_newlines text)) = None ->
  stored_epoch f = Return None.
Proof.
  intros Hf Hi. unfold stored_epoch, load_last_modified. run_unfold.
  rewrite Hf. simpl. by rewrite Hi.
Qed.

Lemma stored_epoch_undecodable f :
  LAST_MODIFIED_FILE f = Some Undecodable ->
  stored_epoch f = Raise UnicodeDecodeError.
Proof.
  intros Hf. unfold stored_epoch, load_last_modified.
  unfold bind, enter, get_files, lift, start. simpl. by rewrite Hf.
Qed.

Lemma stored_epoch_absent f :
  LAST_MODIFIED_FILE f = None -> stored_epoch f = Return None.
Proof.
  intros Hf. unfold stored_epoch, load_last_modified. run_unfold. by rewrite Hf.
Qed.

Lemma probed_epoch_eq w :
  probed_epoch w =
  match head_response w with
  | Raise x => Raise x
  | Return None => Return None
  | Return (Some h) =>
      match parse_http_date h with
      | Raise x => Raise x
      | Return None => Return None
      | Return (Some e) => if e =? 0 then Return None else Return (Some e)
      end
  end.
Proof.
  unfold probed_epoch, check_last_modified. run_unfold.
  destruct (head_response w) as [[h|]|]; [|done..].
  destruct h as [|c h]; simpl; [done|].
  destruct (parse_http_date _) as [[e|]|]; [|done..].
  by destruct (e =? 0).
Qed.

Lemma probed_epoch_nonzero w e : probed_epoch w = Return (Some e) -> e ≠ 0.
Proof.
  rewrite probed_epoch_eq.
  destruct (head_response w) as [[h|]|]; [|done..].
  destruct (parse_http_date h) as [[e'|]|]; [|done..].
  destruct (e' =? 0) eqn:E; [done|]. intros [= ->]. by apply Z.eqb_neq.
Qed.

(** The whole run, by cases on what the files and the world hold. *)
Lemma main_run w f :
  main w (start f) =
  match stored_epoch f with
  | Raise x => (Raise x, mk_state f [Call_load_last_modified])
  | Return stored =>
      match probed_epoch w with
      | Raise x => (Raise x, mk_state f log_probe)
      | Return None => (Return tt, mk_state f log_probe)
      | Return (Some current) =>
          if truthy_epoch stored && bool_decide (stored = Some current) then
            match report_text w ∅ stored with
            | Raise x => (Raise x, mk_state f (log_probe ++ [Call_save_new_records]))
            | Return text =>
                (Return tt,
                 mk_state
                   (mk_files (LAST_MODIFIED_FILE f) (CACHE_FILE f) (Some (Text text)))
                   log_unchanged)
            end
          else
            match get_response w with
            | Raise x => (Raise x, mk_state f log_download)
            | Return content =>
                if negb (PyStr.truthy content) then (Return tt, mk_state f log_download)
                else
                  match cached_content f with
                  | Raise x => (Raise x, mk_state f log_cache)
                  | Return previous =>
                      match
                        report_text w (new_records_of content previous) (Some current)
                      with
                      | Raise x => (Raise x, mk_state f log_report)
                      | Return text =>
                          (Return tt,
                           mk_state
                             (mk_files (Some (Text (PyInt.str current)))
                                (Some (Text content)) (Some (Text text)))
                             log_updated)
                      end
                  end
            end
      end
  end.
Proof.
  unfold main, reraise, bind.
  rewrite load_last_modified_run. simpl fs.
  destruct (stored_epoch f) as [stored|x]; [|done].
  rewrite check_last_modified_run.
  destruct (probed_epoch w) as [[current|]|x] eqn:Hp; [|done..].
  rewrite (proj2 (Z.eqb_neq current 0)) by by eapply probed_epoch_nonzero.
  destruct (truthy_epoch stored && bool_decide (stored = Some current)).
  - rewrite save_new_records_run.
    destruct (report_text w ∅ stored); [|done].
    rewrite commit_changes_run. by destruct f.
  - rewrite download_blocklist_run.
    destruct (get_response w) as [content|x]; [|done].
    destruct (PyStr.truthy content) eqn:Ht; simpl; [|done].
    rewrite load_cached_content_run. simpl fs.
    destruct (cached_content f) as [previous|x]; [|done].
    rewrite save_new_records_run. simpl.
    change (match previous with
            | Some previous =>
                if PyStr.truthy previous
                then parse_records content ∖ parse_records previous
                else ∅
            | None => ∅
            end) with (new_records_of content previous).
    pose proof (report_text_eq w (new_records_of content previous) (Some current)) as Hr.
    destruct (report_text w _ (Some current)) as [text|x] eqn:Et; [|done].
    rewrite ?save_cached_content_run, save_last_modified_run. simpl.
    assert (truthy_epoch (Some current) = true) as Htr.
    { simpl. apply negb_true_iff, Z.eqb_neq. by eapply probed_epoch_nonzero. }
    rewrite Htr in Hr. simpl in Hr.
    destruct (epoch_to_http_date current); [|done].
    by rewrite commit_changes_run.
Qed.

End Run.

(** ** The calendar *)

Section Calendar.

Import PyDate.

Lemma all_from_spec p n : forall r0 r,
  all_from p r0 n = true -> r0 <= r < r0 + Z.of_nat n -> p r = true.
Proof.
  induction n as [|k IH]; simpl; intros r0 r; [lia|].
  intros [Hk Hr]%andb_true_iff Hb.
  destruct (decide (r = r0)) as [->|]; [done|]. apply (IH (r0 + 1)); [done|lia].
Qed.

Lemma cycle_days_ok : all_from cycle_day_ok 0 (Z.to_nat 146097) = true.
Proof. vm_compute. reflexivity. Qed.

Lemma cycle_day r :
  0 <= r < 146097 ->
  ∃ y m d,
    ord2ymd (r + 1) = (y, m, d)
    ∧ 1 <= y <= 400 ∧ 1 <= m <= 12 ∧ 1 <= d <= days_in_month y m
    ∧ ymd2ord y m d = r + 1
    ∧ (r <= 145730 -> y <= 399)
    ∧ (36159 <= r -> 100 <= y).
Proof.
  intros Hr.
  pose proof (all_from_spec _ _ 0 r cycle_days_ok) as H.
  specialize (H ltac:(lia)). unfold cycle_day_ok in H.
  destruct (ord2ymd (r + 1)) as [[y m] d]. exists y, m, d.
  repeat (apply andb_true_iff in H as [H ?]).
  repeat match goal with
         | H : (_ <=? _) = true |- _ => apply Z.leb_le in H
         | H : (_ =? _) = true |- _ => apply Z.eqb_eq in H
         | H : (_ || _) = true |- _ => apply orb_true_iff in H
         end.
  repeat match goal with
         | H : _ ∨ _ |- _ => destruct H as [H%Z.ltb_lt|H%Z.leb_le]
         end; repeat split; lia.
Qed.

(** Days 146097 apart fall on the same day of years 400 apart. *)
Lemma ord2ymd_cycle n :
  ord2ymd n =
  let '(y, m, d) := ord2ymd ((n - 1) mod 146097 + 1) in
  (y + 400 * ((n - 1) / 146097), m, d).
Proof.
  unfold ord2ymd. cbv zeta.
  replace ((n - 1) mod 146097 + 1 - 1) with ((n - 1) mod 146097) by lia.
  rewrite Zmod_mod.
  rewrite (Z.div_small ((n - 1) mod 146097) 146097)
    by (apply Z.mod_pos_bound; lia).
  destruct (_ || _).
  - do 2 f_equal. lia.
  - destruct (_ <? _); do 2 f_equal; lia.
Qed.

Lemma is_leap_cycle y k : is_leap (y + 400 * k) = is_leap y.
Proof.
  unfold is_leap.
  replace (y + 400 * k) with (y + (100 * k) * 4) at 1 by lia.
  replace (y + 400 * k) with (y + (4 * k) * 100) at 1 by lia.
  replace (y + 400 * k) with (y + k * 400) by lia.
  by rewrite !Z_mod_plus_full.
Qed.

Lemma days_before_year_cycle y k :
  days_before_year (y + 400 * k) = days_before_year y + 146097 * k.
Proof.
  unfold days_before_year. cbv zeta.
  replace (y + 400 * k - 1) with (y - 1 + (100 * k) * 4) at 2 by lia.
  replace (y + 400 * k - 1) with (y - 1 + (4 * k) * 100) at 2 by lia.
  replace (y + 400 * k - 1) with (y - 1 + k * 400) at 2 by lia.
  rewrite !Z.div_add by lia. lia.
Qed.

Lemma ymd2ord_cycle y m d k :
  ymd2ord (y + 400 * k) m d = ymd2ord y m d + 146097 * k.
Proof.
  unfold ymd2ord, days_before_month.
  rewrite days_before_year_cycle, is_leap_cycle. lia.
Qed.

Lemma days_in_month_cycle y m k :
  days_in_month (y + 400 * k) m = days_in_month y m.
Proof. unfold days_in_month. by rewrite is_leap_cycle. Qed.

(** The date of every day from 0001-01-01 to 9999-12-31. *)
Lemma ord2ymd_spec n :
  1 <= n <= 3652059 ->
  ∃ y m d,
    ord2ymd n = (y, m, d)
    ∧ 1 <= y <= 9999 ∧ 1 <= m <= 12 ∧ 1 <= d <= days_in_month y m
    ∧ ymd2ord y m d = n
    ∧ (36160 <= n -> 100 <= y).
Proof.
  intros Hn.
  pose proof (Z.div_mod (n - 1) 146097 ltac:(lia)) as Hdm.
  pose proof (Z.mod_pos_bound (n - 1) 146097 ltac:(lia)) as Hr.
  destruct (cycle_day ((n - 1) mod 146097) Hr)
    as (y & m & d & Ho & Hy & Hm & Hd & Hord & Hhi & Hlo).
  exists (y + 400 * ((n - 1) / 146097)), m, d.
  rewrite ord2ymd_cycle, Ho, days_in_month_cycle, ymd2ord_cycle.
  repeat split; try lia.
Qed.

End Calendar.

(** ** Words *)

Section Words.

Import PyStr.

Lemma all_chars_impl (p q : ascii -> bool) s :
  (forall c, p c = true -> q c = true) ->
  all_chars p s = true -> all_chars q s = true.
Proof.
  intros Hpq. induction s as [|c r IH]; simpl; [done|].
  intros [Hc Hr]%andb_true_iff. by rewrite (Hpq c Hc), IH.
Qed.

Lemma all_chars_app p a b :
  all_chars p (a ++ b) = all_chars p a && all_chars p b.
Proof.
  induction a as [|c a IH]; simpl; [done|]. by rewrite IH, andb_assoc.
Qed.

Lemma string_app_assoc (a b c : string) : (a ++ b) ++ c = a ++ (b ++ c).
Proof.
  induction a as [|x a IH]; [done|].
  change (String x ((a ++ b) ++ c) = String x (a ++ (b ++ c))). by f_equal.
Qed.

Lemma append_cons c (a b : string) : String c a ++ b = String c (a ++ b).
Proof. done. Qed.

Lemma append_nil (b : string) : EmptyString ++ b = b.
Proof. done. Qed.

Lemma truthy_app a b : truthy a = true -> truthy (a ++ b) = true.
Proof. by destruct a. Qed.

(** [s.split()] on words separated by one blank. *)
Lemma split_word w rest :
  truthy w = true -> all_chars no_space w = true ->
  split (w ++ String " " rest) = w :: split rest.
Proof.
  induction w as [|c w IH]; [done|]. intros _.
  simpl. intros [Hc Hw]%andb_true_iff. unfold no_space in Hc.
  apply negb_true_iff in Hc. rewrite Hc.
  destruct w as [|c' w]; simpl.
  - done.
  - simpl in Hw. apply andb_true_iff in Hw as [Hc' Hw'].
    unfold no_space in Hc'. apply negb_true_iff in Hc'. rewrite Hc'.
    specialize (IH eq_refl). simpl in IH. rewrite Hc' in IH.
    rewrite IH; [done|]. simpl. apply andb_true_iff.
    split; [unfold no_space; by rewrite Hc'|done].
Qed.

Lemma split_last_word w :
  truthy w = true -> all_chars no_space w = true -> split w = [w].
Proof.
  induction w as [|c w IH]; [done|]. intros _.
  simpl. intros [Hc Hw]%andb_true_iff. unfold no_space in Hc.
  apply negb_true_iff in Hc. rewrite Hc.
  destruct w as [|c' w]; simpl; [done|].
  simpl in Hw. apply andb_true_iff in Hw as [Hc' Hw'].
  unfold no_space in Hc'. apply negb_true_iff in Hc'. rewrite Hc'.
  specialize (IH eq_refl). simpl in IH. rewrite Hc' in IH.
  rewrite IH; [done|]. simpl. apply andb_true_iff.
    split; [unfold no_space; by rewrite Hc'|done].
Qed.

(** [s.split(sep)] on pieces that do not hold the separator. *)
Lemma split_on_piece sep a b :
  all_chars (not_char sep) a = true ->
  split_on sep (a ++ String sep b) = a :: split_on sep b.
Proof.
  induction a as [|c a IH]; simpl.
  - intros _. by destruct (ascii_dec sep sep).
  - intros [Hc Ha]%andb_true_iff. unfold not_char in Hc.
    destruct (ascii_dec c sep); [done|]. by rewrite IH.
Qed.

Lemma split_on_last sep a :
  all_chars (not_char sep) a = true -> split_on sep a = [a].
Proof.
  induction a as [|c a IH]; simpl; [done|].
  intros [Hc Ha]%andb_true_iff. unfold not_char in Hc.
  destruct (ascii_dec c sep); [done|]. by rewrite IH.
Qed.

Lemma find_absent x s : all_chars (not_char x) s = true -> find s x = -1.
Proof.
  induction s as [|c s IH]; simpl; [done|].
  intros [Hc Hs]%andb_true_iff. unfold not_char in Hc.
  destruct (ascii_dec c x); [done|]. by rewrite IH.
Qed.

Lemma last_char_all p s c :
  all_chars p s = true -> last_char s = Some c -> p c = true.
Proof.
  induction s as [|a s IH]; simpl; [done|].
  intros [Ha Hs]%andb_true_iff. destruct s as [|b s].
  - by intros [= <-].
  - by apply IH.
Qed.

Lemma endswith_char_absent x s :
  all_chars (not_char x) s = true -> endswith_char s x = false.
Proof.
  intros Hs. unfold endswith_char.
  destruct (last_char s) as [c|] eqn:E; [|done].
  pose proof (last_char_all _ _ _ Hs E) as Hc. unfold not_char in Hc.
  by destruct (ascii_dec c x).
Qed.

Lemma last_char_app a b :
  truthy b = true -> last_char (a ++ b) = last_char b.
Proof.
  intros Hb. induction a as [|c a IH]; simpl; [done|].
  rewrite IH. destruct (a ++ b) eqn:E; [|done].
  destruct a, b; done.
Qed.

Lemma endswith_char_app a b x :
  truthy b = true -> endswith_char (a ++ b) x = endswith_char b x.
Proof. intros Hb. unfold endswith_char. by rewrite last_char_app. Qed.

(** What a decimal digit is not. *)
Lemma is_dec_char c :
  PyInt.is_dec c = true ->
  no_space c = true ∧ not_char "," c = true ∧ not_char ":" c = true
  ∧ not_char "." c = true ∧ isdigit c = true.
Proof. by destruct c as [[] [] [] [] [] [] [] []]. Qed.

Lemma digit_word_truthy s : digit_word s = true -> truthy s = true.
Proof. by intros [? _]%andb_true_iff. Qed.

Lemma digit_word_all (q : ascii -> bool) s :
  (forall c, PyInt.is_dec c = true -> q c = true) ->
  digit_word s = true -> all_chars q s = true.
Proof.
  intros Hq [_ H]%andb_true_iff. by apply (all_chars_impl PyInt.is_dec).
Qed.

Lemma digit_word_no_space s : digit_word s = true -> all_chars no_space s = true.
Proof. apply digit_word_all. intros c Hc. by apply is_dec_char in Hc as (?&?&?&?&?). Qed.

Lemma digit_word_not_char x s :
  x = ","%char ∨ x = ":"%char ∨ x = "."%char ->
  digit_word s = true -> all_chars (not_char x) s = true.
Proof.
  intros Hx. apply digit_word_all. intros c Hc.
  apply is_dec_char in Hc as (?&?&?&?&?). by destruct Hx as [->|[->| ->]].
Qed.

Lemma digit_word_first s :
  digit_word s = true -> ∃ c, first_char s = Some c ∧ isdigit c = true.
Proof.
  destruct s as [|c s]; [done|]. intros [_ H]%andb_true_iff. simpl in H.
  apply andb_true_iff in H as [Hc _]. exists c. split; [done|].
  by apply is_dec_char in Hc as (?&?&?&?&?).
Qed.

End Words.

(** ** Reading a date in the form that [strftime] writes *)

Section ReadDate.

Import PyStr PyEmail.

(** The fields of five words in the canonical order, the day, the year
    and the three parts of the time being words of digits. *)
Lemma parse_fields_canonical dd mm yy thh tmm tss tz (d m y h mi s : Z) :
  digit_word dd = true -> digit_word yy = true ->
  digit_word thh = true -> digit_word tmm = true -> digit_word tss = true ->
  truthy mm = true ->
  mem (lower mm) _monthnames = true ->
  index_of (lower mm) _monthnames + 1 = m -> m <= 12 ->
  PyInt.int dd = Some d -> PyInt.int yy = Some y ->
  PyInt.int thh = Some h -> PyInt.int tmm = Some mi -> PyInt.int tss = Some s ->
  parse_fields dd mm yy (thh ++ String ":" (tmm ++ String ":" tss)) tz
  = Some (mk_date_tuple (fix_year y) m d h mi s (zone_offset tz)).
Proof.
  intros Hdd Hyy Hhh Hmi Hss Hmm Hmem Hidx Hm Id Iy Ih Imi Is.
  unfold parse_fields. cbv zeta.
  rewrite (digit_word_truthy dd Hdd), Hmm, (digit_word_truthy yy Hyy).
  rewrite Hmem. cbn [negb andb]. rewrite Hmem. cbn [negb]. rewrite Hidx.
  assert ((12 <? m) = false) as -> by by apply Z.ltb_ge.
  rewrite (endswith_char_absent "," dd)
    by (apply digit_word_not_char; auto).
  rewrite (find_absent ":" yy) by (apply digit_word_not_char; auto).
  assert ((0 <? -1) = false) as -> by done.
  rewrite (endswith_char_absent "," yy)
    by (apply digit_word_not_char; auto).
  cbn [andb].
  destruct (digit_word_first yy Hyy) as (c & -> & ->). cbn [negb].
  assert (endswith_char (thh ++ String ":" (tmm ++ String ":" tss)) "," = false) as ->.
  { rewrite endswith_char_app by done.
    change (String ":" (tmm ++ String ":" tss))
      with (String ":" tmm ++ String ":" tss).
    rewrite endswith_char_app by done.
    change (String ":" tss) with (String ":" EmptyString ++ tss).
    rewrite endswith_char_app by by apply digit_word_truthy.
    apply endswith_char_absent, digit_word_not_char; auto. }
  unfold split_time.
  rewrite (split_on_piece ":" thh) by (apply digit_word_not_char; auto).
  rewrite (split_on_piece ":" tmm) by (apply digit_word_not_char; auto).
  rewrite (split_on_last ":" tss) by (apply digit_word_not_char; auto).
  by rewrite Iy, Id, Ih, Imi, Is.
Qed.

(** The names that [strftime] prints. *)
Lemma dayname_word wd :
  0 <= wd < 7 ->
  let w := nth (Z.to_nat wd) PyDate._daynames_abbr EmptyString ++ "," in
  truthy w = true ∧ all_chars no_space w = true ∧ endswith_char w "," = true.
Proof.
  intros H.
  assert (wd = 0 ∨ wd = 1 ∨ wd = 2 ∨ wd = 3 ∨ wd = 4 ∨ wd = 5 ∨ wd = 6)
    as Hc by lia.
  by repeat destruct Hc as [->|Hc]; [..|subst wd].
Qed.

Lemma monthname_word m :
  1 <= m <= 12 ->
  let w := nth (Z.to_nat m) PyDate._monthnames_abbr EmptyString in
  truthy w = true ∧ all_chars no_space w = true
  ∧ mem (lower w) _monthnames = true
  ∧ index_of (lower w) _monthnames + 1 = m.
Proof.
  intros H.
  assert (m = 1 ∨ m = 2 ∨ m = 3 ∨ m = 4 ∨ m = 5 ∨ m = 6
          ∨ m = 7 ∨ m = 8 ∨ m = 9 ∨ m = 10 ∨ m = 11 ∨ m = 12)
    as Hc by lia.
  by repeat destruct Hc as [->|Hc]; [..|subst m].
Qed.

(** The numbers that [strftime] prints are read back by [int]. *)
Lemma printed_ok_spec print n :
  printed_ok print n = true ->
  digit_word (print n) = true ∧ PyInt.int (print n) = Some n.
Proof.
  unfold printed_ok. intros [H1 H2]%andb_true_iff. split; [done|].
  destruct (PyInt.int (print n)); [|done]. by apply Z.eqb_eq in H2 as ->.
Qed.

Lemma pad2_printed : all_from (printed_ok (PyInt.pad 2)) 0 60 = true.
Proof. vm_compute. reflexivity. Qed.

Lemma year_printed :
  all_from (printed_ok (PyDate.strftime_Y true)) 100 (Z.to_nat 9900)
  && all_from (printed_ok (PyDate.strftime_Y false)) 100 (Z.to_nat 9900) = true.
Proof. vm_compute. reflexivity. Qed.

Lemma pad2_ok n :
  0 <= n <= 59 ->
  digit_word (PyInt.pad 2 n) = true ∧ PyInt.int (PyInt.pad 2 n) = Some n.
Proof.
  intros H. apply printed_ok_spec, (all_from_spec _ 60 0); [apply pad2_printed|lia].
Qed.

Lemma year_ok pad y :
  100 <= y <= 9999 ->
  digit_word (PyDate.strftime_Y pad y) = true
  ∧ PyInt.int (PyDate.strftime_Y pad y) = Some y.
Proof.
  intros H. pose proof year_printed as [H1 H2]%andb_true_iff.
  apply printed_ok_spec.
  destruct pad; [apply (all_from_spec _ _ 100 y H1)|apply (all_from_spec _ _ 100 y H2)]; lia.
Qed.

End ReadDate.

(** ** Printing an epoch and reading it back *)

Section RoundTrip.

Context {P : platform}.

Import PyDate PyEmail.

Lemma fromtimestamp_utc_spec e :
  MIN_EPOCH <= e <= MAX_EPOCH ->
  ∃ y m d,
    fromtimestamp_utc e
    = Return (mk_datetime y m d (e mod 86400 / 3600) (e mod 86400 / 60 mod 60)
                (e mod 86400 mod 60) (Some 0))
    ∧ 1 <= y <= 9999 ∧ 1 <= m <= 12 ∧ 1 <= d <= days_in_month y m
    ∧ ymd2ord y m d = e / 86400 + 719163
    ∧ (YEAR_100_EPOCH <= e -> 100 <= y).
Proof.
  unfold MIN_EPOCH, MAX_EPOCH, YEAR_100_EPOCH. intros He.
  assert (1 <= e / 86400 + 719163 <= 3652059) as Hn
    by (Z.div_mod_to_equations; lia).
  destruct (ord2ymd_spec _ Hn) as (y & m & d & Ho & Hy & Hm & Hd & Hord & Hlo).
  exists y, m, d. unfold fromtimestamp_utc. rewrite Ho.
  assert ((-9223372036854775808 <=? e) && (e <=? 9223372036854775807) = true) as ->
    by (apply andb_true_iff; split; apply Z.leb_le; lia).
  assert ((-67768040609740800 <=? e) && (e <=? 67768036191676799) = true) as ->
    by (apply andb_true_iff; split; apply Z.leb_le; lia).
  assert ((MINYEAR <=? y) && (y <=? MAXYEAR) = true) as ->
    by (unfold MINYEAR, MAXYEAR; apply andb_true_iff; split; apply Z.leb_le; lia).
  cbn [negb]. repeat split; try lia.
  intros ?. apply Hlo. Z.div_mod_to_equations; lia.
Qed.

Lemma days_in_month_le_31 y m : 1 <= m <= 12 -> days_in_month y m <= 31.
Proof.
  intros H. unfold days_in_month.
  assert (m = 1 ∨ m = 2 ∨ m = 3 ∨ m = 4 ∨ m = 5 ∨ m = 6
          ∨ m = 7 ∨ m = 8 ∨ m = 9 ∨ m = 10 ∨ m = 11 ∨ m = 12)
    as Hc by lia.
  repeat destruct Hc as [->|Hc]; [..|subst m];
    destruct (is_leap y); simpl; lia.
Qed.

(** The text of a valid UTC date is read back as that date. *)
Lemma parsedate_strftime dt :
  100 <= year dt <= 9999 -> 1 <= month dt <= 12 ->
  1 <= day dt <= days_in_month (year dt) (month dt) ->
  0 <= hour dt <= 23 -> 0 <= minute dt <= 59 -> 0 <= second dt <= 59 ->
  tzinfo dt = Some 0 ->
  PyStr.truthy (strftime_http year_zero_padded dt) = true
  ∧ parsedate_to_datetime (strftime_http year_zero_padded dt) = Return dt.
Proof.
  destruct dt as [y m d hh mi ss tz]. simpl. intros Hy Hm Hd Hh Hmi Hs ->.
  pose proof (days_in_month_le_31 y m Hm) as Hd31.
  set (dt := mk_datetime y m d hh mi ss (Some 0)).
  assert (0 <= weekday dt < 7) as Hwd
    by (unfold weekday; apply Z.mod_pos_bound; lia).
  destruct (dayname_word (weekday dt) Hwd) as (Wt & Ws & We).
  destruct (monthname_word m Hm) as (Mt & Ms & Mmem & Midx).
  destruct (pad2_ok d ltac:(lia)) as [Dd Di].
  destruct (pad2_ok hh ltac:(lia)) as [Hd' Hi].
  destruct (pad2_ok mi ltac:(lia)) as [Md Mi].
  destruct (pad2_ok ss ltac:(lia)) as [Sd Si].
  destruct (year_ok year_zero_padded y Hy) as [Yd Yi].
  set (W1 := nth (Z.to_nat (weekday dt)) _daynames_abbr EmptyString ++ ",") in *.
  set (W3 := nth (Z.to_nat m) _monthnames_abbr EmptyString) in *.
  set (TM := PyInt.pad 2 hh ++ String ":" (PyInt.pad 2 mi ++ String ":" (PyInt.pad 2 ss))).
  assert (strftime_http year_zero_padded dt
          = W1 ++ String " " (PyInt.pad 2 d ++ String " " (W3 ++ String " "
              (strftime_Y year_zero_padded y ++ String " " (TM ++ String " " "GMT")))))
    as Hform.
  { unfold strftime_http, W1, W3, TM. simpl year. simpl month. simpl day.
    simpl hour. simpl minute. simpl second.
    repeat first [rewrite string_app_assoc | rewrite append_cons | rewrite append_nil].
    reflexivity. }
  rewrite Hform. split; [by apply truthy_app|].
  assert (_parsedate_tz
            (W1 ++ String " " (PyInt.pad 2 d ++ String " " (W3 ++ String " "
              (strftime_Y year_zero_padded y ++ String " " (TM ++ String " " "GMT")))))
          = Some (mk_date_tuple y m d hh mi ss (Some 0))) as Hp.
  { unfold _parsedate_tz. rewrite truthy_app by done. cbn [negb].
    rewrite (split_word W1) by done.
    rewrite (split_word (PyInt.pad 2 d))
      by first [by apply digit_word_truthy | by apply digit_word_no_space].
    rewrite (split_word W3) by done.
    rewrite (split_word (strftime_Y year_zero_padded y))
      by first [by apply digit_word_truthy | by apply digit_word_no_space].
    rewrite (split_word TM).
    2: { unfold TM. by apply truthy_app, digit_word_truthy. }
    2: { unfold TM. repeat first [rewrite all_chars_app | progress cbn [all_chars]].
         rewrite !digit_word_no_space by done. reflexivity. }
    change (PyStr.split "GMT") with ["GMT"].
    unfold skip_dayname. rewrite We. cbn [orb].
    cbn [split_rfc850 split_zone].
    unfold TM.
    rewrite (parse_fields_canonical _ _ _ _ _ _ _ d m y hh mi ss); try done; [|lia].
    assert (fix_year y = y) as ->.
    { unfold fix_year. by rewrite (proj2 (Z.ltb_ge y 100)) by lia. }
    done. }
  unfold parsedate_to_datetime. rewrite Hp. cbn [t_offset].
  change (timezone_of_seconds 0) with (Return (A:=Z) 0).
  cbn [t_year t_month t_day t_hour t_minute t_second].
  unfold datetime_new, fits_c_int, MINYEAR, MAXYEAR.
  repeat match goal with
         | |- context [(?a <=? ?b)] =>
             rewrite (proj2 (Z.leb_le a b)) by lia
         end.
  done.
Qed.

(** C4, as the code has it.  For every epoch of the years 100 to 9999,
    that is from -59011459200 to 253402300799, [epoch_to_http_date]
    returns a text that [parse_http_date] reads back as the same epoch.
    (In the years 1 to 99 the year is read as a two-digit year of 1969
    to 2068.) *)
Theorem http_date_round_trip (e : Z) :
  YEAR_100_EPOCH <= e <= MAX_EPOCH ->
  ∃ http,
    epoch_to_http_date e = Return http
    ∧ parse_http_date http = Return (Some e).
Proof.
  intros He.
  destruct (fromtimestamp_utc_spec e) as (y & m & d & Hf & Hy & Hm & Hd & Hord & Hlo).
  { unfold MIN_EPOCH, YEAR_100_EPOCH in *. lia. }
  specialize (Hlo (proj1 He)).
  pose proof (Z.mod_pos_bound e 86400 ltac:(lia)) as Hs.
  set (dt := mk_datetime y m d (e mod 86400 / 3600) (e mod 86400 / 60 mod 60)
               (e mod 86400 mod 60) (Some 0)) in *.
  destruct (parsedate_strftime dt) as [Ht Hp]; simpl; try lia; try done.
  1-3: Z.div_mod_to_equations; lia.
  exists (strftime_http year_zero_padded dt).
  unfold epoch_to_http_date, parse_http_date. rewrite Hf, Ht, Hp. cbn [negb].
  split; [done|]. do 2 f_equal.
  unfold timestamp, wall_seconds. simpl. rewrite Hord.
  Z.div_mod_to_equations; lia.
Qed.

End RoundTrip.

(** ** The run as a whole *)

Section WholeRun.

Context {P : platform}.

Ltac not_in_log :=
  let H := fresh in
  intros H;
  repeat (apply elem_of_cons in H as [H|H]; [discriminate H|]);
  by apply elem_of_nil in H.

Ltac not_in_log' := let H := fresh in intros H; exfalso; revert H; not_in_log.

Ltac in_log :=
  cbv [log_updated log_report log_cache log_download log_unchanged log_probe app];
  repeat first [apply list_elem_of_here | apply list_elem_of_further].

Lemma report_body_empty : report_body ∅ = no_records_line.
Proof. unfold report_body. by rewrite decide_True. Qed.

Lemma new_records_of_no_cache content : new_records_of content None = ∅.
Proof. done. Qed.

Lemma new_records_of_empty_cache content :
  new_records_of content (Some EmptyString) = ∅.
Proof. done. Qed.

Lemma cached_content_absent f : CACHE_FILE f = None -> cached_content f = Return None.
Proof. intros H. by rewrite cached_content_eq, H. Qed.

Lemma cached_content_Text f text :
  CACHE_FILE f = Some (Text text) ->
  cached_content f = Return (Some (universal_newlines text)).
Proof. intros H. by rewrite cached_content_eq, H. Qed.

Lemma epoch_to_http_date_in_range e :
  MIN_EPOCH <= e <= MAX_EPOCH ->
  ∃ http, epoch_to_http_date e = Return http.
Proof.
  intros He. destruct (fromtimestamp_utc_spec e He) as (y & m & d & Hf & _).
  unfold epoch_to_http_date. rewrite Hf. eauto.
Qed.

(** The run that downloads the list and gets to the report. *)
Lemma download_run (w : world) (f : files)
    (stored : option Z) (e : Z) (content : string) (previous : option string) :
  stored_epoch f = Return stored ->
  probed_epoch w = Return (Some e) ->
  stored ≠ Some e ->
  get_response w = Return content ->
  PyStr.truthy content = true ->
  cached_content f = Return previous ->
  main w (start f) =
  match epoch_to_http_date e with
  | Return http =>
      (Return tt,
       mk_state
         (mk_files (Some (Text (PyInt.str e))) (Some (Text content))
            (Some (Text (report_header (now_text w) http (Some e)
                           (Z.of_nat (size (new_records_of content previous)))
                         ++ report_body (new_records_of content previous)))))
         log_updated)
  | Raise x => (Raise x, mk_state f log_report)
  end.
Proof.
  intros Hs Hp Hne Hg Ht Hc.
  rewrite main_run, Hs, Hp, bool_decide_eq_false_2, andb_false_r by done.
  rewrite Hg, Ht, Hc. cbn [negb].
  rewrite report_text_eq.
  assert (truthy_epoch (Some e) = true) as ->.
  { simpl. apply negb_true_iff, Z.eqb_neq. by eapply probed_epoch_nonzero. }
  simpl default. by destruct (epoch_to_http_date e).
Qed.

(** C1. When a stored timestamp is present and equals the freshly
    probed one, [main] does not call [download_blocklist], writes a
    report with a count of zero and the placeholder line instead of
    record lines, does not call [save_last_modified], and leaves the
    timestamp file (and the cache) as they were. *)
Theorem unchanged_timestamp_skips_download (w : world) (f : files) (e : Z) :
  stored_epoch f = Return (Some e) ->
  probed_epoch w = Return (Some e) ->
  ∃ http,
    epoch_to_http_date e = Return http
    ∧ main w (start f)
      = (Return tt,
         mk_state
           (mk_files (LAST_MODIFIED_FILE f) (CACHE_FILE f)
              (Some (Text (report_header (now_text w) http (Some e) 0
                           ++ no_records_line))))
           log_unchanged)
    ∧ (Call_download_blocklist ∉ calls (snd (main w (start f))))
    ∧ (Call_save_last_modified ∉ calls (snd (main w (start f))))
    ∧ LAST_MODIFIED_FILE (fs (snd (main w (start f)))) = LAST_MODIFIED_FILE f.
Proof.
  intros Hs Hp.
  pose proof (probed_epoch_nonzero w e Hp) as Hne.
  apply stored_epoch_Some in Hs as Hs'. destruct Hs' as (text & http & _ & _ & Hh).
  exists http. split; [done|].
  assert (main w (start f)
          = (Return tt,
             mk_state
               (mk_files (LAST_MODIFIED_FILE f) (CACHE_FILE f)
                  (Some (Text (report_header (now_text w) http (Some e) 0
                               ++ no_records_line))))
               log_unchanged)) as ->.
  { rewrite main_run, Hs, Hp.
    assert (truthy_epoch (Some e) = true) as Ht
      by (simpl; by apply negb_true_iff, Z.eqb_neq).
    rewrite Ht, bool_decide_eq_true_2 by done. simpl andb. cbv iota.
    rewrite report_text_eq, Ht. simpl default. rewrite Hh.
    by rewrite report_body_empty, size_empty. }
  simpl. split; [done|].
  split; [|split; [|done]]; not_in_log.
Qed.

(** C5. On a run that downloads the list while no cache file exists,
    [main] finds no new record whatever the downloaded text holds: the
    report has a count of zero and the placeholder line instead of
    record lines, the downloaded text becomes the cache and the probed
    timestamp is stored.  The run downloads when the probe yields a
    timestamp that differs from the stored one, and goes on when the
    body is not empty.  It ends that way for every probed epoch of the
    years 1 to 9999; an epoch that the report header cannot print makes
    [save_new_records] raise, and then [main], before any file is
    written. *)
Theorem first_run_reports_nothing (w : world) (f : files)
    (stored : option Z) (e : Z) (content : string) :
  CACHE_FILE f = None ->
  stored_epoch f = Return stored ->
  probed_epoch w = Return (Some e) ->
  stored ≠ Some e ->
  get_response w = Return content ->
  PyStr.truthy content = true ->
  match epoch_to_http_date e with
  | Return http =>
      main w (start f)
      = (Return tt,
         mk_state
           (mk_files (Some (Text (PyInt.str e))) (Some (Text content))
              (Some (Text (report_header (now_text w) http (Some e) 0
                           ++ no_records_line))))
           log_updated)
  | Raise x => main w (start f) = (Raise x, mk_state f log_report)
  end
  ∧ (MIN_EPOCH <= e <= MAX_EPOCH -> fst (main w (start f)) = Return tt).
Proof.
  intros Hc Hs Hp Hne Hg Ht.
  rewrite (download_run w f stored e content None)
    by (done || by apply cached_content_absent).
  rewrite new_records_of_no_cache, report_body_empty, size_empty.
  split; [by destruct (epoch_to_http_date e)|].
  intros [http ->]%epoch_to_http_date_in_range. done.
Qed.

(** C10. A cache file that exists and is empty is treated as no cache.
    In every world [main] has the outcome, the calls, the report and
    the timestamp file that it has when the cache file does not exist,
    and the same files altogether once the cache is rewritten.  On a
    run that downloads the list the set of new records is empty
    whatever the downloaded text holds: the report has a count of zero
    and the placeholder line, no record being compared with an empty
    previous set. *)
Theorem empty_cache_is_first_run (w : world) (f : files) :
  CACHE_FILE f = Some (Text EmptyString) ->
  let f0 := mk_files (LAST_MODIFIED_FILE f) None (OUTPUT_FILE f) in
  fst (main w (start f)) = fst (main w (start f0))
  ∧ calls (snd (main w (start f))) = calls (snd (main w (start f0)))
  ∧ LAST_MODIFIED_FILE (fs (snd (main w (start f))))
    = LAST_MODIFIED_FILE (fs (snd (main w (start f0))))
  ∧ OUTPUT_FILE (fs (snd (main w (start f))))
    = OUTPUT_FILE (fs (snd (main w (start f0))))
  ∧ (Call_save_cached_content ∈ calls (snd (main w (start f))) ->
     main w (start f) = main w (start f0))
  ∧ ∀ stored e content http,
      stored_epoch f = Return stored ->
      probed_epoch w = Return (Some e) ->
      stored ≠ Some e ->
      get_response w = Return content ->
      PyStr.truthy content = true ->
      epoch_to_http_date e = Return http ->
      main w (start f)
      = (Return tt,
         mk_state
           (mk_files (Some (Text (PyInt.str e))) (Some (Text content))
              (Some (Text (report_header (now_text w) http (Some e) 0
                           ++ no_records_line))))
           log_updated).
Proof.
  intros Hc f0.
  assert (stored_epoch f0 = stored_epoch f) as Hs0 by by apply stored_epoch_ext.
  assert (cached_content f = Return (Some EmptyString)) as Hcc
    by by rewrite (cached_content_Text f EmptyString).
  assert (cached_content f0 = Return None) as Hcc0 by by apply cached_content_absent.
  split; [|split; [|split; [|split; [|split]]]].
  1-5: rewrite !main_run, Hs0, Hcc, Hcc0; simpl CACHE_FILE; rewrite Hc;
    destruct (stored_epoch f) as [stored|x]; [|try done; not_in_log'];
    destruct (probed_epoch w) as [[e|]|x]; [|try done; not_in_log'..];
    destruct (truthy_epoch stored && bool_decide (stored = Some e));
    [destruct (report_text w ∅ stored); try done; not_in_log'|];
    destruct (get_response w) as [content|x]; [|try done; not_in_log'];
    destruct (PyStr.truthy content); cbn [negb]; [|try done; not_in_log'];
    change (new_records_of content (Some EmptyString))
      with (new_records_of content None);
    destruct (report_text w (new_records_of content None) (Some e));
    try done; not_in_log'.
  intros stored e content http Hs Hp Hne Hg Ht Hh.
  rewrite (download_run w f stored e content (Some EmptyString)), Hh by done.
  by rewrite new_records_of_empty_cache, report_body_empty, size_empty.
Qed.

(** X18. When the timestamp file decodes to a text that [int] rejects,
    [load_last_modified] returns [None] without raising, and [main]
    behaves as it does when the file is absent: same outcome, same
    calls, same cache and report, and the same timestamp file once it
    is rewritten; the unchanged-timestamp branch is not taken, so that
    a probe that yields a timestamp is followed by the download. *)
Theorem invalid_stored_timestamp_is_no_state (w : world) (f : files) (text : string) :
  LAST_MODIFIED_FILE f = Some (Text text) ->
  PyInt.int (PyStr.strip (universal_newlines text)) = None ->
  let f0 := mk_files None (CACHE_FILE f) (OUTPUT_FILE f) in
  load_last_modified (start f) = (Return None, mk_state f [Call_load_last_modified])
  ∧ fst (main w (start f)) = fst (main w (start f0))
  ∧ calls (snd (main w (start f))) = calls (snd (main w (start f0)))
  ∧ CACHE_FILE (fs (snd (main w (start f)))) = CACHE_FILE (fs (snd (main w (start f0))))
  ∧ OUTPUT_FILE (fs (snd (main w (start f)))) = OUTPUT_FILE (fs (snd (main w (start f0))))
  ∧ (Call_save_last_modified ∈ calls (snd (main w (start f))) ->
     fs (snd (main w (start f))) = fs (snd (main w (start f0))))
  ∧ (∀ e, probed_epoch w = Return (Some e) ->
          Call_download_blocklist ∈ calls (snd (main w (start f)))).
Proof.
  intros Hf Hi f0.
  pose proof (stored_epoch_invalid f text Hf Hi) as Hs.
  assert (stored_epoch f0 = Return None) as Hs0 by by apply stored_epoch_absent.
  split.
  { rewrite load_last_modified_run. simpl. rewrite Hs. by destruct f. }
  rewrite !main_run, Hs, Hs0, (cached_content_ext f0 f eq_refl).
  simpl truthy_epoch. simpl andb. cbv iota.
  destruct (probed_epoch w) as [[e|]|x]; simpl.
  2,3: by repeat split; try done; try (intros H; exfalso; revert H; not_in_log).
  destruct (get_response w) as [content|x]; simpl.
  2: { repeat split; try done.
       - intros H; exfalso; revert H; not_in_log.
       - intros _ _. unfold log_download, log_probe. simpl. in_log. }
  destruct (PyStr.truthy content); simpl.
  2: { repeat split; try done.
       - intros H; exfalso; revert H; not_in_log.
       - intros _ _. unfold log_download, log_probe. simpl. in_log. }
  destruct (cached_content f) as [previous|x]; simpl.
  2: { repeat split; try done.
       - intros H; exfalso; revert H; not_in_log.
       - intros _ _. in_log. }
  destruct (report_text w _ (Some e)) as [report|x]; simpl.
  - repeat split; try done. intros _ _. in_log.
  - repeat split; try done.
    + intros H; exfalso; revert H; not_in_log.
    + intros _ _. in_log.
Qed.

(** C9. A [Last-Modified] header that parses to epoch 0 is handled as a
    missing header: [check_last_modified] returns [None] and [main]
    stops there, as it does when the header is missing, without writing
    any file.  And a stored timestamp of 0 never makes [main] take the
    unchanged-timestamp branch: a probe that yields a timestamp is
    followed by the download. *)
Theorem zero_epoch_is_absent :
  (∀ (w : world) (h : string),
     head_response w = Return (Some h) ->
     parse_http_date h = Return (Some 0) ->
     probed_epoch w = Return None
     ∧ ∀ f : files,
         main w (start f)
         = main (mk_world (Return None) (get_response w) (now_text w)) (start f)
         ∧ fs (snd (main w (start f))) = f
         ∧ (∀ stored, stored_epoch f = Return stored ->
                      main w (start f) = (Return tt, mk_state f log_probe)))
  ∧ (∀ (w : world) (f : files),
       stored_epoch f = Return (Some 0) ->
       calls (snd (main w (start f))) ≠ log_unchanged
       ∧ ∀ e, probed_epoch w = Return (Some e) ->
              Call_download_blocklist ∈ calls (snd (main w (start f)))).
Proof.
  split.
  - intros w h Hh Hp.
    assert (probed_epoch w = Return None) as Hn
      by by rewrite probed_epoch_eq, Hh, Hp.
    split; [done|]. intros f. rewrite !main_run, Hn.
    assert (probed_epoch (mk_world (Return None) (get_response w) (now_text w))
            = Return None) as -> by by rewrite probed_epoch_eq.
    split; [done|].
    split; [by destruct (stored_epoch f)|].
    by intros stored ->.
  - intros w f Hs. rewrite main_run, Hs. simpl truthy_epoch. simpl andb. cbv iota.
    destruct (probed_epoch w) as [[e|]|x]; simpl.
    2,3: by split.
    destruct (get_response w) as [content|x]; simpl; [|split; [done|(intros; in_log)]].
    destruct (PyStr.truthy content); simpl; [|split; [done|(intros; in_log)]].
    destruct (cached_content f) as [previous|x]; simpl;
      [|split; [done|(intros; in_log)]].
    destruct (report_text w _ (Some e)) as [report|x]; simpl;
      (split; [done|(intros; in_log)]).
Qed.

(** C6, as the code has it.  No file is written when the probe fails,
    when the [Last-Modified] header is missing or is one that
    [parse_http_date] rejects, or when the download fails.  With a
    missing or rejected header [check_last_modified] returns [None] and
    [main] returns normally; a failed probe or download is an exception
    that leaves [check_last_modified] or [download_blocklist] and then
    [main]. *)
Theorem failed_probe_or_fetch_writes_nothing (w : world) (f : files) :
  (∀ x, head_response w = Raise x ->
     probed_epoch w = Raise x
     ∧ fs (snd (main w (start f))) = f
     ∧ (∀ stored, stored_epoch f = Return stored ->
                  main w (start f) = (Raise x, mk_state f log_probe)))
  ∧ (head_response w = Return None
     ∨ (∃ h, head_response w = Return (Some h) ∧ parse_http_date h = Return None) ->
     probed_epoch w = Return None
     ∧ fs (snd (main w (start f))) = f
     ∧ (∀ stored, stored_epoch f = Return stored ->
                  main w (start f) = (Return tt, mk_state f log_probe)))
  ∧ (∀ x, get_response w = Raise x ->
     Call_download_blocklist ∈ calls (snd (main w (start f))) ->
     main w (start f) = (Raise x, mk_state f log_download)).
Proof.
  split; [|split].
  - intros x Hh.
    assert (probed_epoch w = Raise x) as Hp by by rewrite probed_epoch_eq, Hh.
    split; [done|]. rewrite main_run, Hp.
    split; [by destruct (stored_epoch f)|]. by intros stored ->.
  - intros H.
    assert (probed_epoch w = Return None) as Hp.
    { rewrite probed_epoch_eq. destruct H as [->|(h & -> & ->)]; done. }
    split; [done|]. rewrite main_run, Hp.
    split; [by destruct (stored_epoch f)|]. by intros stored ->.
  - intros x Hg. rewrite main_run, Hg.
    destruct (stored_epoch f) as [stored|y]; simpl.
    2: { intros H; exfalso; revert H; not_in_log. }
    destruct (probed_epoch w) as [[e|]|y]; simpl.
    2,3: intros H; exfalso; revert H; not_in_log.
    destruct (truthy_epoch stored && bool_decide (stored = Some e)); [|done].
    destruct (report_text w ∅ stored); simpl;
      intros H; exfalso; revert H; not_in_log.
Qed.

(** C8. The report that [save_new_records] writes, for every record
    set and timestamp: six header lines that begin with [#], among them
    the source URL, the timestamp as an HTTP date ([Unknown] when it is
    absent or zero) and as a number, and the exact count of the set; an
    empty line; and then the records in ascending order, each once and
    one per line, or, when the set is empty, one placeholder line that
    begins with [#].  The text is given character by character: the
    record lines are each record followed by one LF, joined with
    nothing between.  The report is written for every timestamp that is
    absent, zero or an epoch of the years 1 to 9999; [save_new_records]
    raises, before it opens the file, only when the timestamp is one
    that [epoch_to_http_date] cannot print. *)
Theorem save_new_records_writes_report (w : world) (records : gset string)
    (ts : option Z) (s : state) :
  match save_new_records w records ts s with
  | (Return _, s') =>
      ∃ (http : string) (lines : list string),
        (if truthy_epoch ts
         then epoch_to_http_date (default 0 ts) = Return http
         else http = "Unknown")
        ∧ Sorted str_le lines
        ∧ lines ≡ₚ elements records
        ∧ s' =
          mk_state
            (mk_files (LAST_MODIFIED_FILE (fs s)) (CACHE_FILE (fs s))
               (Some
                  (Text
                     ("# New records added to Phishing Army Extended Blocklist" ++ nl
                      ++ "# Source: " ++ BLOCKLIST_URL ++ nl
                      ++ "# Last updated: " ++ now_text w ++ nl
                      ++ "# Blocklist Last-Modified: " ++ http ++ nl
                      ++ "# Blocklist Last-Modified (epoch): " ++ format_epoch ts ++ nl
                      ++ "# Total new records: "
                      ++ PyInt.str (Z.of_nat (List.length lines)) ++ nl
                      ++ nl
                      ++ (if decide (records = ∅)
                          then "# No new records detected in the last check" ++ nl
                          else String.concat EmptyString
                                 (List.map (fun record => record ++ nl) lines))))))
            (calls s ++ [Call_save_new_records])
  | (Raise x, s') =>
      truthy_epoch ts = true
      ∧ epoch_to_http_date (default 0 ts) = Raise x
      ∧ s' = logged Call_save_new_records s
  end
  ∧ ((truthy_epoch ts = true -> MIN_EPOCH <= default 0 ts <= MAX_EPOCH) ->
     fst (save_new_records w records ts s) = Return tt).
Proof.
  rewrite save_new_records_run, report_text_eq.
  assert (∀ http,
            report_header (now_text w) http ts (Z.of_nat (size records))
            ++ report_body records
            = "# New records added to Phishing Army Extended Blocklist" ++ nl
              ++ "# Source: " ++ BLOCKLIST_URL ++ nl
              ++ "# Last updated: " ++ now_text w ++ nl
              ++ "# Blocklist Last-Modified: " ++ http ++ nl
              ++ "# Blocklist Last-Modified (epoch): " ++ format_epoch ts ++ nl
              ++ "# Total new records: "
              ++ PyInt.str (Z.of_nat (List.length (sorted records))) ++ nl
              ++ nl
              ++ (if decide (records = ∅)
                  then "# No new records detected in the last check" ++ nl
                  else String.concat EmptyString
                         (List.map (fun record => record ++ nl) (sorted records))))
    as Htext.
  { intros http. rewrite <- record_lines_concat.
    unfold report_header, report_body, size, set_size. simpl.
    rewrite (Permutation_length (sorted_perm records)).
    repeat first [rewrite string_app_assoc | rewrite append_cons | rewrite append_nil].
    reflexivity. }
  destruct (truthy_epoch ts) eqn:Ht.
  - destruct (epoch_to_http_date (default 0 ts)) as [http|x] eqn:Hh.
    + split; [|done]. exists http, (sorted records).
      split; [done|]. split; [apply sorted_Sorted|]. split; [apply sorted_perm|].
      by rewrite Htext.
    + split; [done|]. intros Hr.
      destruct (epoch_to_http_date_in_range _ (Hr eq_refl)) as [http Hh'].
      congruence.
  - split; [|done]. exists "Unknown", (sorted records).
    split; [done|]. split; [apply sorted_Sorted|]. split; [apply sorted_perm|].
    by rewrite Htext.
Qed.

End WholeRun.

(** C7. A timestamp file that exists and whose bytes do not decode in
    the encoding of the locale holds no valid integer, and yet
    [load_last_modified] does not return [None] for it: the read of
    line 45 stands before the [try] of lines 46 to 53, so it raises
    [UnicodeDecodeError], which the handler of [ValueError] would have
    caught, and [main] raises it after that one call, with nothing
    probed, downloaded or written, whatever the server answers and
    whatever the cache and the report hold.  With no timestamp file
    the same server gets the whole update, which [main] goes through
    and returns from. *)
Theorem undecodable_timestamp_file_raises {P : platform} (w : world)
    (cache report : option file_data) :
  load_last_modified (start (mk_files (Some Undecodable) cache report))
  = (Raise UnicodeDecodeError,
     mk_state (mk_files (Some Undecodable) cache report) [Call_load_last_modified])
  ∧ main w (start (mk_files (Some Undecodable) cache report))
    = (Raise UnicodeDecodeError,
       mk_state (mk_files (Some Undecodable) cache report) [Call_load_last_modified])
  ∧ main (P:=glibc_utc) example_world (start garbled_timestamp)
    = (Raise UnicodeDecodeError,
       mk_state garbled_timestamp [Call_load_last_modified])
  ∧ fst (main (P:=glibc_utc) example_world (start no_files)) = Return tt
  ∧ calls (snd (main (P:=glibc_utc) example_world (start no_files))) = log_updated.
Proof.
  split; [|split; [|split]].
  - rewrite load_last_modified_run.
    by rewrite stored_epoch_undecodable.
  - rewrite main_run. by rewrite stored_epoch_undecodable.
  - rewrite main_run. by rewrite stored_epoch_undecodable.
  - rewrite (download_run (P:=glibc_utc) example_world no_files None 1735689600
               ("a" ++ nl ++ "b" ++ nl ++ "# comment" ++ nl) None
               eq_refl eq_refl ltac:(discriminate) eq_refl eq_refl eq_refl).
    change (epoch_to_http_date (P:=glibc_utc) 1735689600)
      with (Return (A:=string) "Wed, 01 Jan 2025 00:00:00 GMT").
    done.
Qed.

Lemma diff_records_spec_witness :
  PyStr.splitlines ("b" ++ nl ++ "a") ≡ₚ PyStr.splitlines ("a" ++ nl ++ "b")
  ∧ PyStr.splitlines "x" ≡ₚ PyStr.splitlines "x"
  ∧ parse_records ("b" ++ nl ++ "a") ∖ parse_records "x"
    = parse_records ("a" ++ nl ++ "b") ∖ parse_records "x".
Proof.
  split; [apply perm_swap|]. split; [reflexivity|].
  apply (proj2 (diff_records_spec ("a" ++ nl ++ "b") "x")).
  - apply perm_swap.
  - reflexivity.
Defined.

Lemma parse_records_stable_witness :
  PyStr.splitlines ("b" ++ nl ++ "a") ≡ₚ PyStr.splitlines ("a" ++ nl ++ "b")
  ∧ parse_records ("b" ++ nl ++ "a") = parse_records ("a" ++ nl ++ "b").
Proof.
  split; [apply perm_swap|].
  apply (proj1 (proj2 (parse_records_stable ("a" ++ nl ++ "b")))).
  apply perm_swap.
Defined.

Lemma unchanged_timestamp_skips_download_witness :
  let f := mk_files (Some (Text "1735689600")) (Some (Text "a")) None in
  stored_epoch (P:=glibc_utc) f = Return (Some 1735689600)
  ∧ probed_epoch (P:=glibc_utc) example_world = Return (Some 1735689600)
  ∧ Call_download_blocklist
    ∉ calls (snd (main (P:=glibc_utc) example_world (start f))).
Proof.
  intros f.
  split; [reflexivity|]. split; [reflexivity|].
  destruct (unchanged_timestamp_skips_download (P:=glibc_utc)
              example_world f 1735689600) as (http & _ & _ & H & _).
  - reflexivity.
  - reflexivity.
  - exact H.
Defined.

Lemma http_date_round_trip_witness :
  YEAR_100_EPOCH <= 1735689600 <= MAX_EPOCH
  ∧ ∃ http,
      epoch_to_http_date (P:=glibc_utc) 1735689600 = Return http
      ∧ parse_http_date (P:=glibc_utc) http = Return (Some 1735689600).
Proof.
  split; [unfold YEAR_100_EPOCH, MAX_EPOCH; lia|].
  apply (http_date_round_trip (P:=glibc_utc) 1735689600).
  unfold YEAR_100_EPOCH, MAX_EPOCH. lia.
Defined.

(** In the year 50 the round trip ends in the year 2050, whether the
    year is printed as [50] or as [0050]. *)
Lemma http_date_round_trip_fails_in_year_50 :
  epoch_to_http_date (P:=glibc_utc) (-60589296000)
  = Return "Sat, 01 Jan 50 00:00:00 GMT"
  ∧ parse_http_date (P:=glibc_utc) "Sat, 01 Jan 50 00:00:00 GMT"
    = Return (Some 2524608000)
  ∧ epoch_to_http_date (P:=padded_utc) (-60589296000)
    = Return "Sat, 01 Jan 0050 00:00:00 GMT"
  ∧ parse_http_date (P:=padded_utc) "Sat, 01 Jan 0050 00:00:00 GMT"
    = Return (Some 2524608000).
Proof. repeat split; reflexivity. Qed.

Lemma first_run_reports_nothing_witness :
  parse_records ("a" ++ nl ++ "b" ++ nl ++ "# comment" ++ nl) ≠ ∅
  ∧ MIN_EPOCH <= 1735689600 <= MAX_EPOCH
  ∧ main (P:=glibc_utc) example_world (start no_files)
    = (Return tt,
       mk_state
         (mk_files (Some (Text "1735689600"))
            (Some (Text ("a" ++ nl ++ "b" ++ nl ++ "# comment" ++ nl)))
            (Some (Text (report_header "2025-01-01 03:00:00 UTC"
                           "Wed, 01 Jan 2025 00:00:00 GMT" (Some 1735689600) 0
                         ++ no_records_line))))
         log_updated).
Proof.
  split.
  - intros H.
    assert ("a" ∈ parse_records ("a" ++ nl ++ "b" ++ nl ++ "# comment" ++ nl)) as Ha.
    { apply elem_of_parse_records. split; [|reflexivity].
      unfold trimmed_lines. apply list_elem_of_fmap. exists "a".
      split; [reflexivity|]. left. }
    rewrite H in Ha. by apply elem_of_empty in Ha.
  - split; [unfold MIN_EPOCH, MAX_EPOCH; lia|].
    exact (proj1 (first_run_reports_nothing (P:=glibc_utc) example_world no_files
                    None 1735689600 ("a" ++ nl ++ "b" ++ nl ++ "# comment" ++ nl)
                    eq_refl eq_refl eq_refl ltac:(discriminate) eq_refl eq_refl)).
Defined.

Lemma empty_cache_is_first_run_witness :
  let f := mk_files None (Some (Text EmptyString)) None in
  CACHE_FILE f = Some (Text EmptyString)
  ∧ fst (main (P:=glibc_utc) example_world (start f))
    = fst (main (P:=glibc_utc) example_world (start no_files)).
Proof.
  intros f. split; [reflexivity|].
  exact (proj1 (empty_cache_is_first_run (P:=glibc_utc) example_world f eq_refl)).
Defined.

Lemma invalid_stored_timestamp_is_no_state_witness :
  let f := mk_files (Some (Text "yesterday")) None None in
  PyInt.int (PyStr.strip (universal_newlines "yesterday")) = None
  ∧ load_last_modified (P:=glibc_utc) (start f)
    = (Return None, mk_state f [Call_load_last_modified]).
Proof.
  intros f. split; [reflexivity|].
  apply (invalid_stored_timestamp_is_no_state (P:=glibc_utc) example_world f "yesterday");
    reflexivity.
Defined.

Lemma zero_epoch_is_absent_witness :
  let w := mk_world (Return (Some "Thu, 01 Jan 1970 00:00:00 GMT"))
             (Return "a") "2025-01-01 03:00:00 UTC" in
  parse_http_date (P:=glibc_utc) "Thu, 01 Jan 1970 00:00:00 GMT" = Return (Some 0)
  ∧ probed_epoch (P:=glibc_utc) w = Return None
  ∧ stored_epoch (P:=glibc_utc) (mk_files (Some (Text "0")) None None) = Return (Some 0)
  ∧ calls (snd (main (P:=glibc_utc) example_world
                  (start (mk_files (Some (Text "0")) None None))))
    ≠ log_unchanged.
Proof.
  intros w. split; [reflexivity|]. split.
  - apply (proj1 (zero_epoch_is_absent (P:=glibc_utc)) w
             "Thu, 01 Jan 1970 00:00:00 GMT"); reflexivity.
  - split; [reflexivity|].
    apply (proj2 (zero_epoch_is_absent (P:=glibc_utc)) example_world
             (mk_files (Some (Text "0")) None None)).
    reflexivity.
Defined.

Lemma failed_probe_or_fetch_writes_nothing_witness :
  let w := mk_world (Return None) (Return "a") "2025-01-01 03:00:00 UTC" in
  head_response w = Return None
  ∧ probed_epoch (P:=glibc_utc) w = Return None
  ∧ fs (snd (main (P:=glibc_utc) w (start no_files))) = no_files.
Proof.
  intros w. split; [reflexivity|].
  destruct (proj1 (proj2 (failed_probe_or_fetch_writes_nothing (P:=glibc_utc) w no_files)))
    as (H1 & H2 & _).
  - left. reflexivity.
  - split; [exact H1|exact H2].
Defined.

(** A failed probe: [check_last_modified] raises instead of returning
    [None], and [main] raises too. *)
Lemma failed_probe_raises :
  let w := mk_world (Raise RequestException) (Return "a") "2025-01-01 03:00:00 UTC" in
  fst (check_last_modified (P:=glibc_utc) w (start no_files)) = Raise RequestException
  ∧ fst (main (P:=glibc_utc) w (start no_files)) = Raise RequestException.
Proof. split; reflexivity. Qed.

Lemma save_new_records_writes_report_witness :
  let lf := String "010"%char EmptyString in
  (truthy_epoch (Some 1735689600) = true ->
   MIN_EPOCH <= default 0 (Some 1735689600) <= MAX_EPOCH)
  ∧ save_new_records (P:=glibc_utc) example_world ({["b"]} ∪ {["a"]})
      (Some 1735689600) (start no_files)
    = (Return tt,
       mk_state
         (mk_files None None
            (Some (Text
               ("# New records added to Phishing Army Extended Blocklist" ++ lf
                ++ "# Source: https://phishing.army/download/phishing_army_blocklist_extended.txt" ++ lf
                ++ "# Last updated: 2025-01-01 03:00:00 UTC" ++ lf
                ++ "# Blocklist Last-Modified: Wed, 01 Jan 2025 00:00:00 GMT" ++ lf
                ++ "# Blocklist Last-Modified (epoch): 1735689600" ++ lf
                ++ "# Total new records: 2" ++ lf
                ++ lf
                ++ "a" ++ lf
                ++ "b" ++ lf))))
         [Call_save_new_records]).
Proof.
  intros lf.
  assert (truthy_epoch (Some 1735689600) = true ->
          MIN_EPOCH <= default 0 (Some 1735689600) <= MAX_EPOCH) as H.
  { intros _. unfold MIN_EPOCH, MAX_EPOCH. simpl. lia. }
  split; [exact H|].
  pose proof (save_new_records_writes_report (P:=glibc_utc) example_world
                ({["b"]} ∪ {["a"]}) (Some 1735689600) (start no_files))
    as [Hw Hr].
  specialize (Hr H).
  destruct (save_new_records (P:=glibc_utc) example_world ({["b"]} ∪ {["a"]})
              (Some 1735689600) (start no_files)) as [[[]|x] s'] eqn:E;
    [|discriminate Hr].
  destruct Hw as (http & lines & Hh & Hs & Hp & ->).
  change (Return (A:=string) "Wed, 01 Jan 2025 00:00:00 GMT" = Return http) in Hh.
  injection Hh as <-.
  assert (lines = ["a"; "b"]) as ->.
  { assert (lines ≡ₚ ["b"; "a"]) as Hp'.
    { rewrite Hp, elements_union_singleton, elements_singleton; [done|].
      by intros ?%elem_of_singleton. }
    symmetry in Hp'. apply Permutation_length_2_inv in Hp' as [->| ->]; [|done].
    exfalso. inversion Hs as [|? ? _ Hd]; subst.
    inversion Hd as [|? ? Hle]; subst. discriminate Hle. }
  rewrite decide_False.
  2: { intros He. assert ("a" ∈ ({["b"]} ∪ {["a"]} : gset string)) as Ha
         by (apply elem_of_union; right; by apply elem_of_singleton).
       rewrite He in Ha. by apply elem_of_empty in Ha. }
  reflexivity.
Defined.

(** An epoch of the year 10000: [save_new_records] raises before it
    opens the report, and no file is written. *)
Lemma save_new_records_raises_in_year_10000 :
  save_new_records (P:=glibc_utc) example_world ∅ (Some 253402300800)
    (start no_files)
  = (Raise ValueError, mk_state no_files [Call_save_new_records]).
Proof. reflexivity. Qed.

(** ** The decimal text of an integer *)

Section Decimal.

Lemma of_uint_acc_val d : forall acc,
  Z.pos (Pos.of_uint_acc d acc) = uint_val d (Z.pos acc).
Proof.
  induction d; intros acc; simpl; [done|..]; rewrite IHd; f_equal; lia.
Qed.

Lemma of_uint_val d : Z.of_N (Pos.of_uint d) = uint_val d 0.
Proof.
  induction d; simpl; [done|exact IHd|..]; by rewrite of_uint_acc_val.
Qed.

Lemma digits_string_of_uint d : forall acc n,
  PyInt.digits (NilEmpty.string_of_uint d) false acc n
  = Some (uint_val d acc, n + Z.of_nat (Decimal.nb_digits d)).
Proof.
  induction d; intros acc n; simpl Decimal.nb_digits;
    [simpl; do 2 f_equal; lia|..];
    cbn [NilEmpty.string_of_uint PyInt.digits]; simpl PyInt.is_dec; cbv iota;
    rewrite IHd; unfold PyInt.dec_val; simpl PyStr.code; do 2 f_equal; lia.
Qed.

Lemma uint_val_ge d : forall acc,
  0 <= acc -> acc * 10 ^ Z.of_nat (Decimal.nb_digits d) <= uint_val d acc.
Proof.
  induction d; intros acc Ha; simpl Decimal.nb_digits; simpl uint_val;
    [simpl; lia|..];
    rewrite Nat2Z.inj_succ, Z.pow_succ_r by lia;
    (etransitivity; [|apply IHd; lia]);
    pose proof (Z.pow_pos_nonneg 10 (Z.of_nat (Decimal.nb_digits d)) ltac:(lia) ltac:(lia));
    nia.
Qed.

Lemma string_of_uint_digits d :
  all_chars PyInt.is_dec (NilEmpty.string_of_uint d) = true.
Proof. induction d; simpl; [done|..]; exact IHd. Qed.

Lemma to_uint_unorm p : Decimal.unorm (Pos.to_uint p) = Pos.to_uint p.
Proof.
  rewrite <- (DecimalPos.Unsigned.to_of (Pos.to_uint p)), DecimalPos.Unsigned.of_to. reflexivity.
Qed.

Lemma to_uint_head p :
  ∃ c r, NilZero.string_of_uint (Pos.to_uint p) = String c r
         ∧ NilEmpty.string_of_uint (Pos.to_uint p) = String c r
         ∧ PyInt.is_dec c = true
         ∧ 10 ^ (Z.of_nat (Decimal.nb_digits (Pos.to_uint p)) - 1) <= Z.pos p.
Proof.
  pose proof (to_uint_unorm p) as Hn.
  pose proof (DecimalPos.Unsigned.to_uint_nonzero p) as Hz.
  pose proof (of_uint_val (Pos.to_uint p)) as Hv.
  rewrite DecimalPos.Unsigned.of_to in Hv. simpl Z.of_N in Hv.
  destruct (Pos.to_uint p) as [|l|l|l|l|l|l|l|l|l|l] eqn:E.
  1: by destruct (DecimalPos.Unsigned.to_uint_nonnil p).
  1: { exfalso. rewrite DecimalFacts.unorm_D0 in Hn.
       destruct l as [|l|l|l|l|l|l|l|l|l|l]; [done|..].
       all: match type of Hn with
            | Decimal.unorm ?u = _ =>
                pose proof (DecimalFacts.nb_digits_unorm u ltac:(done)) as Hl;
                rewrite Hn in Hl; simpl in Hl; lia
            end. }
  all: eexists _, _; split; [reflexivity|]; split; [reflexivity|];
    split; [reflexivity|];
    rewrite Hv; simpl Decimal.nb_digits; simpl uint_val;
    rewrite Nat2Z.inj_succ;
    replace (Z.succ (Z.of_nat (Decimal.nb_digits l)) - 1)
      with (Z.of_nat (Decimal.nb_digits l)) by lia;
    (etransitivity; [|apply uint_val_ge; lia]);
    pose proof (Z.pow_pos_nonneg 10 (Z.of_nat (Decimal.nb_digits l)) ltac:(lia) ltac:(lia));
    lia.
Qed.

End Decimal.

Section IntStr.

Lemma lskip_id s : all_chars no_space_int s = true -> PyInt.lskip s = s.
Proof.
  destruct s as [|c r]; simpl; [done|]. intros [Hc _]%andb_true_iff.
  unfold no_space_int in Hc. apply negb_true_iff in Hc. by rewrite Hc.
Qed.

Lemma rskip_id s : all_chars no_space_int s = true -> PyInt.rskip s = s.
Proof.
  induction s as [|c r IH]; simpl; [done|]. intros [Hc Hr]%andb_true_iff.
  rewrite (IH Hr). unfold no_space_int in Hc. apply negb_true_iff in Hc.
  rewrite Hc. by destruct r.
Qed.

Lemma is_dec_plain c :
  PyInt.is_dec c = true ->
  no_space_int c = true ∧ no_cr c = true ∧ no_break c = true
  ∧ c ≠ "+"%char ∧ c ≠ "-"%char ∧ c ≠ "_"%char.
Proof. by destruct c as [[] [] [] [] [] [] [] []]. Qed.

Lemma int_of_digits c r v n :
  PyInt.is_dec c = true -> all_chars PyInt.is_dec r = true ->
  PyInt.digits (String c r) false 0 0 = Some (v, n) ->
  0 < n <= PyInt.max_str_digits ->
  PyInt.int (String c r) = Some v
  ∧ PyInt.int (String "-" (String c r)) = Some (- v).
Proof.
  intros Hc Hr Hd Hn.
  assert (all_chars no_space_int (String c r) = true) as Hs.
  { apply (all_chars_impl PyInt.is_dec); [intros a Ha; by apply is_dec_plain in Ha as (?&?)|].
    simpl. by rewrite Hc, Hr. }
  assert (all_chars no_space_int (String "-" (String c r)) = true) as Hs'.
  { change (no_space_int "-" && all_chars no_space_int (String c r) = true).
    by rewrite Hs. }
  assert ((n =? 0) || (PyInt.max_str_digits <? n) = false) as Hlim.
  { apply orb_false_iff. split; [apply Z.eqb_neq|apply Z.ltb_ge]; lia. }
  apply is_dec_plain in Hc as (_ & _ & _ & Hp & Hm & Hu).
  unfold PyInt.int.
  rewrite (lskip_id _ Hs), (rskip_id _ Hs), (lskip_id _ Hs'), (rskip_id _ Hs').
  split.
  - destruct c as [[] [] [] [] [] [] [] []]; try done; rewrite Hd, Hlim; f_equal; lia.
  - destruct c as [[] [] [] [] [] [] [] []]; try done; rewrite Hd, Hlim; f_equal; lia.
Qed.

Lemma str_pos p :
  PyInt.str (Z.pos p) = NilEmpty.string_of_uint (Pos.to_uint p)
  ∧ PyInt.str (Z.neg p) = String "-" (NilEmpty.string_of_uint (Pos.to_uint p)).
Proof.
  unfold PyInt.str. simpl.
  destruct (to_uint_head p) as (c & r & H1 & H2 & _). by rewrite H1, H2.
Qed.

(** [int(str(n))] is [n], as long as [str(n)] has no more digits than
    [int] accepts. *)
Lemma int_str n :
  Z.abs n < 10 ^ PyInt.max_str_digits -> PyInt.int (PyInt.str n) = Some n.
Proof.
  intros Hn.
  assert (∀ p, Z.pos p < 10 ^ PyInt.max_str_digits ->
               PyInt.int (NilEmpty.string_of_uint (Pos.to_uint p)) = Some (Z.pos p)
               ∧ PyInt.int (String "-" (NilEmpty.string_of_uint (Pos.to_uint p)))
                 = Some (- Z.pos p)) as H.
  { intros p Hp. destruct (to_uint_head p) as (c & r & _ & E & Hc & Hlen).
    pose proof (digits_string_of_uint (Pos.to_uint p) 0 0) as Hd.
    pose proof (of_uint_val (Pos.to_uint p)) as Hv.
    rewrite DecimalPos.Unsigned.of_to in Hv. simpl Z.of_N in Hv. rewrite <- Hv in Hd.
    pose proof (string_of_uint_digits (Pos.to_uint p)) as Ha.
    rewrite E in Hd, Ha |- *. simpl in Ha. apply andb_true_iff in Ha as [_ Ha].
    apply (int_of_digits c r _ _ Hc Ha Hd).
    assert (Decimal.nb_digits (Pos.to_uint p) ≠ 0%nat) as Hnz.
    { intros H0. apply DecimalFacts.nb_digits_0 in H0. by apply (DecimalPos.Unsigned.to_uint_nonnil p). }
    split; [lia|].
    assert (Z.of_nat (Decimal.nb_digits (Pos.to_uint p)) - 1 < PyInt.max_str_digits);
      [|lia].
    apply (Z.pow_lt_mono_r_iff 10); [lia|done|lia]. }
  destruct n as [|p|p].
  - reflexivity.
  - rewrite (proj1 (str_pos p)). apply H. lia.
  - rewrite (proj2 (str_pos p)). apply H. lia.
Qed.

(** The characters of [str(n)]: digits, after a minus sign when [n] is
    negative. *)
Lemma str_chars n :
  if n <? 0
  then ∃ r, PyInt.str n = String "-" r ∧ digit_word r = true
  else digit_word (PyInt.str n) = true.
Proof.
  destruct n as [|p|p]; simpl; [done|..].
  - rewrite (proj1 (str_pos p)). destruct (to_uint_head p) as (c & r & _ & E & _).
    unfold digit_word. rewrite string_of_uint_digits, E. done.
  - exists (NilEmpty.string_of_uint (Pos.to_uint p)).
    split; [apply str_pos|].
    destruct (to_uint_head p) as (c & r & _ & E & _).
    unfold digit_word. rewrite string_of_uint_digits, E. done.
Qed.

Lemma str_all (q : ascii -> bool) n :
  (forall c, PyInt.is_dec c = true -> q c = true) -> q "-"%char = true ->
  all_chars q (PyInt.str n) = true.
Proof.
  intros Hq Hm. pose proof (str_chars n) as H. destruct (n <? 0).
  - destruct H as (r & -> & Hr). simpl. rewrite Hm. by apply digit_word_all.
  - by apply digit_word_all.
Qed.

Lemma universal_newlines_id s :
  all_chars no_cr s = true -> universal_newlines s = s.
Proof.
  induction s as [|c r IH]; simpl; [done|]. intros [Hc Hr]%andb_true_iff.
  unfold no_cr in Hc. apply negb_true_iff in Hc. by rewrite Hc, IH.
Qed.

Lemma strip_id s : all_chars no_space s = true -> PyStr.strip s = s.
Proof.
  intros H. apply strip_trimmed. unfold trimmed.
  destruct (PyStr.first_char s) as [a|] eqn:Ea; [|done].
  destruct (PyStr.last_char s) as [b|] eqn:Eb; [|done].
  pose proof (last_char_all _ _ _ H Eb) as Hb.
  destruct s as [|c r]; [done|]. simpl in Ea. injection Ea as ->.
  simpl in H. apply andb_true_iff in H as [Ha _].
  unfold no_space in *. by rewrite Ha, Hb.
Qed.

(** The text of an integer goes through the reading of the timestamp
    file unchanged. *)
Lemma read_str n :
  PyStr.strip (universal_newlines (PyInt.str n)) = PyInt.str n.
Proof.
  rewrite universal_newlines_id.
  - apply strip_id, str_all; [|done].
    intros c Hc. by apply is_dec_char in Hc as (?&?).
  - apply str_all; [|done]. intros c Hc. by apply is_dec_plain in Hc as (?&?&?).
Qed.

End IntStr.

(** ** The domain of [epoch_to_http_date] *)

Section Domain.

Context {P : platform}.

Import PyDate.

Lemma cycle_tail_days_ok : all_from cycle_tail_ok 145731 366 = true.
Proof. vm_compute. reflexivity. Qed.

(** The year of a day outside 0001-01-01 .. 9999-12-31. *)
Lemma ord2ymd_outside n :
  n < 1 ∨ 3652059 < n ->
  ∃ y m d, ord2ymd n = (y, m, d) ∧ (y < 1 ∨ 9999 < y).
Proof.
  intros Hn.
  pose proof (Z.div_mod (n - 1) 146097 ltac:(lia)) as Hdm.
  pose proof (Z.mod_pos_bound (n - 1) 146097 ltac:(lia)) as Hr.
  destruct (cycle_day ((n - 1) mod 146097) Hr)
    as (y & m & d & Ho & Hy & Hm & Hd & Hord & Hhi & Hlo).
  exists (y + 400 * ((n - 1) / 146097)), m, d.
  rewrite ord2ymd_cycle, Ho. split; [done|].
  destruct Hn as [Hn|Hn]; [left; lia|right].
  destruct (decide (145731 <= (n - 1) mod 146097)) as [Ht|Ht]; [|lia].
  pose proof (all_from_spec _ _ 145731 ((n - 1) mod 146097) cycle_tail_days_ok) as H.
  specialize (H ltac:(lia)). unfold cycle_tail_ok in H. rewrite Ho in H.
  apply Z.eqb_eq in H. lia.
Qed.

(** What [epoch_to_http_date] does with every integer. *)
Lemma epoch_to_http_date_cases e :
  match epoch_to_http_date e with
  | Return _ => MIN_EPOCH <= e <= MAX_EPOCH
  | Raise ValueError => GMTIME_MIN <= e < MIN_EPOCH ∨ MAX_EPOCH < e <= GMTIME_MAX
  | Raise OSError => TIME_T_MIN <= e < GMTIME_MIN ∨ GMTIME_MAX < e <= TIME_T_MAX
  | Raise OverflowError => e < TIME_T_MIN ∨ TIME_T_MAX < e
  | Raise RequestException | Raise UnicodeDecodeError => False
  end.
Proof.
  unfold MIN_EPOCH, MAX_EPOCH, GMTIME_MIN, GMTIME_MAX, TIME_T_MIN, TIME_T_MAX.
  destruct (decide (MIN_EPOCH <= e <= MAX_EPOCH)) as [He|He].
  { destruct (epoch_to_http_date_in_range e He) as [http ->].
    unfold MIN_EPOCH, MAX_EPOCH in He. lia. }
  unfold MIN_EPOCH, MAX_EPOCH in He.
  unfold epoch_to_http_date, fromtimestamp_utc.
  destruct ((-9223372036854775808 <=? e) && (e <=? 9223372036854775807)) eqn:E1;
    cbn [negb].
  2: { apply andb_false_iff in E1 as [E1|E1]; [apply Z.leb_gt in E1|apply Z.leb_gt in E1]; lia. }
  apply andb_true_iff in E1 as [E1a%Z.leb_le E1b%Z.leb_le].
  destruct ((-67768040609740800 <=? e) && (e <=? 67768036191676799)) eqn:E2;
    cbn [negb].
  2: { apply andb_false_iff in E2 as [E2|E2]; [apply Z.leb_gt in E2|apply Z.leb_gt in E2]; lia. }
  apply andb_true_iff in E2 as [E2a%Z.leb_le E2b%Z.leb_le].
  destruct (ord2ymd_outside (e / 86400 + 719163)) as (y & m & d & -> & Hy).
  { Z.div_mod_to_equations; lia. }
  assert ((MINYEAR <=? y) && (y <=? MAXYEAR) = false) as ->.
  { unfold MINYEAR, MAXYEAR. apply andb_false_iff.
    destruct Hy; [left|right]; apply Z.leb_gt; lia. }
  cbn [negb]. lia.
Qed.

(** X1. The domain of [epoch_to_http_date].  It returns a text for
    the epochs of the years 1 to 9999 and for no other; outside, it
    raises [ValueError] as long as [gmtime] can hold the year,
    [OSError] as long as the epoch fits [time_t], and [OverflowError]
    otherwise. *)
Theorem epoch_to_http_date_domain (e : Z) :
  ((∃ http, epoch_to_http_date e = Return http) <-> MIN_EPOCH <= e <= MAX_EPOCH)
  ∧ (epoch_to_http_date e = Raise ValueError
     <-> GMTIME_MIN <= e < MIN_EPOCH ∨ MAX_EPOCH < e <= GMTIME_MAX)
  ∧ (epoch_to_http_date e = Raise OSError
     <-> TIME_T_MIN <= e < GMTIME_MIN ∨ GMTIME_MAX < e <= TIME_T_MAX)
  ∧ (epoch_to_http_date e = Raise OverflowError
     <-> e < TIME_T_MIN ∨ TIME_T_MAX < e)
  ∧ epoch_to_http_date e ≠ Raise RequestException
  ∧ epoch_to_http_date e ≠ Raise UnicodeDecodeError.
Proof.
  pose proof (epoch_to_http_date_cases e) as H.
  unfold MIN_EPOCH, MAX_EPOCH, GMTIME_MIN, GMTIME_MAX, TIME_T_MIN, TIME_T_MAX in *.
  destruct (epoch_to_http_date e) as [http|[]]; [|done|..];
    (split; [split; [try by intros [? [=]]|try lia]; eauto|]);
    repeat (split; [split; [done|lia]|]); try done;
    repeat (split; [split; [try done; lia|try done; lia]|]); done.
Qed.

End Domain.

(** ** The stored timestamp *)

Section Stored.

Context {P : platform}.

Lemma epoch_range_digits e :
  MIN_EPOCH <= e <= MAX_EPOCH -> Z.abs e < 10 ^ PyInt.max_str_digits.
Proof.
  unfold MIN_EPOCH, MAX_EPOCH, PyInt.max_str_digits. intros He.
  apply (Z.lt_le_trans _ (10 ^ 12)); [lia|].
  apply Z.pow_le_mono_r; lia.
Qed.

(** What [load_last_modified] returns when the file holds the text of
    a printable epoch. *)
Lemma stored_epoch_str f e :
  LAST_MODIFIED_FILE f = Some (Text (PyInt.str e)) ->
  MIN_EPOCH <= e <= MAX_EPOCH ->
  stored_epoch f = Return (Some e).
Proof.
  intros Hf He. apply stored_epoch_Some.
  destruct (epoch_to_http_date_in_range e He) as [http Hh].
  exists (PyInt.str e), http. split; [done|]. split; [|done].
  rewrite read_str. by apply int_str, epoch_range_digits.
Qed.

Lemma stored_epoch_int f text e :
  LAST_MODIFIED_FILE f = Some (Text text) ->
  PyInt.int (PyStr.strip (universal_newlines text)) = Some e ->
  stored_epoch f =
  match epoch_to_http_date e with
  | Return _ => Return (Some e)
  | Raise ValueError | Raise UnicodeDecodeError => Return None
  | Raise x => Raise x
  end.
Proof.
  intros Hf Hi. unfold stored_epoch, load_last_modified.
  unfold bind, enter, get_files, ret, raise, lift, start. simpl.
  rewrite Hf. simpl. rewrite Hi. by destruct (epoch_to_http_date e) as [|[]].
Qed.

(** X2. What [save_last_modified] writes, [load_last_modified] reads
    back: for every epoch of the years 1 to 9999 the call returns, and
    a later [load_last_modified] returns that epoch; the cache and the
    report are left as they were. *)
Theorem saved_timestamp_is_loaded (e : Z) (s : state) :
  MIN_EPOCH <= e <= MAX_EPOCH ->
  fst (save_last_modified e s) = Return tt
  ∧ stored_epoch (fs (snd (save_last_modified e s))) = Return (Some e)
  ∧ CACHE_FILE (fs (snd (save_last_modified e s))) = CACHE_FILE (fs s)
  ∧ OUTPUT_FILE (fs (snd (save_last_modified e s))) = OUTPUT_FILE (fs s).
Proof.
  intros He. rewrite save_last_modified_run.
  destruct (epoch_to_http_date_in_range e He) as [http ->]. simpl.
  split; [done|]. split; [|done]. by apply stored_epoch_str.
Qed.

(** X3. A timestamp file that holds an integer.  [load_last_modified]
    returns it when it is an epoch of the years 1 to 9999; returns
    [None] when the year is out of range but [gmtime] can still hold it
    (the [ValueError] is caught); and raises [OSError] or
    [OverflowError] beyond that, which no handler of
    [load_last_modified] catches: [main] then ends with the exception
    before it has probed the server. *)
Theorem stored_integer_outcome (w : world) (f : files) (text : string) (e : Z) :
  LAST_MODIFIED_FILE f = Some (Text text) ->
  PyInt.int (PyStr.strip (universal_newlines text)) = Some e ->
  stored_epoch f =
    (if (MIN_EPOCH <=? e) && (e <=? MAX_EPOCH) then Return (Some e)
     else if (GMTIME_MIN <=? e) && (e <=? GMTIME_MAX) then Return None
     else if (TIME_T_MIN <=? e) && (e <=? TIME_T_MAX) then Raise OSError
     else Raise OverflowError)
  ∧ (e < GMTIME_MIN ∨ GMTIME_MAX < e ->
     ∃ x, main w (start f) = (Raise x, mk_state f [Call_load_last_modified])).
Proof.
  intros Hf Hi. rewrite main_run, (stored_epoch_int f text e Hf Hi).
  pose proof (epoch_to_http_date_cases e) as Hc.
  unfold MIN_EPOCH, MAX_EPOCH, GMTIME_MIN, GMTIME_MAX, TIME_T_MIN, TIME_T_MAX in *.
  split.
  - destruct (epoch_to_http_date e) as [http|[]]; try done.
    + rewrite (proj2 (Z.leb_le _ _)), (proj2 (Z.leb_le _ _)) by lia. done.
    + assert ((-62135596800 <=? e) && (e <=? 253402300799) = false) as ->.
      { apply andb_false_iff. destruct Hc; [left|right]; apply Z.leb_gt; lia. }
      rewrite (proj2 (Z.leb_le _ _)), (proj2 (Z.leb_le _ _)) by lia. done.
    + assert ((-62135596800 <=? e) && (e <=? 253402300799) = false) as ->.
      { apply andb_false_iff. destruct Hc; [left|right]; apply Z.leb_gt; lia. }
      assert ((-67768040609740800 <=? e) && (e <=? 67768036191676799) = false) as ->.
      { apply andb_false_iff. destruct Hc; [left|right]; apply Z.leb_gt; lia. }
      assert ((-9223372036854775808 <=? e) && (e <=? 9223372036854775807) = false) as ->.
      { apply andb_false_iff. destruct Hc; [left|right]; apply Z.leb_gt; lia. }
      done.
    + assert ((-62135596800 <=? e) && (e <=? 253402300799) = false) as ->.
      { apply andb_false_iff. destruct Hc; [left|right]; apply Z.leb_gt; lia. }
      assert ((-67768040609740800 <=? e) && (e <=? 67768036191676799) = false) as ->.
      { apply andb_false_iff. destruct Hc; [left|right]; apply Z.leb_gt; lia. }
      rewrite (proj2 (Z.leb_le _ _)), (proj2 (Z.leb_le _ _)) by lia. done.
  - intros He. destruct (epoch_to_http_date e) as [http|[]]; try done; try lia; eauto.
Qed.

End Stored.

Section Blank.

Import PyStr.

Lemma is_cr_space c : is_cr c = true -> isspace c = true.
Proof. unfold is_cr, isspace. intros ->%Z.eqb_eq. reflexivity. Qed.

Lemma universal_newlines_blank s :
  all_chars isspace s = true -> all_chars isspace (universal_newlines s) = true.
Proof.
  assert (∀ n s, (String.length s <= n)%nat -> all_chars isspace s = true ->
                 all_chars isspace (universal_newlines s) = true) as H.
  { clear s. induction n as [|n IH]; intros s Hn.
    { destruct s; simpl in *; [done|lia]. }
    destruct s as [|c r]; [done|]. simpl in Hn. simpl.
    intros [Hc Hr]%andb_true_iff.
    destruct (is_cr c).
    - destruct r as [|c' r']; [done|].
      destruct (is_lf c').
      + simpl. apply (IH r'); [simpl in Hn; lia|].
        simpl in Hr. by apply andb_true_iff in Hr as [_ ?].
      + change (all_chars isspace (universal_newlines (String c' r')) = true).
        apply IH; [simpl in *; lia|done].
    - simpl. rewrite Hc. apply IH; [lia|done]. }
  by apply (H (String.length s)).
Qed.

(** Reading in text mode goes through the text piece by piece, as
    long as no piece begins with the LF of a CR LF. *)
Lemma universal_newlines_app a b :
  (∀ c, first_char b = Some c -> is_lf c = false) ->
  universal_newlines (a ++ b) = universal_newlines a ++ universal_newlines b.
Proof.
  intros Hb.
  assert (∀ n a, (String.length a <= n)%nat ->
                 universal_newlines (a ++ b)
                 = universal_newlines a ++ universal_newlines b) as H.
  { clear a. induction n as [|n IH]; intros a Hn.
    { destruct a; simpl in *; [done|lia]. }
    destruct a as [|c r]; [done|]. simpl in Hn.
    rewrite append_cons. simpl universal_newlines.
    destruct (is_cr c).
    - destruct r as [|c' r'].
      + rewrite append_nil. destruct b as [|c' b']; [done|].
        by rewrite (Hb c' eq_refl).
      + rewrite append_cons. destruct (is_lf c').
        * rewrite (IH r') by (simpl in Hn; lia). done.
        * rewrite <- append_cons. rewrite (IH (String c' r')) by (simpl in *; lia).
          done.
    - rewrite (IH r) by lia. done. }
  by apply (H (String.length a)).
Qed.

Lemma lstrip_blank a b : all_chars isspace a = true -> lstrip (a ++ b) = lstrip b.
Proof.
  induction a as [|c a IH]; [done|]. simpl. intros [-> Ha]%andb_true_iff. by apply IH.
Qed.

Lemma rstrip_app_blank a b :
  all_chars isspace b = true -> rstrip (a ++ b) = rstrip a.
Proof.
  intros Hb. induction a as [|c a IH].
  - rewrite append_nil. induction b as [|c b IHb]; [done|].
    simpl in *. apply andb_true_iff in Hb as [Hc Hb]. by rewrite (IHb Hb), Hc.
  - rewrite append_cons. simpl. by rewrite IH.
Qed.

Lemma lstrip_all_blank s : all_chars isspace s = true -> lstrip s = EmptyString.
Proof.
  induction s as [|c s IH]; [done|]. simpl. intros [-> Hs]%andb_true_iff. by apply IH.
Qed.

Lemma last_char_cons c r : last_char (String c r) ≠ None.
Proof.
  revert c. induction r as [|c' r IH]; intros c; [done|]. exact (IH c').
Qed.

(** White space around a trimmed text is taken off by [strip]. *)
Lemma strip_around pre s post :
  all_chars isspace pre = true -> all_chars isspace post = true ->
  trimmed s = true -> strip (pre ++ s ++ post) = s.
Proof.
  intros Hpre Hpost Hs. unfold strip. rewrite lstrip_blank by done.
  destruct s as [|c r].
  - rewrite append_nil. by rewrite lstrip_all_blank.
  - pose proof (strip_trimmed _ Hs) as Hst. unfold strip in Hst.
    assert (isspace c = false) as Hc.
    { unfold trimmed in Hs. simpl first_char in Hs.
      destruct (last_char (String c r)) eqn:El; [|by apply last_char_cons in El].
      apply andb_true_iff in Hs as [Hs _]. by apply negb_true_iff in Hs. }
    rewrite append_cons. simpl lstrip. rewrite Hc.
    rewrite <- append_cons, rstrip_app_blank by done.
    simpl lstrip in Hst. by rewrite Hc in Hst.
Qed.

End Blank.

Section Tolerance.

Context {P : platform}.

Import PyStr.

Lemma universal_newlines_app_no_cr a b :
  all_chars no_cr a = true ->
  universal_newlines (a ++ b) = a ++ universal_newlines b.
Proof.
  induction a as [|c a IH]; [done|]. simpl. intros [Hc Ha]%andb_true_iff.
  unfold no_cr in Hc. apply negb_true_iff in Hc.
  rewrite append_cons. simpl. by rewrite Hc, IH.
Qed.

Lemma no_space_trimmed s : all_chars no_space s = true -> trimmed s = true.
Proof.
  intros H. unfold trimmed.
  destruct (first_char s) as [a|] eqn:Ea; [|done].
  destruct (last_char s) as [b|] eqn:Eb; [|done].
  pose proof (last_char_all _ _ _ H Eb) as Hb.
  destruct s as [|c r]; [done|]. simpl in Ea. injection Ea as ->.
  simpl in H. apply andb_true_iff in H as [Ha _].
  unfold no_space in *. by rewrite Ha, Hb.
Qed.

Lemma str_first n :
  ∃ c r, PyInt.str n = String c r ∧ is_lf c = false.
Proof.
  pose proof (str_chars n) as H. destruct (n <? 0).
  - destruct H as (r & -> & _). by exists "-"%char, r.
  - destruct (PyInt.str n) as [|c r]; [done|]. exists c, r. split; [done|].
    apply andb_true_iff in H as [_ H]. simpl in H. apply andb_true_iff in H as [Hc _].
    by destruct c as [[] [] [] [] [] [] [] []].
Qed.

(** The reading of a timestamp file that holds the text of an integer
    between white space. *)
Lemma read_around pre post n :
  all_chars isspace pre = true -> all_chars isspace post = true ->
  strip (universal_newlines (pre ++ PyInt.str n ++ post)) = PyInt.str n.
Proof.
  intros Hpre Hpost.
  rewrite universal_newlines_app.
  2: { destruct (str_first n) as (c & r & -> & Hc). rewrite append_cons.
       simpl. by intros ? [= <-]. }
  rewrite universal_newlines_app_no_cr.
  2: { apply str_all; [|done]. intros c Hc. by apply is_dec_plain in Hc as (?&?&?). }
  apply strip_around; [by apply universal_newlines_blank..|].
  apply no_space_trimmed, str_all; [|done].
  intros c Hc. by apply is_dec_char in Hc as (?&?).
Qed.

(** X4. White space around the number in the timestamp file, such as
    a final newline in any of its forms, is ignored: the file is read
    as the epoch it holds. *)
Theorem stored_timestamp_tolerates_white_space (f : files) (pre post : string) (e : Z) :
  all_chars isspace pre = true ->
  all_chars isspace post = true ->
  MIN_EPOCH <= e <= MAX_EPOCH ->
  LAST_MODIFIED_FILE f = Some (Text (pre ++ PyInt.str e ++ post)) ->
  stored_epoch f = Return (Some e).
Proof.
  intros Hpre Hpost He Hf. apply stored_epoch_Some.
  destruct (epoch_to_http_date_in_range e He) as [http Hh].
  exists (pre ++ PyInt.str e ++ post), http. split; [done|]. split; [|done].
  rewrite read_around by done. by apply int_str, epoch_range_digits.
Qed.

End Tolerance.

(** ** Line endings and joined texts *)

Section Newlines.

Import PyStr.

(** Reading in text mode changes no line. *)
Lemma splitlines_universal_newlines_aux n : forall s,
  (String.length s <= n)%nat ->
  splitlines (universal_newlines s) = splitlines s.
Proof.
  induction n as [|n IH]; intros s Hn.
  { destruct s; simpl in *; [done|lia]. }
  destruct s as [|c r]; [done|]. simpl in Hn.
  simpl universal_newlines. simpl splitlines.
  destruct (is_cr c) eqn:Ecr.
  - destruct r as [|c' r'].
    + reflexivity.
    + destruct (is_lf c') eqn:Elf.
      * change (splitlines (String LF (universal_newlines r')))
          with (EmptyString :: splitlines (universal_newlines r')).
        rewrite (IH r') by (simpl in Hn; lia). done.
      * change (splitlines (String LF (universal_newlines (String c' r'))))
          with (EmptyString :: splitlines (universal_newlines (String c' r'))).
        rewrite (IH (String c' r')) by (simpl in *; lia). done.
  - simpl splitlines. rewrite Ecr.
    rewrite (IH r) by lia. done.
Qed.

Lemma splitlines_universal_newlines s :
  splitlines (universal_newlines s) = splitlines s.
Proof. by apply (splitlines_universal_newlines_aux (String.length s)). Qed.

Lemma truthy_universal_newlines s :
  truthy (universal_newlines s) = truthy s.
Proof.
  destruct s as [|c r]; [done|]. simpl.
  destruct (is_cr c); [|done]. destruct r as [|c' r']; [done|].
  by destruct (is_lf c').
Qed.

Lemma parse_records_universal_newlines s :
  parse_records (universal_newlines s) = parse_records s.
Proof. apply parse_records_perm. by rewrite splitlines_universal_newlines. Qed.

Lemma splitlines_nil s : splitlines s = [] -> s = EmptyString.
Proof.
  destruct s as [|c r]; [done|]. simpl.
  destruct (is_cr c).
  - destruct r as [|c' r']; [done|]. by destruct (is_lf c').
  - destruct (islinebreak c); [done|]. by destruct (splitlines r).
Qed.

(** The lines of two texts joined by a newline: the lines of the first
    and the lines of the second, with at most an empty line between. *)
Lemma splitlines_join_aux n : forall a b,
  (String.length a <= n)%nat ->
  ∃ pre, splitlines (a ++ nl ++ b) = (splitlines a ++ pre ++ splitlines b)%list
         ∧ (pre = [] ∨ pre = [EmptyString]).
Proof.
  induction n as [|n IH]; intros a b Hn.
  { destruct a; simpl in Hn; [|lia]. exists [EmptyString]. split; [done|by right]. }
  destruct a as [|c r].
  { exists [EmptyString]. split; [done|by right]. }
  simpl in Hn. rewrite append_cons. simpl splitlines.
  destruct (is_cr c) eqn:Ecr.
  - destruct r as [|c' r'].
    + exists []. split; [done|by left].
    + rewrite append_cons. destruct (is_lf c') eqn:Elf.
      * destruct (IH r' b) as (pre & -> & Hpre); [simpl in Hn; lia|].
        exists pre. done.
      * rewrite <- append_cons.
        destruct (IH (String c' r') b) as (pre & -> & Hpre); [simpl in *; lia|].
        exists pre. done.
  - destruct (islinebreak c) eqn:Elb.
    + destruct (IH r b) as (pre & -> & Hpre); [lia|]. exists pre. done.
    + destruct r as [|c' r'].
      * exists []. split; [done|by left].
      * destruct (IH (String c' r') b) as (pre & -> & Hpre); [simpl in *; lia|].
        exists pre. split; [|done].
        destruct (splitlines (String c' r')) eqn:E; [|done].
        by apply splitlines_nil in E.
Qed.

Lemma splitlines_join a b :
  ∃ pre, splitlines (a ++ nl ++ b) = (splitlines a ++ pre ++ splitlines b)%list
         ∧ (pre = [] ∨ pre = [EmptyString]).
Proof. by apply (splitlines_join_aux (String.length a)). Qed.

Lemma parse_records_join a b :
  parse_records (a ++ nl ++ b) = parse_records a ∪ parse_records b.
Proof.
  apply set_eq. intros r.
  rewrite elem_of_union, !elem_of_parse_records. unfold trimmed_lines.
  destruct (splitlines_join a b) as (pre & -> & Hpre).
  rewrite !fmap_app, !elem_of_app. split.
  - intros [[H|[H|H]] Hr]; [by left| |by right].
    destruct Hpre as [-> | ->]; [by apply elem_of_nil in H|].
    apply list_elem_of_singleton in H. subst r. done.
  - intros [[H Hr]|[H Hr]]; (split; [|done]); auto.
Qed.

End Newlines.

(** X5. The cache is read back in text mode, which turns CR LF and CR
    into LF; this changes neither the lines nor the records of the
    text, nor whether it is empty.  So the records that a next run
    compares with are those of the text that [save_cached_content] was
    given. *)
Theorem cached_content_keeps_records {P : platform} (content : string) (s : state) :
  ∃ previous,
    fst (load_cached_content (snd (save_cached_content content s))) = Return (Some previous)
    ∧ PyStr.splitlines previous = PyStr.splitlines content
    ∧ parse_records previous = parse_records content
    ∧ PyStr.truthy previous = PyStr.truthy content
    ∧ ∀ current,
        new_records_of current (Some previous)
        = if PyStr.truthy content
          then parse_records current ∖ parse_records content else ∅.
Proof.
  exists (universal_newlines content).
  rewrite save_cached_content_run, load_cached_content_run. cbn [fst snd fs].
  split; [by rewrite cached_content_eq|].
  split; [apply splitlines_universal_newlines|].
  split; [apply parse_records_universal_newlines|].
  split; [apply truthy_universal_newlines|].
  intros current. unfold new_records_of.
  by rewrite truthy_universal_newlines, parse_records_universal_newlines.
Qed.

(** X6. The records of two texts joined by a newline are the records
    of the one and of the other, whatever line ending the first has:
    when lines are appended to a list, its old records stay and the
    new records are those of the appended lines that the old list did
    not have. *)
Theorem parse_records_of_joined_texts (old added : string) :
  parse_records (old ++ nl ++ added) = parse_records old ∪ parse_records added
  ∧ parse_records (old ++ nl ++ added) ∖ parse_records old
    = parse_records added ∖ parse_records old
  ∧ parse_records old ⊆ parse_records (old ++ nl ++ added).
Proof.
  rewrite parse_records_join. split; [done|]. split.
  - apply set_eq. intros r. rewrite !elem_of_difference, elem_of_union. tauto.
  - apply union_subseteq_l.
Qed.

(** ** Reading the report as a list *)

Section Report.

Context {P : platform}.

Import PyStr.

Lemma zeros_all (q : ascii -> bool) k s :
  q "0"%char = true -> all_chars q s = true -> all_chars q (PyInt.zeros k s) = true.
Proof. intros H0 Hs. induction k as [|k IH]; simpl; [done|]. by rewrite H0, IH. Qed.

Lemma is_dec_no_break c : PyInt.is_dec c = true -> no_break c = true.
Proof. intros Hc. by apply is_dec_plain in Hc as (?&?&?&?). Qed.

Lemma str_no_break n : all_chars no_break (PyInt.str n) = true.
Proof. apply str_all; [apply is_dec_no_break|done]. Qed.

Lemma pad_no_break k n : all_chars no_break (PyInt.pad k n) = true.
Proof. apply zeros_all; [done|apply str_no_break]. Qed.

(** The text that [strftime] gives holds no line boundary. *)
Lemma strftime_http_no_break pad dt :
  all_chars no_break (PyDate.strftime_http pad dt) = true.
Proof.
  unfold PyDate.strftime_http, PyDate.strftime_Y.
  rewrite !all_chars_app, !pad_no_break.
  assert (∀ k, all_chars no_break (nth k PyDate._daynames_abbr EmptyString) = true) as ->.
  { intros k. do 8 (destruct k as [|k]; [reflexivity|]). reflexivity. }
  assert (∀ k, all_chars no_break (nth k PyDate._monthnames_abbr EmptyString) = true) as ->.
  { intros k. do 14 (destruct k as [|k]; [reflexivity|]). reflexivity. }
  destruct pad; by rewrite ?pad_no_break, ?str_no_break.
Qed.

Lemma epoch_to_http_date_no_break e http :
  epoch_to_http_date e = Return http -> all_chars no_break http = true.
Proof.
  unfold epoch_to_http_date. destruct (PyDate.fromtimestamp_utc e); [|done].
  intros [= <-]. apply strftime_http_no_break.
Qed.

(** A line that begins with [#] is no record, trimmed or not. *)
Lemma comment_line l :
  first_char l = Some "#"%char -> is_record (strip l) = false.
Proof.
  destruct l as [|c r]; [done|]. simpl. intros [= ->].
  unfold strip. simpl lstrip.
  pose proof (first_char_rstrip (String "#" r) "#" eq_refl eq_refl) as H.
  destruct (rstrip (String "#" r)) as [|c' r']; [done|].
  simpl in H. injection H as ->. unfold is_record. simpl.
  by destruct r'.
Qed.

(** Lines that are no records in front of a text do not change its
    records. *)
Lemma parse_records_skip hdr text full :
  splitlines full = (hdr ++ splitlines text)%list ->
  Forall (fun l => is_record (strip l) = false) hdr ->
  parse_records full = parse_records text.
Proof.
  intros Hl Hh. apply set_eq. intros r.
  rewrite !elem_of_parse_records. unfold trimmed_lines.
  rewrite Hl, fmap_app, elem_of_app. split; [|tauto].
  intros [[H|H] Hr]; [|done]. exfalso.
  apply list_elem_of_fmap in H as (l & -> & Hin).
  rewrite Forall_forall in Hh. rewrite (Hh l Hin) in Hr. done.
Qed.

Lemma header_lines_comments timestamp http ts count :
  Forall (fun l => is_record (strip l) = false) (header_lines timestamp http ts count).
Proof.
  unfold header_lines. repeat apply Forall_cons_2; try apply Forall_nil_2;
    try (by apply comment_line). reflexivity.
Qed.

Lemma format_epoch_no_break ts : all_chars no_break (format_epoch ts) = true.
Proof. destruct ts; [apply str_no_break|done]. Qed.

(** The lines of a report: the header, an empty line, the body. *)
Lemma splitlines_report timestamp http ts count body :
  all_chars no_break timestamp = true ->
  all_chars no_break http = true ->
  splitlines (report_header timestamp http ts count ++ body)
  = (header_lines timestamp http ts count ++ splitlines body)%list.
Proof.
  intros Ht Hh.
  assert (report_header timestamp http ts count ++ body
          = "# New records added to Phishing Army Extended Blocklist" ++ nl
            ++ ("# Source: " ++ BLOCKLIST_URL) ++ nl
            ++ ("# Last updated: " ++ timestamp) ++ nl
            ++ ("# Blocklist Last-Modified: " ++ http) ++ nl
            ++ ("# Blocklist Last-Modified (epoch): " ++ format_epoch ts) ++ nl
            ++ ("# Total new records: " ++ PyInt.str count) ++ nl
            ++ EmptyString ++ nl ++ body) as ->.
  { unfold report_header.
    repeat first [rewrite string_app_assoc | rewrite append_cons | rewrite append_nil].
    reflexivity. }
  rewrite splitlines_line by done.
  rewrite splitlines_line by done.
  rewrite splitlines_line by (rewrite all_chars_app, Ht; done).
  rewrite splitlines_line by (rewrite all_chars_app, Hh; done).
  rewrite splitlines_line by (rewrite all_chars_app, format_epoch_no_break; done).
  rewrite splitlines_line by (rewrite all_chars_app, str_no_break; done).
  rewrite splitlines_line by done.
  reflexivity.
Qed.

Lemma parse_records_body records text :
  records ⊆ parse_records text -> parse_records (report_body records) = records.
Proof.
  intros Hsub. unfold report_body. destruct (decide (records = ∅)) as [->|Hne].
  - apply (parse_records_skip ["# No new records detected in the last check"]
             EmptyString); [done|].
    apply Forall_cons_2; [done|apply Forall_nil_2].
  - rewrite parse_records_record_lines; [apply list_to_set_sorted|].
    apply Forall_forall. intros r Hr%elem_of_sorted. apply Hsub in Hr.
    split; [by apply (parse_records_no_break text)|].
    split; [by apply (parse_records_trimmed text)|].
    by apply elem_of_parse_records in Hr as [_ ?].
Qed.

Lemma parse_records_report w records ts text report :
  all_chars no_break (now_text w) = true ->
  records ⊆ parse_records text ->
  report_text w records ts = Return report ->
  parse_records report = records.
Proof.
  intros Hnow Hsub. rewrite report_text_eq.
  destruct (truthy_epoch ts).
  - destruct (epoch_to_http_date (default 0 ts)) as [http|] eqn:Hh; [|done].
    intros [= <-]. apply epoch_to_http_date_no_break in Hh.
    rewrite (parse_records_skip _ _ _ (splitlines_report _ _ _ _ _ Hnow Hh)
               (header_lines_comments _ _ _ _)).
    by apply (parse_records_body _ text).
  - intros [= <-].
    rewrite (parse_records_skip _ _ _ (splitlines_report _ "Unknown" _ _ _ Hnow eq_refl)
               (header_lines_comments _ _ _ _)).
    by apply (parse_records_body _ text).
Qed.

End Report.

(** X7. The report is itself a list that [parse_records] reads: its
    header and its placeholder line are comments, so that parsing the
    report gives back exactly the records it was written for.  The
    records are such as [parse_records] returns, and the text of the
    current time holds no line boundary. *)
Theorem report_parses_to_its_records {P : platform} (w : world)
    (records : gset string) (ts : option Z) (text : string) (s s' : state) :
  all_chars no_break (now_text w) = true ->
  records ⊆ parse_records text ->
  save_new_records w records ts s = (Return tt, s') ->
  ∃ report,
    OUTPUT_FILE (fs s') = Some (Text report)
    ∧ parse_records report = records.
Proof.
  intros Hnow Hsub. rewrite save_new_records_run.
  destruct (report_text w records ts) as [report|x] eqn:Hr; [|done].
  intros [= <-]. exists report. split; [done|].
  by apply (parse_records_report w records ts text).
Qed.

(** ** Headers that cannot be read, and headers with a zone *)

Section Header.

Context {P : platform}.

Import PyDate PyEmail.

Lemma datetime_new_raises y m d hh mi ss tz x :
  datetime_new y m d hh mi ss tz = Raise x ->
  x = ValueError
  ∨ x = OverflowError
    ∧ fits_c_int y && fits_c_int m && fits_c_int d
      && fits_c_int hh && fits_c_int mi && fits_c_int ss = false.
Proof.
  unfold datetime_new.
  destruct (fits_c_int y && fits_c_int m && fits_c_int d
            && fits_c_int hh && fits_c_int mi && fits_c_int ss); cbn [negb].
  - repeat (match goal with
            | |- context [if negb ?b then _ else _] => destruct b; cbn [negb]
            end; [|intros [= <-]; by left]).
    done.
  - intros [= <-]. by right.
Qed.

Lemma parsedate_to_datetime_raises s x :
  parsedate_to_datetime s = Raise x ->
  x = ValueError
  ∨ x = OverflowError ∧ ∃ t, _parsedate_tz s = Some t ∧ overflows t.
Proof.
  unfold parsedate_to_datetime.
  destruct (_parsedate_tz s) as [t|]; [|intros [= <-]; by left].
  destruct (t_offset t) as [tz|] eqn:Etz.
  - unfold timezone_of_seconds. cbv zeta.
    destruct ((-999999999 <=? tz / 86400) && (tz / 86400 <=? 999999999)) eqn:Ed;
      cbn [negb].
    + destruct ((-86400 <? tz) && (tz <? 86400)); cbn [negb];
        [|intros [= <-]; by left].
      intros [->|[-> Hf]]%datetime_new_raises; [by left|right].
      split; [done|]. exists t. split; [done|by left].
    + intros [= <-]. right. split; [done|]. exists t. split; [done|].
      right. exists tz. split; [done|].
      apply andb_false_iff in Ed as [Ed|Ed]; apply Z.leb_gt in Ed; lia.
  - intros [->|[-> Hf]]%datetime_new_raises; [by left|right].
    split; [done|]. exists t. split; [done|by left].
Qed.

Lemma split_blank s : all_chars PyStr.isspace s = true -> PyStr.split s = [].
Proof.
  induction s as [|c r IH]; simpl; [done|].
  intros [-> Hr]%andb_true_iff. by apply IH.
Qed.

Lemma parse_http_date_Raise s x :
  parse_http_date s = Raise x ->
  x = OverflowError ∧ ∃ t, PyEmail._parsedate_tz s = Some t ∧ overflows t.
Proof.
  unfold parse_http_date. destruct (PyStr.truthy s); cbn [negb]; [|done].
  destruct (PyEmail.parsedate_to_datetime s) as [dt|y] eqn:E; [done|].
  apply parsedate_to_datetime_raises in E as [->|[-> Ht]]; [done|].
  intros [= <-]. done.
Qed.

(** X8. What [parse_http_date] does with a header it cannot read.  A
    blank header, and any header that [_parsedate_tz] rejects, gives
    [None].  The only exception that leaves [parse_http_date] is
    [OverflowError], raised for a header with a number that does not
    fit a C [int] or a zone of too many days: the handler catches
    [TypeError] and [ValueError] only. *)
Theorem parse_http_date_rejects_or_overflows (s : string) :
  (all_chars PyStr.isspace s = true -> parse_http_date s = Return None)
  ∧ (PyEmail._parsedate_tz s = None -> parse_http_date s = Return None)
  ∧ ∀ x, parse_http_date s = Raise x ->
         x = OverflowError
         ∧ ∃ t, PyEmail._parsedate_tz s = Some t ∧ overflows t.
Proof.
  assert (PyEmail._parsedate_tz s = None -> parse_http_date s = Return None) as Hn.
  { intros H. unfold parse_http_date, PyEmail.parsedate_to_datetime. rewrite H.
    by destruct (PyStr.truthy s). }
  split; [|split; [done|apply parse_http_date_Raise]].
  intros Hb. apply Hn. unfold PyEmail._parsedate_tz.
  destruct (PyStr.truthy s); [|done]. cbn [negb]. by rewrite split_blank.
Qed.

End Header.

Section Zone.

Import PyDate PyEmail.

Lemma datetime_new_tzinfo y m d hh mi ss tz dt :
  datetime_new y m d hh mi ss tz = Return dt -> tzinfo dt = tz.
Proof.
  unfold datetime_new.
  repeat match goal with
         | |- context [if negb ?b then _ else _] => destruct b; cbn [negb]; [|done]
         end.
  by intros [= <-].
Qed.

(** X9. A header that names its zone is read the same on every
    machine: the local time zone enters [parse_http_date] only for a
    date without zone. *)
Theorem header_with_zone_ignores_local_time (P1 P2 : platform)
    (s : string) (t : date_tuple) :
  _parsedate_tz s = Some t ->
  is_Some (t_offset t) ->
  parse_http_date (P:=P1) s = parse_http_date (P:=P2) s.
Proof.
  intros Ht [tz Htz]. unfold parse_http_date.
  destruct (PyStr.truthy s); [|done]. cbn [negb].
  destruct (parsedate_to_datetime s) as [dt|x] eqn:E; [|done].
  unfold parsedate_to_datetime in E. rewrite Ht, Htz in E.
  destruct (timezone_of_seconds tz) as [off|]; [|done].
  apply datetime_new_tzinfo in E. unfold timestamp. by rewrite E.
Qed.

End Zone.

(** ** Runs that update, runs that fail, and the runs after them *)

Section Runs.

Context {P : platform}.

Ltac not_in_log :=
  let H := fresh in
  intros H;
  repeat (apply elem_of_cons in H as [H|H]; [discriminate H|]);
  by apply elem_of_nil in H.

Lemma epoch_to_http_date_Return e http :
  epoch_to_http_date e = Return http -> MIN_EPOCH <= e <= MAX_EPOCH.
Proof. intros H. pose proof (epoch_to_http_date_cases e) as Hc. by rewrite H in Hc. Qed.

(** The run that rewrote the cache and the timestamp. *)
Lemma updated_run_inv w f :
  Call_save_cached_content ∈ calls (snd (main w (start f)))
  ∨ Call_save_last_modified ∈ calls (snd (main w (start f))) ->
  ∃ stored e content previous http,
    stored_epoch f = Return stored
    ∧ probed_epoch w = Return (Some e)
    ∧ stored ≠ Some e
    ∧ get_response w = Return content
    ∧ PyStr.truthy content = true
    ∧ cached_content f = Return previous
    ∧ epoch_to_http_date e = Return http
    ∧ main w (start f)
      = (Return tt,
         mk_state
           (mk_files (Some (Text (PyInt.str e))) (Some (Text content))
              (Some (Text (report_header (now_text w) http (Some e)
                             (Z.of_nat (size (new_records_of content previous)))
                           ++ report_body (new_records_of content previous)))))
           log_updated).
Proof.
  rewrite main_run.
  destruct (stored_epoch f) as [stored|x] eqn:Hs.
  2: { intros [H|H]; exfalso; revert H; not_in_log. }
  destruct (probed_epoch w) as [[e|]|x] eqn:Hp.
  2,3: intros [H|H]; exfalso; revert H; not_in_log.
  destruct (truthy_epoch stored && bool_decide (stored = Some e)) eqn:Hb.
  { destruct (report_text w ∅ stored); intros [H|H]; exfalso; revert H; not_in_log. }
  assert (stored ≠ Some e) as Hne.
  { intros ->. pose proof (probed_epoch_nonzero w e Hp) as Hnz.
    simpl in Hb. rewrite bool_decide_eq_true_2 in Hb by done.
    apply andb_false_iff in Hb as [Hb|Hb]; [|done].
    apply negb_false_iff, Z.eqb_eq in Hb. done. }
  destruct (get_response w) as [content|x] eqn:Hg.
  2: { intros [H|H]; exfalso; revert H; not_in_log. }
  destruct (PyStr.truthy content) eqn:Ht; cbn [negb].
  2: { intros [H|H]; exfalso; revert H; not_in_log. }
  destruct (cached_content f) as [previous|x] eqn:Hc.
  2: { intros [H|H]; exfalso; revert H; not_in_log. }
  rewrite report_text_eq.
  assert (truthy_epoch (Some e) = true) as ->.
  { simpl. apply negb_true_iff, Z.eqb_neq. by eapply probed_epoch_nonzero. }
  simpl default.
  destruct (epoch_to_http_date e) as [http|x] eqn:Hh.
  2: { intros [H|H]; exfalso; revert H; not_in_log. }
  intros _. exists stored, e, content, previous, http. done.
Qed.

(** X10. The cache and the timestamp file are rewritten together or
    not at all.  When [main] calls [save_cached_content] or
    [save_last_modified] it calls both, after the report was written,
    and returns; the timestamp file then holds the probed epoch, which
    [load_last_modified] reads back, and the cache holds the body that
    was downloaded, with the same records. *)
Theorem cache_and_timestamp_move_together (w : world) (f : files) :
  Call_save_cached_content ∈ calls (snd (main w (start f)))
  ∨ Call_save_last_modified ∈ calls (snd (main w (start f))) ->
  ∃ e content report,
    probed_epoch w = Return (Some e)
    ∧ get_response w = Return content
    ∧ main w (start f)
      = (Return tt,
         mk_state
           (mk_files (Some (Text (PyInt.str e))) (Some (Text content))
              (Some (Text report)))
           log_updated)
    ∧ stored_epoch (fs (snd (main w (start f)))) = Return (Some e)
    ∧ fst (load_cached_content (snd (main w (start f))))
      = Return (Some (universal_newlines content))
    ∧ parse_records (universal_newlines content) = parse_records content.
Proof.
  intros H.
  destruct (updated_run_inv w f H)
    as (stored & e & content & previous & http
        & Hs & Hp & Hne & Hg & Ht & Hc & Hh & ->).
  eexists e, content, _. split; [done|]. split; [done|]. split; [done|].
  cbn [fs snd]. split; [|split].
  - apply stored_epoch_str; [done|]. by eapply epoch_to_http_date_Return.
  - by rewrite load_cached_content_run, cached_content_eq.
  - apply parse_records_universal_newlines.
Qed.

(** X11. A run of [main] that ends with an exception has written no
    file and has not called [commit_changes]. *)
Theorem failed_run_writes_nothing (w : world) (f : files) (x : exn) :
  fst (main w (start f)) = Raise x ->
  fs (snd (main w (start f))) = f
  ∧ (Call_commit_changes ∉ calls (snd (main w (start f))))
  ∧ (Call_save_cached_content ∉ calls (snd (main w (start f))))
  ∧ (Call_save_last_modified ∉ calls (snd (main w (start f)))).
Proof.
  rewrite main_run.
  destruct (stored_epoch f) as [stored|y]; simpl.
  2: { intros _. repeat split; not_in_log. }
  destruct (probed_epoch w) as [[e|]|y]; simpl; [|done|].
  2: { intros _. repeat split; not_in_log. }
  destruct (truthy_epoch stored && bool_decide (stored = Some e)).
  { destruct (report_text w ∅ stored); simpl; [done|].
    intros _. repeat split; not_in_log. }
  destruct (get_response w) as [content|y]; simpl.
  2: { intros _. repeat split; not_in_log. }
  destruct (PyStr.truthy content); simpl; [|done].
  destruct (cached_content f) as [previous|y]; simpl.
  2: { intros _. repeat split; not_in_log. }
  destruct (report_text w _ (Some e)); simpl; [done|].
  intros _. repeat split; not_in_log.
Qed.

(** X12. After a run that stored a new timestamp, a second run that
    gets the same answers from the server takes the unchanged branch:
    it leaves the timestamp file and the cache as the first run wrote
    them and replaces the report by one with a count of zero and the
    placeholder line. *)
Theorem second_run_changes_nothing (w : world) (f : files) :
  Call_save_last_modified ∈ calls (snd (main w (start f))) ->
  ∃ e content http,
    probed_epoch w = Return (Some e)
    ∧ get_response w = Return content
    ∧ epoch_to_http_date e = Return http
    ∧ main w (start (fs (snd (main w (start f)))))
      = (Return tt,
         mk_state
           (mk_files (Some (Text (PyInt.str e))) (Some (Text content))
              (Some (Text (report_header (now_text w) http (Some e) 0
                           ++ no_records_line))))
           log_unchanged).
Proof.
  intros H.
  destruct (updated_run_inv w f (or_intror H))
    as (stored & e & content & previous & http
        & Hs & Hp & Hne & Hg & Ht & Hc & Hh & ->).
  exists e, content, http. split; [done|]. split; [done|]. split; [done|].
  simpl fs. rewrite main_run, Hp.
  rewrite (stored_epoch_str _ e) by (by eapply epoch_to_http_date_Return || done).
  assert (truthy_epoch (Some e) = true) as Htr.
  { simpl. apply negb_true_iff, Z.eqb_neq. by eapply probed_epoch_nonzero. }
  rewrite Htr, bool_decide_eq_true_2 by done. cbn [andb].
  rewrite report_text_eq, Htr. simpl default. rewrite Hh.
  by rewrite report_body_empty, size_empty.
Qed.

(** X13. Two runs.  After a run that stored the list, a run that
    probes another timestamp and downloads a text reports exactly the
    records of that text that the first download did not have, and
    stores the new text and timestamp. *)
Theorem next_run_reports_the_difference (w1 w2 : world) (f : files)
    (e2 : Z) (c2 : string) :
  Call_save_cached_content ∈ calls (snd (main w1 (start f))) ->
  probed_epoch w2 = Return (Some e2) ->
  probed_epoch w1 ≠ Return (Some e2) ->
  get_response w2 = Return c2 ->
  PyStr.truthy c2 = true ->
  MIN_EPOCH <= e2 <= MAX_EPOCH ->
  ∃ c1 http2,
    get_response w1 = Return c1
    ∧ epoch_to_http_date e2 = Return http2
    ∧ main w2 (start (fs (snd (main w1 (start f)))))
      = (Return tt,
         mk_state
           (mk_files (Some (Text (PyInt.str e2))) (Some (Text c2))
              (Some (Text (report_header (now_text w2) http2 (Some e2)
                             (Z.of_nat (size (parse_records c2 ∖ parse_records c1)))
                           ++ report_body (parse_records c2 ∖ parse_records c1)))))
           log_updated).
Proof.
  intros H Hp2 Hne2 Hg2 Ht2 He2.
  destruct (updated_run_inv w1 f (or_introl H))
    as (stored & e1 & c1 & previous & http1
        & Hs & Hp & Hne & Hg & Ht & Hc & Hh & ->).
  destruct (epoch_to_http_date_in_range e2 He2) as [http2 Hh2].
  exists c1, http2. split; [done|]. split; [done|]. simpl fs.
  rewrite (download_run w2 _ (Some e1) e2 c2 (Some (universal_newlines c1))), Hh2;
    try done.
  - unfold new_records_of.
    by rewrite truthy_universal_newlines, Ht, parse_records_universal_newlines.
  - apply stored_epoch_str; [done|]. by eapply epoch_to_http_date_Return.
  - intros [= ->]. congruence.
Qed.

End Runs.

Section Failures.

Context {P : platform}.

Lemma stored_epoch_Raise f x :
  stored_epoch f = Raise x ->
  (x = UnicodeDecodeError ∧ LAST_MODIFIED_FILE f = Some Undecodable)
  ∨ ((x = OSError ∨ x = OverflowError)
     ∧ ∃ text e,
         LAST_MODIFIED_FILE f = Some (Text text)
         ∧ PyInt.int (PyStr.strip (universal_newlines text)) = Some e
         ∧ epoch_to_http_date e = Raise x
         ∧ (e < GMTIME_MIN ∨ GMTIME_MAX < e)).
Proof.
  destruct (LAST_MODIFIED_FILE f) as [[text|]|] eqn:Hf.
  3: { by rewrite stored_epoch_absent. }
  2: { rewrite stored_epoch_undecodable by done. intros [= <-]. by left. }
  destruct (PyInt.int (PyStr.strip (universal_newlines text))) as [e|] eqn:Hi.
  2: { by rewrite (stored_epoch_invalid f text). }
  rewrite (stored_epoch_int f text e Hf Hi).
  pose proof (epoch_to_http_date_cases e) as Hc.
  unfold GMTIME_MIN, GMTIME_MAX, TIME_T_MIN, TIME_T_MAX in *.
  destruct (epoch_to_http_date e) as [http|[]] eqn:Hh; try done.
  all: intros [= <-]; right; split; [auto|]; exists text, e;
    repeat split; try done; lia.
Qed.

(** X14. Every way in which [main] ends with an exception of the
    requests, of the date conversions or of the decoding of a file
    (errors of the operating system on opening or writing a file are
    outside the embedding): the timestamp file does not decode; it
    holds an integer that [gmtime] cannot hold; the HEAD request
    fails; the [Last-Modified] header overflows; the GET request
    fails; the cache file does not decode, which is found after the
    download; or the probed epoch is one that the report header cannot
    print. *)
Theorem main_failure_causes (w : world) (f : files) (x : exn) :
  fst (main w (start f)) = Raise x ->
  (x = UnicodeDecodeError ∧ LAST_MODIFIED_FILE f = Some Undecodable)
  ∨ ((x = OSError ∨ x = OverflowError)
     ∧ ∃ text e,
         LAST_MODIFIED_FILE f = Some (Text text)
         ∧ PyInt.int (PyStr.strip (universal_newlines text)) = Some e
         ∧ epoch_to_http_date e = Raise x
         ∧ (e < GMTIME_MIN ∨ GMTIME_MAX < e))
  ∨ head_response w = Raise x
  ∨ (x = OverflowError
     ∧ ∃ h, head_response w = Return (Some h)
            ∧ parse_http_date h = Raise OverflowError)
  ∨ get_response w = Raise x
  ∨ (x = UnicodeDecodeError
     ∧ CACHE_FILE f = Some Undecodable
     ∧ ∃ content, get_response w = Return content ∧ PyStr.truthy content = true)
  ∨ (∃ e, probed_epoch w = Return (Some e)
          ∧ epoch_to_http_date e = Raise x
          ∧ ¬ (MIN_EPOCH <= e <= MAX_EPOCH)).
Proof.
  rewrite main_run. intros Hx.
  destruct (stored_epoch f) as [stored|y] eqn:Hs; simpl in Hx.
  2: { injection Hx as ->.
       apply stored_epoch_Raise in Hs as [H|H]; [by left|by right; left]. }
  do 2 right.
  destruct (probed_epoch w) as [[e|]|y] eqn:Hp; simpl in Hx; [|done|].
  2: { injection Hx as ->. rewrite probed_epoch_eq in Hp.
       destruct (head_response w) as [[h|]|z]; [|done|left; congruence].
       right; left.
       destruct (parse_http_date h) as [[e|]|z] eqn:Eh; [by destruct (e =? 0)|done|].
       injection Hp as ->. apply parse_http_date_Raise in Eh as Hz.
       destruct Hz as [-> _]. split; [done|]. by exists h. }
  destruct (truthy_epoch stored && bool_decide (stored = Some e)) eqn:Hb.
  { apply andb_true_iff in Hb as [Ht Hd]. apply bool_decide_eq_true in Hd. subst stored.
    apply stored_epoch_Some in Hs as (text & http & _ & _ & Hh).
    rewrite report_text_eq, Ht in Hx. simpl default in Hx. by rewrite Hh in Hx. }
  do 2 right.
  destruct (get_response w) as [content|y]; simpl in Hx.
  2: { injection Hx as ->. by left. }
  right.
  destruct (PyStr.truthy content) eqn:Ht; simpl in Hx; [|done].
  destruct (cached_content f) as [previous|y] eqn:Hc; simpl in Hx.
  2: { injection Hx as ->. left. rewrite cached_content_eq in Hc.
       destruct (CACHE_FILE f) as [[text|]|]; [done| |done].
       injection Hc as <-. split; [done|]. split; [done|]. by exists content. }
  right.
  rewrite report_text_eq in Hx.
  assert (truthy_epoch (Some e) = true) as Htr.
  { simpl. apply negb_true_iff, Z.eqb_neq. by eapply probed_epoch_nonzero. }
  rewrite Htr in Hx. simpl default in Hx.
  destruct (epoch_to_http_date e) as [http|y] eqn:Hh; simpl in Hx; [done|].
  injection Hx as ->. exists e. split; [done|]. split; [done|].
  intros [http Hr]%epoch_to_http_date_in_range. congruence.
Qed.

End Failures.

Section Order.

Context {P : platform}.

(** X15. The calls of [main] follow one of two fixed orders and stop
    at the first that raises or ends the run: load, probe, report,
    commit; or load, probe, download, load cache, report, save cache,
    save timestamp, commit.  [commit_changes] is called last, and only
    in a run that returns. *)
Theorem main_calls_in_fixed_order (w : world) (f : files) :
  (calls (snd (main w (start f))) `prefix_of` log_unchanged
   ∨ calls (snd (main w (start f))) `prefix_of` log_updated)
  ∧ (Call_commit_changes ∈ calls (snd (main w (start f))) ->
     fst (main w (start f)) = Return tt
     ∧ (calls (snd (main w (start f))) = log_unchanged
        ∨ calls (snd (main w (start f))) = log_updated)).
Proof.
  rewrite main_run.
  destruct (stored_epoch f) as [stored|x]; simpl.
  2: { split; [left; by exists [Call_check_last_modified; Call_save_new_records;
                               Call_commit_changes]|].
       intros H; exfalso; revert H.
       intros H; repeat (apply elem_of_cons in H as [H|H]; [discriminate H|]);
         by apply elem_of_nil in H. }
  destruct (probed_epoch w) as [[e|]|x]; simpl.
  2,3: split; [left; by exists [Call_save_new_records; Call_commit_changes]|];
       intros H; exfalso; revert H;
       intros H; repeat (apply elem_of_cons in H as [H|H]; [discriminate H|]);
         by apply elem_of_nil in H.
  destruct (truthy_epoch stored && bool_decide (stored = Some e)).
  { destruct (report_text w ∅ stored); simpl.
    - split; [left; by exists []|]. intros _. split; [done|by left].
    - split; [left; by exists [Call_commit_changes]|].
      intros H; exfalso; revert H.
      intros H; repeat (apply elem_of_cons in H as [H|H]; [discriminate H|]);
        by apply elem_of_nil in H. }
  destruct (get_response w) as [content|x]; simpl.
  2: { split; [right; by exists [Call_load_cached_content; Call_save_new_records;
                                Call_save_cached_content; Call_save_last_modified;
                                Call_commit_changes]|].
       intros H; exfalso; revert H.
       intros H; repeat (apply elem_of_cons in H as [H|H]; [discriminate H|]);
         by apply elem_of_nil in H. }
  destruct (PyStr.truthy content); simpl.
  2: { split; [right; by exists [Call_load_cached_content; Call_save_new_records;
                                Call_save_cached_content; Call_save_last_modified;
                                Call_commit_changes]|].
       intros H; exfalso; revert H.
       intros H; repeat (apply elem_of_cons in H as [H|H]; [discriminate H|]);
         by apply elem_of_nil in H. }
  destruct (cached_content f) as [previous|x]; simpl.
  2: { split; [right; by exists [Call_save_new_records; Call_save_cached_content;
                                Call_save_last_modified; Call_commit_changes]|].
       intros H; exfalso; revert H.
       intros H; repeat (apply elem_of_cons in H as [H|H]; [discriminate H|]);
         by apply elem_of_nil in H. }
  destruct (report_text w _ (Some e)); simpl.
  - split; [right; by exists []|]. intros _. split; [done|by right].
  - split; [right; by exists [Call_save_cached_content; Call_save_last_modified;
                              Call_commit_changes]|].
    intros H; exfalso; revert H.
    intros H; repeat (apply elem_of_cons in H as [H|H]; [discriminate H|]);
      by apply elem_of_nil in H.
Qed.

End Order.

(** ** The calls to GitPython *)

Section CommitCalls.

Import Git.

Lemma has_changes_spec g f l : forall log,
  match has_changes g f l log with
  | (r, log') =>
      ∃ asked, log' = (log ++ asked)%list
        ∧ (∀ o, o ∈ asked ->
             o = Op_untracked_files
             ∨ ∃ file, o = Op_is_dirty file ∧ file ∈ l ∧ path_exists f file = true)
        ∧ match r with
          | Return true => ∃ file, file ∈ l ∧ changed g f file
          | Return false => ∀ file, file ∈ l -> ¬ changed g f file
          | Raise x =>
              (∃ file, file ∈ l ∧ is_dirty g file = Raise x)
              ∨ untracked_files g = Raise x
          end
  end.
Proof.
  induction l as [|file rest IH]; intros log; simpl.
  { exists []. split; [by rewrite app_nil_r|]. split.
    - by intros o ?%elem_of_nil.
    - by intros file ?%elem_of_nil. }
  destruct (path_exists f file) eqn:Ee.
  - unfold bind, ask at 1.
    destruct (is_dirty g file) as [[|]|x] eqn:Ed.
    + exists [Op_is_dirty file]. split; [done|]. split.
      * intros o ->%list_elem_of_singleton. right. exists file.
        split; [done|]. split; [left|done].
      * exists file. split; [left|]. split; [done|by left].
    + unfold ask. destruct (untracked_files g) as [u|x] eqn:Eu.
      * destruct (PyStr.mem file u) eqn:Em.
        -- exists [Op_is_dirty file; Op_untracked_files].
           split; [by rewrite <- app_assoc|]. split.
           ++ intros o [->|[->|?%elem_of_nil]%elem_of_cons]%elem_of_cons; [|by left|done].
              right. exists file. split; [done|]. split; [left|done].
           ++ exists file. split; [left|]. split; [done|]. right. split; [done|].
              by exists u.
        -- specialize (IH ((log ++ [Op_is_dirty file]) ++ [Op_untracked_files])%list).
           destruct (has_changes g f rest _) as [r log'].
           destruct IH as (asked & -> & Hask & Hr).
           exists (Op_is_dirty file :: Op_untracked_files :: asked).
           split; [by rewrite <- !app_assoc|]. split.
           ++ intros o [->|[->|Ho]%elem_of_cons]%elem_of_cons; [|by left|].
              ** right. exists file. split; [done|]. split; [left|done].
              ** destruct (Hask o Ho) as [->|(file' & -> & Hin & He)]; [by left|].
                 right. exists file'. split; [done|]. split; [by right|done].
           ++ destruct r as [[|]|x].
              ** destruct Hr as (file' & Hin & Hc). exists file'. split; [by right|done].
              ** intros file' [->|Hin]%elem_of_cons; [|by apply Hr].
                 intros [_ [Hd|(_ & u' & Hu & Hm)]]; [congruence|].
                 rewrite Eu in Hu. injection Hu as <-. congruence.
              ** destruct Hr as [(file' & Hin & Hx)|Hx]; [left|by right].
                 exists file'. split; [by right|done].
      * exists [Op_is_dirty file; Op_untracked_files].
        split; [by rewrite <- app_assoc|]. split; [|by right].
        intros o [->|[->|?%elem_of_nil]%elem_of_cons]%elem_of_cons; [|by left|done].
        right. exists file. split; [done|]. split; [left|done].
    + exists [Op_is_dirty file]. split; [done|]. split.
      * intros o ->%list_elem_of_singleton. right. exists file.
        split; [done|]. split; [left|done].
      * left. exists file. split; [left|done].
  - specialize (IH log). destruct (has_changes g f rest log) as [r log'].
    destruct IH as (asked & -> & Hask & Hr).
    exists asked. split; [done|]. split.
    + intros o Ho. destruct (Hask o Ho) as [->|(file' & -> & Hin & He)]; [by left|].
      right. exists file'. split; [done|]. split; [by right|done].
    + destruct r as [[|]|x].
      * destruct Hr as (file' & Hin & Hc). exists file'. split; [by right|done].
      * intros file' [->|Hin]%elem_of_cons; [|by apply Hr].
        intros [He _]. congruence.
      * destruct Hr as [(file' & Hin & Hx)|Hx]; [left|by right].
        exists file'. split; [by right|done].
Qed.

(** The calls of [commit_changes], by cases on what GitPython answers:
    the files were staged and the commit was asked for; or nothing was
    staged; or staging raised. *)
Lemma git_commit_changes_run g f :
  fst (commit_changes g f) = Return tt
  ∧ ∃ asked : list op,
      (∀ o, o ∈ asked ->
         o = Op_untracked_files
         ∨ ∃ file, o = Op_is_dirty file ∧ file ∈ files_to_commit
                   ∧ path_exists f file = true)
      ∧ ((snd (commit_changes g f)
          = ([Op_Repo] ++ asked
             ++ [Op_index_add files_to_commit; Op_index_commit (message g)])%list
          ∧ open_repo g = Return tt
          ∧ (∃ file, file ∈ files_to_commit ∧ changed g f file)
          ∧ index_add g files_to_commit = Return tt)
         ∨ (snd (commit_changes g f) = ([Op_Repo] ++ asked)%list
            ∧ ((asked = [] ∧ ∃ x, open_repo g = Raise x)
               ∨ (∀ file, file ∈ files_to_commit -> ¬ changed g f file)
               ∨ (∃ file x, file ∈ files_to_commit ∧ is_dirty g file = Raise x)
               ∨ (∃ x, untracked_files g = Raise x)))
         ∨ (snd (commit_changes g f)
            = ([Op_Repo] ++ asked ++ [Op_index_add files_to_commit])%list
            ∧ open_repo g = Return tt
            ∧ (∃ file, file ∈ files_to_commit ∧ changed g f file)
            ∧ ∃ x, index_add g files_to_commit = Raise x)).
Proof.
  unfold commit_changes, try_commit, bind, ask.
  destruct (open_repo g) as [[]|x] eqn:Eo.
  2: { split; [done|]. exists []. split; [by intros o ?%elem_of_nil|].
       right; left. split; [done|]. left. split; [done|by exists x]. }
  cbv beta iota.
  pose proof (has_changes_spec g f files_to_commit ([] ++ [Op_Repo])%list) as H.
  destruct (has_changes g f files_to_commit _) as [r log'].
  destruct H as (asked & -> & Hask & Hr).
  destruct r as [[|]|x].
  - destruct (index_add g files_to_commit) as [[]|x] eqn:Ea.
    + split; [by destruct (index_commit g (message g))|].
      exists asked. split; [done|]. left.
      split; [|done].
      destruct (index_commit g (message g)); simpl; by rewrite <- ?app_assoc.
    + split; [done|]. exists asked. split; [done|]. right; right.
      split; [simpl; by rewrite <- ?app_assoc|]. split; [done|]. split; [done|by exists x].
  - split; [done|]. exists asked. split; [done|]. right; left.
    split; [done|]. right. by left.
  - split; [done|]. exists asked. split; [done|]. right; left.
    split; [done|]. right. right.
    destruct Hr as [(file & Hin & Hx)|Hx]; [left|right]; eauto.
Qed.

End CommitCalls.

Section CommitChanges.

Import Git.

Lemma asked_no_staging (asked : list op) f o :
  (∀ o, o ∈ asked ->
     o = Op_untracked_files
     ∨ ∃ file, o = Op_is_dirty file ∧ file ∈ files_to_commit
               ∧ path_exists f file = true) ->
  o ∈ asked ->
  (∀ m, o ≠ Op_index_commit m) ∧ (∀ l, o ≠ Op_index_add l) ∧ o ≠ Op_Repo
  ∧ ∀ file, o = Op_is_dirty file ->
            file ∈ files_to_commit ∧ path_exists f file = true.
Proof.
  intros H Ho. destruct (H o Ho) as [->|(file & -> & ? & ?)]; [done|].
  split; [done|]. split; [done|]. split; [done|]. by intros ? [= <-].
Qed.

(** X16. [commit_changes] returns whatever GitPython raises.  It asks
    [is_dirty] only about files of its list that exist; it stages
    nothing unless one of them is dirty or untracked, and then it
    stages the three paths of the list; and it asks for a commit only
    after staging succeeded, with the message of the script. *)
Theorem commit_changes_asks_and_returns (g : repo) (f : files) :
  fst (Git.commit_changes g f) = Return tt
  ∧ (∀ file, Op_is_dirty file ∈ snd (Git.commit_changes g f) ->
             file ∈ files_to_commit ∧ path_exists f file = true)
  ∧ (∀ paths, Op_index_add paths ∈ snd (Git.commit_changes g f) ->
              paths = files_to_commit
              ∧ ∃ file, file ∈ files_to_commit ∧ changed g f file)
  ∧ (∀ m, Op_index_commit m ∈ snd (Git.commit_changes g f) ->
          m = message g
          ∧ index_add g files_to_commit = Return tt
          ∧ Op_index_add files_to_commit ∈ snd (Git.commit_changes g f)).
Proof.
  destruct (git_commit_changes_run g f) as (Hret & asked & Hask & Hlog).
  split; [done|].
  pose proof (asked_no_staging asked f) as Hno.
  destruct Hlog as [(-> & Ho & Hc & Hadd)|[(-> & _)|(-> & Ho & Hc & x & Hx)]].
  - split; [|split].
    + intros file [[= ]%list_elem_of_singleton|[Ha|Hin]%elem_of_app]%elem_of_app.
      * destruct (Hno _ Hask Ha) as (_ & _ & _ & H'); by apply H'.
      * apply elem_of_cons in Hin as [[=]|Hin].
        by apply list_elem_of_singleton in Hin.
    + intros paths [[= ]%list_elem_of_singleton|[Ha|Hin]%elem_of_app]%elem_of_app.
      * destruct (Hno _ Hask Ha) as (_ & H' & _); exfalso; by apply (H' paths).
      * apply elem_of_cons in Hin as [[= ->]|Hin]; [done|].
        by apply list_elem_of_singleton in Hin.
    + intros m [[= ]%list_elem_of_singleton|[Ha|Hin]%elem_of_app]%elem_of_app.
      * destruct (Hno _ Hask Ha) as (H' & _); exfalso; by eapply H'.
      * apply elem_of_cons in Hin as [[=]|[= ->]%list_elem_of_singleton].
        split; [done|]. split; [done|].
        apply elem_of_app. right. apply elem_of_app. right. left.
  - split; [|split].
    + intros file [[= ]%list_elem_of_singleton|Ha]%elem_of_app.
      destruct (Hno _ Hask Ha) as (_ & _ & _ & H'); by apply H'.
    + intros paths [[= ]%list_elem_of_singleton|Ha]%elem_of_app.
      destruct (Hno _ Hask Ha) as (_ & H' & _); exfalso; by apply (H' paths).
    + intros m [[= ]%list_elem_of_singleton|Ha]%elem_of_app.
      destruct (Hno _ Hask Ha) as (H' & _); exfalso; by eapply H'.
  - split; [|split].
    + intros file [[= ]%list_elem_of_singleton|[Ha|[=]%list_elem_of_singleton]%elem_of_app]%elem_of_app.
      destruct (Hno _ Hask Ha) as (_ & _ & _ & H'); by apply H'.
    + intros paths [[= ]%list_elem_of_singleton|[Ha|[= ->]%list_elem_of_singleton]%elem_of_app]%elem_of_app; [|done].
      destruct (Hno _ Hask Ha) as (_ & H' & _); exfalso; by apply (H' paths).
    + intros m [[= ]%list_elem_of_singleton|[Ha|[=]%list_elem_of_singleton]%elem_of_app]%elem_of_app.
      destruct (Hno _ Hask Ha) as (H' & _); exfalso; by eapply H'.
Qed.

(** X17. When a commit is made.  A commit is made only if the
    repository opens, a file of the list exists and is dirty or
    untracked, and staging succeeds; and when no call to GitPython
    raises, a commit is made exactly when such a file exists. *)
Theorem commit_is_made_iff_changed (g : repo) (f : files) :
  (committed g f ->
   open_repo g = Return tt
   ∧ (∃ file, file ∈ files_to_commit ∧ changed g f file)
   ∧ index_add g files_to_commit = Return tt)
  ∧ (open_repo g = Return tt ->
     (∀ file x, is_dirty g file ≠ Raise x) ->
     (∀ x, untracked_files g ≠ Raise x) ->
     index_add g files_to_commit = Return tt ->
     index_commit g (message g) = Return tt ->
     (committed g f <-> ∃ file, file ∈ files_to_commit ∧ changed g f file)).
Proof.
  destruct (git_commit_changes_run g f) as (Hret & asked & Hask & Hlog).
  pose proof (asked_no_staging asked f) as Hno.
  assert (Op_index_commit (message g) ∈ snd (Git.commit_changes g f) ->
          open_repo g = Return tt
          ∧ (∃ file, file ∈ files_to_commit ∧ changed g f file)
          ∧ index_add g files_to_commit = Return tt) as Hc.
  { destruct Hlog as [(-> & Ho & Hc & Hadd)|[(-> & _)|(-> & Ho & Hc & x & Hx)]].
    - done.
    - intros [[= ]%list_elem_of_singleton|Ha]%elem_of_app.
      destruct (Hno _ Hask Ha) as (H' & _); exfalso; by eapply H'.
    - intros [[= ]%list_elem_of_singleton|[Ha|[=]%list_elem_of_singleton]%elem_of_app]%elem_of_app.
      destruct (Hno _ Hask Ha) as (H' & _); exfalso; by eapply H'. }
  split; [by intros [H _]; apply Hc|].
  intros Ho Hd Hu Hadd Hcommit. split; [by intros [H _]; apply Hc|].
  intros Hch. split; [|done].
  destruct Hlog as [(-> & _)|[(-> & Hcase)|(-> & _ & _ & x & Hx)]].
  - apply elem_of_app. right. apply elem_of_app. right. right. left.
  - exfalso. destruct Hcase as [(_ & x & Hx)|[Hn|[(file & x & _ & Hx)|(x & Hx)]]].
    + congruence.
    + destruct Hch as (file & Hin & Hc'). by apply (Hn file).
    + by apply (Hd file x).
    + by apply (Hu x).
  - congruence.
Qed.

End CommitChanges.

(** ** Examples *)

Lemma epoch_to_http_date_domain_witness :
  MIN_EPOCH <= 1735689600 <= MAX_EPOCH
  ∧ ∃ http, epoch_to_http_date (P:=glibc_utc) 1735689600 = Return http.
Proof.
  assert (MIN_EPOCH <= 1735689600 <= MAX_EPOCH) as H
    by (unfold MIN_EPOCH, MAX_EPOCH; lia).
  split; [exact H|].
  exact (proj2 (proj1 (epoch_to_http_date_domain (P:=glibc_utc) 1735689600)) H).
Defined.

Lemma parse_http_date_rejects_or_overflows_witness :
  parse_http_date (P:=glibc_utc) "Wed, 01 Jan 99999999999 00:00:00 GMT"
  = Raise OverflowError
  ∧ OverflowError = OverflowError.
Proof.
  split; [reflexivity|].
  exact (proj1 (proj2 (proj2 (parse_http_date_rejects_or_overflows (P:=glibc_utc)
                                "Wed, 01 Jan 99999999999 00:00:00 GMT"))
                  OverflowError eq_refl)).
Defined.

Lemma saved_timestamp_is_loaded_witness :
  MIN_EPOCH <= 1735689600 <= MAX_EPOCH
  ∧ stored_epoch (P:=glibc_utc)
      (fs (snd (save_last_modified (P:=glibc_utc) 1735689600 (start no_files))))
    = Return (Some 1735689600).
Proof.
  assert (MIN_EPOCH <= 1735689600 <= MAX_EPOCH) as H
    by (unfold MIN_EPOCH, MAX_EPOCH; lia).
  split; [exact H|].
  exact (proj1 (proj2 (saved_timestamp_is_loaded (P:=glibc_utc) 1735689600
                         (start no_files) H))).
Defined.

Lemma stored_integer_outcome_witness :
  let f := mk_files (Some (Text "100000000000000000000")) None None in
  PyInt.int (PyStr.strip (universal_newlines "100000000000000000000"))
  = Some 100000000000000000000
  ∧ stored_epoch (P:=glibc_utc) f = Raise OverflowError.
Proof.
  intros f. split; [reflexivity|].
  exact (proj1 (stored_integer_outcome (P:=glibc_utc) example_world f
                  "100000000000000000000" 100000000000000000000 eq_refl eq_refl)).
Defined.

Lemma second_run_changes_nothing_witness :
  Call_save_last_modified
  ∈ calls (snd (main (P:=glibc_utc) example_world (start no_files)))
  ∧ ∃ e content http,
      probed_epoch (P:=glibc_utc) example_world = Return (Some e)
      ∧ get_response example_world = Return content
      ∧ epoch_to_http_date (P:=glibc_utc) e = Return http
      ∧ main (P:=glibc_utc) example_world
          (start (fs (snd (main (P:=glibc_utc) example_world (start no_files)))))
        = (Return tt,
           mk_state
             (mk_files (Some (Text (PyInt.str e))) (Some (Text content))
                (Some (Text (report_header (now_text example_world) http (Some e) 0
                             ++ no_records_line))))
             log_unchanged).
Proof.
  assert (Call_save_last_modified
          ∈ calls (snd (main (P:=glibc_utc) example_world (start no_files)))) as H.
  { rewrite (download_run (P:=glibc_utc) example_world no_files None 1735689600
               ("a" ++ nl ++ "b" ++ nl ++ "# comment" ++ nl) None
               eq_refl eq_refl ltac:(discriminate) eq_refl eq_refl eq_refl).
    change (epoch_to_http_date (P:=glibc_utc) 1735689600)
      with (Return (A:=string) "Wed, 01 Jan 2025 00:00:00 GMT").
    cbv [snd calls log_updated log_report log_cache log_download log_probe app].
    repeat first [apply list_elem_of_here | apply list_elem_of_further]. }
  split; [exact H|].
  exact (second_run_changes_nothing (P:=glibc_utc) example_world no_files H).
Defined.

Lemma example_run_updates :
  main (P:=glibc_utc) example_world (start no_files)
  = (Return tt,
     mk_state
       (mk_files (Some (Text "1735689600"))
          (Some (Text ("a" ++ nl ++ "b" ++ nl ++ "# comment" ++ nl)))
          (Some (Text (report_header "2025-01-01 03:00:00 UTC"
                         "Wed, 01 Jan 2025 00:00:00 GMT" (Some 1735689600) 0
                       ++ no_records_line))))
       log_updated).
Proof.
  rewrite (download_run (P:=glibc_utc) example_world no_files None 1735689600
             ("a" ++ nl ++ "b" ++ nl ++ "# comment" ++ nl) None
             eq_refl eq_refl ltac:(discriminate) eq_refl eq_refl eq_refl).
  change (epoch_to_http_date (P:=glibc_utc) 1735689600)
    with (Return (A:=string) "Wed, 01 Jan 2025 00:00:00 GMT").
  by rewrite new_records_of_no_cache, report_body_empty, size_empty.
Qed.

Lemma example_run_saves :
  Call_save_cached_content
  ∈ calls (snd (main (P:=glibc_utc) example_world (start no_files))).
Proof.
  rewrite example_run_updates.
  cbv [snd calls log_updated log_report log_cache log_download log_probe app].
  repeat first [apply list_elem_of_here | apply list_elem_of_further].
Qed.

Lemma report_parses_to_its_records_witness :
  let s' := snd (save_new_records (P:=glibc_utc) example_world
                   (parse_records ("b" ++ nl ++ "a")) (Some 1735689600)
                   (start no_files)) in
  all_chars no_break (now_text example_world) = true
  ∧ ∃ report,
      OUTPUT_FILE (fs s') = Some (Text report)
      ∧ parse_records report = parse_records ("b" ++ nl ++ "a").
Proof.
  intros s'. split; [reflexivity|].
  apply (report_parses_to_its_records (P:=glibc_utc) example_world
           (parse_records ("b" ++ nl ++ "a")) (Some 1735689600)
           ("b" ++ nl ++ "a") (start no_files) s').
  - reflexivity.
  - reflexivity.
  - subst s'. rewrite save_new_records_run, report_text_eq.
    change (epoch_to_http_date (P:=glibc_utc) (default 0 (Some 1735689600)))
      with (Return (A:=string) "Wed, 01 Jan 2025 00:00:00 GMT").
    reflexivity.
Defined.

Lemma cache_and_timestamp_move_together_witness :
  (Call_save_cached_content
   ∈ calls (snd (main (P:=glibc_utc) example_world (start no_files)))
   ∨ Call_save_last_modified
     ∈ calls (snd (main (P:=glibc_utc) example_world (start no_files))))
  ∧ stored_epoch (P:=glibc_utc)
      (fs (snd (main (P:=glibc_utc) example_world (start no_files))))
    = probed_epoch (P:=glibc_utc) example_world.
Proof.
  split; [left; exact example_run_saves|].
  destruct (cache_and_timestamp_move_together (P:=glibc_utc) example_world no_files
              (or_introl example_run_saves))
    as (e & content & report & Hp & _ & _ & Hs & _).
  rewrite Hs, Hp. reflexivity.
Defined.

Lemma failed_run_writes_nothing_witness :
  fst (main (P:=glibc_utc) offline_world (start no_files)) = Raise RequestException
  ∧ fs (snd (main (P:=glibc_utc) offline_world (start no_files))) = no_files.
Proof.
  split; [reflexivity|].
  exact (proj1 (failed_run_writes_nothing (P:=glibc_utc) offline_world no_files
                  RequestException eq_refl)).
Defined.

Lemma next_run_reports_the_difference_witness :
  MIN_EPOCH <= 1735776000 <= MAX_EPOCH
  ∧ probed_epoch (P:=glibc_utc) next_world = Return (Some 1735776000)
  ∧ ∃ c1 http2,
      get_response example_world = Return c1
      ∧ epoch_to_http_date (P:=glibc_utc) 1735776000 = Return http2
      ∧ main (P:=glibc_utc) next_world
          (start (fs (snd (main (P:=glibc_utc) example_world (start no_files)))))
        = (Return tt,
           mk_state
             (mk_files (Some (Text (PyInt.str 1735776000)))
                (Some (Text ("a" ++ nl ++ "c" ++ nl)))
                (Some (Text (report_header (now_text next_world) http2
                               (Some 1735776000)
                               (Z.of_nat (size (parse_records ("a" ++ nl ++ "c" ++ nl)
                                                ∖ parse_records c1)))
                             ++ report_body (parse_records ("a" ++ nl ++ "c" ++ nl)
                                             ∖ parse_records c1)))))
             log_updated).
Proof.
  assert (MIN_EPOCH <= 1735776000 <= MAX_EPOCH) as H
    by (unfold MIN_EPOCH, MAX_EPOCH; lia).
  split; [exact H|]. split; [reflexivity|].
  apply (next_run_reports_the_difference (P:=glibc_utc) example_world next_world
           no_files 1735776000 ("a" ++ nl ++ "c" ++ nl)).
  - exact example_run_saves.
  - reflexivity.
  - discriminate.
  - reflexivity.
  - reflexivity.
  - exact H.
Defined.

Lemma main_failure_causes_witness :
  fst (main (P:=glibc_utc) example_world (start garbled_cache))
  = Raise UnicodeDecodeError
  ∧ CACHE_FILE garbled_cache = Some Undecodable
  ∧ ∃ content,
      get_response example_world = Return content ∧ PyStr.truthy content = true.
Proof.
  assert (fst (main (P:=glibc_utc) example_world (start garbled_cache))
          = Raise UnicodeDecodeError) as H by reflexivity.
  split; [exact H|].
  destruct (main_failure_causes (P:=glibc_utc) example_world garbled_cache
              UnicodeDecodeError H)
    as [[_ Hf]|[[[Hx|Hx] _]|[Hh|[[Hx _]|[Hg|[(_ & Hc)|(e & Hp & He & _)]]]]]].
  - discriminate Hf.
  - discriminate Hx.
  - discriminate Hx.
  - discriminate Hh.
  - discriminate Hx.
  - discriminate Hg.
  - exact Hc.
  - exfalso.
    change (Return (A:=option Z) (Some 1735689600) = Return (Some e)) in Hp.
    injection Hp as <-.
    discriminate He.
Defined.

Lemma commit_changes_asks_and_returns_witness :
  let f := mk_files None None (Some (Text "report")) in
  Git.Op_is_dirty Git.OUTPUT_PATH ∈ snd (Git.commit_changes example_repo f)
  ∧ Git.path_exists f Git.OUTPUT_PATH = true.
Proof.
  intros f.
  assert (Git.Op_is_dirty Git.OUTPUT_PATH ∈ snd (Git.commit_changes example_repo f))
    as H by (vm_compute; apply list_elem_of_further, list_elem_of_here).
  split; [exact H|].
  exact (proj2 (proj1 (proj2 (commit_changes_asks_and_returns example_repo f))
                  Git.OUTPUT_PATH H)).
Defined.

Lemma commit_is_made_iff_changed_witness :
  let f := mk_files None None (Some (Text "report")) in
  Git.changed example_repo f Git.OUTPUT_PATH
  ∧ Git.committed example_repo f.
Proof.
  intros f.
  assert (Git.changed example_repo f Git.OUTPUT_PATH) as H.
  { split; [reflexivity|]. right. split; [reflexivity|].
    exists [Git.OUTPUT_PATH]. split; reflexivity. }
  split; [exact H|].
  apply (proj2 (commit_is_made_iff_changed example_repo f)).
  - reflexivity.
  - intros file x. discriminate.
  - intros x. discriminate.
  - reflexivity.
  - reflexivity.
  - exists Git.OUTPUT_PATH. split; [apply list_elem_of_here|exact H].
Defined.

Lemma stored_timestamp_tolerates_white_space_witness :
  let f := mk_files (Some (Text (" " ++ PyInt.str 1735689600 ++ nl))) None None in
  all_chars PyStr.isspace " " = true
  ∧ all_chars PyStr.isspace nl = true
  ∧ MIN_EPOCH <= 1735689600 <= MAX_EPOCH
  ∧ stored_epoch (P:=glibc_utc) f = Return (Some 1735689600).
Proof.
  intros f.
  assert (MIN_EPOCH <= 1735689600 <= MAX_EPOCH) as H
    by (unfold MIN_EPOCH, MAX_EPOCH; lia).
  split; [reflexivity|]. split; [reflexivity|]. split; [exact H|].
  exact (stored_timestamp_tolerates_white_space (P:=glibc_utc) f " " nl 1735689600
           eq_refl eq_refl H eq_refl).
Defined.

Lemma header_with_zone_ignores_local_time_witness :
  PyEmail._parsedate_tz "Wed, 01 Jan 2025 00:00:00 GMT"
  = Some (PyEmail.mk_date_tuple 2025 1 1 0 0 0 (Some 0))
  ∧ parse_http_date (P:=glibc_utc) "Wed, 01 Jan 2025 00:00:00 GMT"
    = parse_http_date (P:=glibc_cet) "Wed, 01 Jan 2025 00:00:00 GMT".
Proof.
  split; [reflexivity|].
  apply (header_with_zone_ignores_local_time glibc_utc glibc_cet
           "Wed, 01 Jan 2025 00:00:00 GMT"
           (PyEmail.mk_date_tuple 2025 1 1 0 0 0 (Some 0))).
  - reflexivity.
  - exists 0. reflexivity.
Defined.

Lemma main_calls_in_fixed_order_witness :
  Call_commit_changes
  ∈ calls (snd (main (P:=glibc_utc) example_world (start no_files)))
  ∧ fst (main (P:=glibc_utc) example_world (start no_files)) = Return tt.
Proof.
  assert (Call_commit_changes
          ∈ calls (snd (main (P:=glibc_utc) example_world (start no_files)))) as H.
  { rewrite example_run_updates.
    cbv [snd calls log_updated log_report log_cache log_download log_probe app].
    repeat first [apply list_elem_of_here | apply list_elem_of_further]. }
  split; [exact H|].
  exact (proj1 (proj2 (main_calls_in_fixed_order (P:=glibc_utc) example_world no_files) H)).
Defined.
